(** * Artifact manifest engine: a shallow embedding of
      [wandb/sdk/artifacts/artifact.py] and
      [wandb/sdk/artifacts/storage_handlers/wb_artifact_handler.py].

    Python objects become records, the [dict]s that the code iterates over
    become insertion-ordered association lists, the file system and the
    tables keyed by object identity become finite maps, exceptions become
    the [Raise] branch of a result type, and methods that mutate [self] or
    the local file system become computations in a state monad whose state
    survives a raised exception. *)

From stdpp Require Import base option list strings pretty gmap sets.
From Stdlib Require Import ZArith Ascii String.

Local Open Scope string_scope.
Local Open Scope list_scope.
Local Open Scope Z_scope.

(** ** Exceptions and results *)

Inductive exn : Type :=
| ArtifactFinalizedError
| ArtifactNotLoggedError (attr : string)
| WaitTimeoutError
| ValueError (msg : string)
| KeyError (msg : string)
| TypeError (msg : string)
| AssertionError
| AttributeError (msg : string)
| UnboundLocalError (var : string)
| IndexError
| FileNotFoundError (file : string).

Inductive result (A : Type) : Type :=
| Ok (a : A)
| Raise (e : exn).
Arguments Ok {A} a.
Arguments Raise {A} e.

Definition is_ok {A} (r : result A) : bool :=
  match r with Ok _ => true | Raise _ => false end.

#[global] Instance result_ret : MRet result := fun A a => Ok a.
#[global] Instance result_bind : MBind result := fun A B f r =>
  match r with Ok a => f a | Raise e => Raise e end.

(** ** Python helpers *)

(** [x or d] for an optional string: [None] and the empty string are falsy. *)
Definition or_str (x : option string) (d : string) : string :=
  match x with
  | Some s => if decide (s = "") then d else s
  | None => d
  end.

Fixpoint basename_aux (acc s : string) : string :=
  match s with
  | EmptyString => acc
  | String c s' =>
      if Ascii.eqb c "/" then basename_aux "" s'
      else basename_aux (acc +:+ String c "") s'
  end.

(** [os.path.basename]: what follows the last slash. *)
Definition basename (s : string) : string := basename_aux "" s.

Fixpoint startswith (p s : string) : bool :=
  match p, s with
  | EmptyString, _ => true
  | String a p', String b s' => Ascii.eqb a b && startswith p' s'
  | String _ _, EmptyString => false
  end.

(** [strip_prefix p s = Some t] exactly when [s = p ++ t]. *)
Fixpoint strip_prefix (p s : string) : option string :=
  match p, s with
  | EmptyString, _ => Some s
  | String a p', String b s' =>
      if Ascii.eqb a b then strip_prefix p' s' else None
  | String _ _, EmptyString => None
  end.

(** [os.path.join] on two components, for paths in normal form: the first
    one without a slash at its end, the second one relative. *)
Definition path_join (a b : string) : string :=
  if decide (a = "") then b else a +:+ "/" +:+ b.

(** [os.path.relpath(full, start=root)] for a file below [root], both in
    normal form. *)
Definition relpath (full root : string) : option string :=
  strip_prefix (root +:+ "/") full.

(** [s.split(sep)[0]] for a one-character separator. *)
Fixpoint before_char (sep : ascii) (s : string) : string :=
  match s with
  | EmptyString => EmptyString
  | String c s' => if Ascii.eqb c sep then EmptyString else String c (before_char sep s')
  end.

(** [s.split(sep)] for a one-character separator: never empty. *)
Fixpoint split_char (sep : ascii) (s : string) : list string :=
  match s with
  | EmptyString => [EmptyString]
  | String c s' =>
      if Ascii.eqb c sep then EmptyString :: split_char sep s'
      else match split_char sep s' with
           | w :: ws => String c w :: ws
           | [] => [String c EmptyString]
           end
  end.

(** [sep.join(l)] *)
Fixpoint join_str (sep : string) (l : list string) : string :=
  match l with
  | [] => EmptyString
  | [w] => w
  | w :: ws => w +:+ sep +:+ join_str sep ws
  end.

(** [s.replace(a, b)] on single characters. *)
Fixpoint replace_char (a b : ascii) (s : string) : string :=
  match s with
  | EmptyString => EmptyString
  | String c s' => String (if Ascii.eqb c a then b else c) (replace_char a b s')
  end.

(** [s.lstrip("/")] *)
Fixpoint lstrip_slash (s : string) : string :=
  match s with
  | String c s' => if Ascii.eqb c "/" then lstrip_slash s' else s
  | EmptyString => EmptyString
  end.

Fixpoint dirname_aux (acc cur s : string) (seen : bool) : string :=
  match s with
  | EmptyString => acc
  | String c s' =>
      if Ascii.eqb c "/" then
        dirname_aux (if seen then acc +:+ "/" +:+ cur else cur) EmptyString s' true
      else dirname_aux acc (cur +:+ String c EmptyString) s' seen
  end.

(** The head of [os.path.split], for a path without a leading slash: what
    precedes the last slash. *)
Definition dirname (s : string) : string := dirname_aux "" "" s false.

(** ** Insertion-ordered dictionaries *)

Module PyDict.
Section dict.
Context {V : Type}.

Definition t := list (string * V).

Fixpoint get (k : string) (d : t) : option V :=
  match d with
  | [] => None
  | (k', v) :: d' => if decide (k' = k) then Some v else get k d'
  end.

(** [d[k] = v]: an existing key keeps its position. *)
Fixpoint set (k : string) (v : V) (d : t) : t :=
  match d with
  | [] => [(k, v)]
  | (k', v') :: d' =>
      if decide (k' = k) then (k, v) :: d' else (k', v') :: set k v d'
  end.

Definition keys (d : t) : list string := d.*1.
Definition values (d : t) : list V := d.*2.
Definition contains (k : string) (d : t) : bool := bool_decide (is_Some (get k d)).
End dict.
Arguments t : clear implicits.
End PyDict.

(** ** Manifest entries and manifests *)

(** A URI in the parsed form [urlparse] gives it:
    [scheme://netloc/upath]. [util.host_from_path] is [netloc] and
    [util.uri_from_path] is [upath]. *)
Record URIStr : Type := mkURI {
  scheme : string;
  netloc : string;
  upath : string;
}.

#[global] Instance URIStr_eq_dec : EqDecision URIStr.
Proof. solve_decision. Defined.

Record ArtifactManifestEntry : Type := mkEntry {
  path : string;
  digest : string;
  ref : option URIStr;
  size : option Z;
  local_path : option string;
}.

#[global] Instance ArtifactManifestEntry_eq_dec : EqDecision ArtifactManifestEntry.
Proof. solve_decision. Defined.

Record ArtifactManifest : Type := mkManifest {
  entries : PyDict.t ArtifactManifestEntry;
}.

Definition get_entry_by_path (p : string) (m : ArtifactManifest)
  : option ArtifactManifestEntry :=
  PyDict.get p (entries m).

(** Modelled from the spec: [ArtifactManifest.add_entry] lives in
    [artifact_manifest.py], which is not part of the sources at hand. The
    contract of section 4.1: it fails when an entry already exists at that path
    with a different digest, is a no-op when the entry there is identical,
    and otherwise records the entry under its path. *)
Definition add_entry (e : ArtifactManifestEntry) (m : ArtifactManifest)
  : result ArtifactManifest :=
  match PyDict.get (path e) (entries m) with
  | Some old =>
      if decide (digest old = digest e) then Ok m
      else Raise (ValueError ("Cannot add the same path twice: " +:+ path e))
  | None => Ok (mkManifest (PyDict.set (path e) e (entries m)))
  end.

Inductive ArtifactState : Type := PENDING | COMMITTED | DELETED.

#[global] Instance ArtifactState_eq_dec : EqDecision ArtifactState.
Proof. solve_decision. Defined.

(** ** The metadata service as seen through [self._client]

    The transport is a collaborator: a client is described by the answers it
    gives. Transport failures are outside this model. *)

Record AliasAttr : Type := mkAliasAttr {
  artifactCollectionName : string;
  alias : string;
}.

(** The [artifact] object of an [ArtifactByID] response. *)
Record Attrs : Type := mkAttrs {
  seq_entityName : string;
  seq_projectName : string;
  seq_name : string;
  versionIndex : nat;
  attr_aliases : list AliasAttr;
  attr_state : ArtifactState;
  directUrl : string;
  commitHash : string;
  fileCount : Z;
  createdAt : string;
  updatedAt : option string;
}.

Record RetryingClient : Type := mkClient {
  (** does the backend know the [AddAliasesInput] type (version >= 0.13.0) *)
  has_AddAliasesInput : bool;
  artifact_by_id : string -> option Attrs;
}.

(** What [execute] was asked to do, for the mutations. The alias payload of
    [addAliases] and [deleteAliases] is built by iterating over a Python
    [set], whose order is unspecified: it is kept as a finite set. *)
Inductive Request : Type :=
| AddAliasesMutation (artifactID : option string) (entityName projectName : option string)
    (collection : string) (aliases : gset string)
| DeleteAliasesMutation (artifactID : option string) (entityName projectName : option string)
    (collection : string) (aliases : gset string)
| UpdateArtifactMutation (artifactID : option string) (description : option string)
    (metadata : list (string * string)) (aliases : option (list AliasAttr))
| DeleteArtifactMutation (artifactID : option string) (deleteAliases : bool).

Record LogArtifactResponse : Type := mkResponse {
  error_message : string;
  artifact_id : string;
}.

(** A [MessageFuture], given by what [get(timeout)] returns: [None] when the
    wait times out. *)
Record MessageFuture : Type := mkFuture {
  future_get : option LogArtifactResponse;
}.

(** ** The artifact *)

Record Artifact : Type := mkArtifact {
  _client : option RetryingClient;
  _tmp_dir : option string;
  _added_objs : gmap nat ArtifactManifestEntry;
  _added_local_paths : PyDict.t ArtifactManifestEntry;
  _save_future : option MessageFuture;
  _dependent_artifacts : gset (option string);
  _download_roots : gset string;
  _id : option string;
  _entity : option string;
  _project : option string;
  _name : string;
  _version : option string;
  _source_entity : option string;
  _source_project : option string;
  _source_name : string;
  _source_version : option string;
  _type : string;
  _description : option string;
  _metadata : list (string * string);
  _aliases : list string;
  _saved_aliases : list string;
  _distributed_id : option string;
  _incremental : bool;
  _use_as : option string;
  _state : ArtifactState;
  _manifest : ArtifactManifest;
  _commit_hash : option string;
  _file_count : option Z;
  _created_at : option string;
  _updated_at : option string;
  _final : bool;
}.

(** Field assignments [self._f = v]. *)

Definition set__final (v : bool) (a : Artifact) : Artifact :=
  {| _client := _client a; _tmp_dir := _tmp_dir a; _added_objs := _added_objs a;
     _added_local_paths := _added_local_paths a; _save_future := _save_future a;
     _dependent_artifacts := _dependent_artifacts a; _download_roots := _download_roots a;
     _id := _id a; _entity := _entity a; _project := _project a; _name := _name a;
     _version := _version a; _source_entity := _source_entity a;
     _source_project := _source_project a; _source_name := _source_name a;
     _source_version := _source_version a; _type := _type a;
     _description := _description a; _metadata := _metadata a; _aliases := _aliases a;
     _saved_aliases := _saved_aliases a; _distributed_id := _distributed_id a;
     _incremental := _incremental a; _use_as := _use_as a; _state := _state a;
     _manifest := _manifest a; _commit_hash := _commit_hash a;
     _file_count := _file_count a; _created_at := _created_at a;
     _updated_at := _updated_at a; _final := v |}.

Definition set__manifest (v : ArtifactManifest) (a : Artifact) : Artifact :=
  {| _client := _client a; _tmp_dir := _tmp_dir a; _added_objs := _added_objs a;
     _added_local_paths := _added_local_paths a; _save_future := _save_future a;
     _dependent_artifacts := _dependent_artifacts a; _download_roots := _download_roots a;
     _id := _id a; _entity := _entity a; _project := _project a; _name := _name a;
     _version := _version a; _source_entity := _source_entity a;
     _source_project := _source_project a; _source_name := _source_name a;
     _source_version := _source_version a; _type := _type a;
     _description := _description a; _metadata := _metadata a; _aliases := _aliases a;
     _saved_aliases := _saved_aliases a; _distributed_id := _distributed_id a;
     _incremental := _incremental a; _use_as := _use_as a; _state := _state a;
     _manifest := v; _commit_hash := _commit_hash a;
     _file_count := _file_count a; _created_at := _created_at a;
     _updated_at := _updated_at a; _final := _final a |}.

Definition set__added_local_paths (v : PyDict.t ArtifactManifestEntry) (a : Artifact)
  : Artifact :=
  {| _client := _client a; _tmp_dir := _tmp_dir a; _added_objs := _added_objs a;
     _added_local_paths := v; _save_future := _save_future a;
     _dependent_artifacts := _dependent_artifacts a; _download_roots := _download_roots a;
     _id := _id a; _entity := _entity a; _project := _project a; _name := _name a;
     _version := _version a; _source_entity := _source_entity a;
     _source_project := _source_project a; _source_name := _source_name a;
     _source_version := _source_version a; _type := _type a;
     _description := _description a; _metadata := _metadata a; _aliases := _aliases a;
     _saved_aliases := _saved_aliases a; _distributed_id := _distributed_id a;
     _incremental := _incremental a; _use_as := _use_as a; _state := _state a;
     _manifest := _manifest a; _commit_hash := _commit_hash a;
     _file_count := _file_count a; _created_at := _created_at a;
     _updated_at := _updated_at a; _final := _final a |}.

Definition set__added_objs (v : gmap nat ArtifactManifestEntry) (a : Artifact)
  : Artifact :=
  {| _client := _client a; _tmp_dir := _tmp_dir a; _added_objs := v;
     _added_local_paths := _added_local_paths a; _save_future := _save_future a;
     _dependent_artifacts := _dependent_artifacts a; _download_roots := _download_roots a;
     _id := _id a; _entity := _entity a; _project := _project a; _name := _name a;
     _version := _version a; _source_entity := _source_entity a;
     _source_project := _source_project a; _source_name := _source_name a;
     _source_version := _source_version a; _type := _type a;
     _description := _description a; _metadata := _metadata a; _aliases := _aliases a;
     _saved_aliases := _saved_aliases a; _distributed_id := _distributed_id a;
     _incremental := _incremental a; _use_as := _use_as a; _state := _state a;
     _manifest := _manifest a; _commit_hash := _commit_hash a;
     _file_count := _file_count a; _created_at := _created_at a;
     _updated_at := _updated_at a; _final := _final a |}.

Definition set__tmp_dir (v : option string) (a : Artifact) : Artifact :=
  {| _client := _client a; _tmp_dir := v; _added_objs := _added_objs a;
     _added_local_paths := _added_local_paths a; _save_future := _save_future a;
     _dependent_artifacts := _dependent_artifacts a; _download_roots := _download_roots a;
     _id := _id a; _entity := _entity a; _project := _project a; _name := _name a;
     _version := _version a; _source_entity := _source_entity a;
     _source_project := _source_project a; _source_name := _source_name a;
     _source_version := _source_version a; _type := _type a;
     _description := _description a; _metadata := _metadata a; _aliases := _aliases a;
     _saved_aliases := _saved_aliases a; _distributed_id := _distributed_id a;
     _incremental := _incremental a; _use_as := _use_as a; _state := _state a;
     _manifest := _manifest a; _commit_hash := _commit_hash a;
     _file_count := _file_count a; _created_at := _created_at a;
     _updated_at := _updated_at a; _final := _final a |}.

Definition set__aliases (v : list string) (a : Artifact) : Artifact :=
  {| _client := _client a; _tmp_dir := _tmp_dir a; _added_objs := _added_objs a;
     _added_local_paths := _added_local_paths a; _save_future := _save_future a;
     _dependent_artifacts := _dependent_artifacts a; _download_roots := _download_roots a;
     _id := _id a; _entity := _entity a; _project := _project a; _name := _name a;
     _version := _version a; _source_entity := _source_entity a;
     _source_project := _source_project a; _source_name := _source_name a;
     _source_version := _source_version a; _type := _type a;
     _description := _description a; _metadata := _metadata a; _aliases := v;
     _saved_aliases := _saved_aliases a; _distributed_id := _distributed_id a;
     _incremental := _incremental a; _use_as := _use_as a; _state := _state a;
     _manifest := _manifest a; _commit_hash := _commit_hash a;
     _file_count := _file_count a; _created_at := _created_at a;
     _updated_at := _updated_at a; _final := _final a |}.

Definition set__saved_aliases (v : list string) (a : Artifact) : Artifact :=
  {| _client := _client a; _tmp_dir := _tmp_dir a; _added_objs := _added_objs a;
     _added_local_paths := _added_local_paths a; _save_future := _save_future a;
     _dependent_artifacts := _dependent_artifacts a; _download_roots := _download_roots a;
     _id := _id a; _entity := _entity a; _project := _project a; _name := _name a;
     _version := _version a; _source_entity := _source_entity a;
     _source_project := _source_project a; _source_name := _source_name a;
     _source_version := _source_version a; _type := _type a;
     _description := _description a; _metadata := _metadata a; _aliases := _aliases a;
     _saved_aliases := v; _distributed_id := _distributed_id a;
     _incremental := _incremental a; _use_as := _use_as a; _state := _state a;
     _manifest := _manifest a; _commit_hash := _commit_hash a;
     _file_count := _file_count a; _created_at := _created_at a;
     _updated_at := _updated_at a; _final := _final a |}.

Definition set__download_roots (v : gset string) (a : Artifact) : Artifact :=
  {| _client := _client a; _tmp_dir := _tmp_dir a; _added_objs := _added_objs a;
     _added_local_paths := _added_local_paths a; _save_future := _save_future a;
     _dependent_artifacts := _dependent_artifacts a; _download_roots := v;
     _id := _id a; _entity := _entity a; _project := _project a; _name := _name a;
     _version := _version a; _source_entity := _source_entity a;
     _source_project := _source_project a; _source_name := _source_name a;
     _source_version := _source_version a; _type := _type a;
     _description := _description a; _metadata := _metadata a; _aliases := _aliases a;
     _saved_aliases := _saved_aliases a; _distributed_id := _distributed_id a;
     _incremental := _incremental a; _use_as := _use_as a; _state := _state a;
     _manifest := _manifest a; _commit_hash := _commit_hash a;
     _file_count := _file_count a; _created_at := _created_at a;
     _updated_at := _updated_at a; _final := _final a |}.

Definition set__save_future (f : option MessageFuture) (c : option RetryingClient)
    (a : Artifact) : Artifact :=
  {| _client := c; _tmp_dir := _tmp_dir a; _added_objs := _added_objs a;
     _added_local_paths := _added_local_paths a; _save_future := f;
     _dependent_artifacts := _dependent_artifacts a; _download_roots := _download_roots a;
     _id := _id a; _entity := _entity a; _project := _project a; _name := _name a;
     _version := _version a; _source_entity := _source_entity a;
     _source_project := _source_project a; _source_name := _source_name a;
     _source_version := _source_version a; _type := _type a;
     _description := _description a; _metadata := _metadata a; _aliases := _aliases a;
     _saved_aliases := _saved_aliases a; _distributed_id := _distributed_id a;
     _incremental := _incremental a; _use_as := _use_as a; _state := _state a;
     _manifest := _manifest a; _commit_hash := _commit_hash a;
     _file_count := _file_count a; _created_at := _created_at a;
     _updated_at := _updated_at a; _final := _final a |}.

(** ** The state threaded through the methods

    [self] is the artifact the method is called on, [files] the local file
    system (path to bytes), [next_tmp]
    counts the temporary names handed out so far and [sent] logs the
    mutations executed by the client, oldest first. *)

Record State : Type := mkState {
  self : Artifact;
  files : gmap string string;
  next_tmp : nat;
  sent : list Request;
}.

Definition M (A : Type) : Type := State -> result A * State.

#[global] Instance M_ret : MRet M := fun A a st => (Ok a, st).
#[global] Instance M_bind : MBind M := fun A B f m st =>
  match m st with
  | (Ok a, st') => f a st'
  | (Raise e, st') => (Raise e, st')
  end.

Definition raise {A} (e : exn) : M A := fun st => (Raise e, st).
Definition get_self : M Artifact := fun st => (Ok (self st), st).
Definition get_files : M (gmap string string) := fun st => (Ok (files st), st).
Definition modify_self (f : Artifact -> Artifact) : M unit := fun st =>
  (Ok tt, mkState (f (self st)) (files st) (next_tmp st) (sent st)).
Definition put_files (fs : gmap string string) : M unit := fun st =>
  (Ok tt, mkState (self st) fs (next_tmp st) (sent st)).
Definition fresh_tmp_from (pick : nat -> nat) : M nat := fun st =>
  let n := pick (next_tmp st) in
  (Ok n, mkState (self st) (files st) (S n) (sent st)).
Definition fresh_tmp : M nat := fresh_tmp_from (fun n => n).
Definition execute (r : Request) : M unit := fun st =>
  (Ok tt, mkState (self st) (files st) (next_tmp st) (sent st ++ [r])).
Definition lift {A} (r : result A) : M A := fun st => (r, st).

(** [try: body except KeyError: handler] *)
Definition try_except_KeyError {A} (body handler : M A) : M A := fun st =>
  match body st with
  | (Raise (KeyError _), st') => handler st'
  | r => r
  end.

(** [for x in l: body(x)] *)
Fixpoint for_each {A} (l : list A) (body : A -> M unit) : M unit :=
  match l with
  | [] => mret tt
  | x :: l' => body x ≫= fun _ => for_each l' body
  end.

(** ** Construction *)

Definition name_char (c : ascii) : bool :=
  let n := nat_of_ascii c in
  ((97 <=? n) && (n <=? 122) || (65 <=? n) && (n <=? 90) || (48 <=? n) && (n <=? 57)
   || Ascii.eqb c "_" || Ascii.eqb c "-" || Ascii.eqb c ".")%nat.

(** [re.match(r"^[a-zA-Z0-9_\-.]+$", name)]: one or more characters of the
    class; [$] also matches just before a final newline. *)
Fixpoint name_matches (s : string) : bool :=
  match s with
  | EmptyString => false
  | String c EmptyString => name_char c
  | String c (String d EmptyString) =>
      name_char c && (name_char d || Ascii.eqb d "010")
  | String c s' => name_char c && name_matches s'
  end.

(** [__init__(name, type, description, metadata, incremental, use_as)].
    [metadata] is already a JSON-friendly mapping, so normalising it gives
    it back; [None] becomes the empty mapping. The random client ids, the
    storage policy object and the registration in the process-wide cache are
    not part of the record. *)
Definition __init__ (name type : string) (description : option string)
    (metadata : option (list (string * string))) (incremental : bool)
    (use_as : option string) : result Artifact :=
  if negb (name_matches name) then
    Raise (ValueError ("Artifact name may only contain alphanumeric characters, dashes, underscores, and dots. Invalid name: " +:+ name))
  else if bool_decide (type = "job") || startswith "wandb-" type then
    Raise (ValueError "Artifact types 'job' and 'wandb-*' are reserved for internal use. Please use a different type.")
  else
    Ok {| _client := None; _tmp_dir := None; _added_objs := ∅;
          _added_local_paths := []; _save_future := None;
          _dependent_artifacts := ∅; _download_roots := ∅;
          _id := None; _entity := None; _project := None; _name := name;
          _version := None; _source_entity := None; _source_project := None;
          _source_name := name; _source_version := None; _type := type;
          _description := description; _metadata := default [] metadata;
          _aliases := ["latest"]; _saved_aliases := []; _distributed_id := None;
          _incremental := incremental; _use_as := use_as; _state := PENDING;
          _manifest := mkManifest []; _commit_hash := None; _file_count := None;
          _created_at := None; _updated_at := None; _final := false |}.

(** ** Properties *)

Definition assert_some {A} (x : option A) : result A :=
  match x with Some v => Ok v | None => Raise AssertionError end.

(** [id] and [source_version] answer [None] on a pending artifact; the other
    server-assigned fields raise. *)
Definition id (a : Artifact) : result (option string) :=
  if decide (_state a = PENDING) then Ok None
  else v ← assert_some (_id a); Ok (Some v).

Definition entity (a : Artifact) : result string :=
  if decide (_state a = PENDING) then Raise (ArtifactNotLoggedError "entity")
  else assert_some (_entity a).

Definition project (a : Artifact) : result string :=
  if decide (_state a = PENDING) then Raise (ArtifactNotLoggedError "project")
  else assert_some (_project a).

Definition name (a : Artifact) : string := _name a.

Definition version (a : Artifact) : result string :=
  if decide (_state a = PENDING) then Raise (ArtifactNotLoggedError "version")
  else assert_some (_version a).

Definition source_entity (a : Artifact) : result string :=
  if decide (_state a = PENDING) then Raise (ArtifactNotLoggedError "source_entity")
  else assert_some (_source_entity a).

Definition source_project (a : Artifact) : result string :=
  if decide (_state a = PENDING) then Raise (ArtifactNotLoggedError "source_project")
  else assert_some (_source_project a).

Definition source_name (a : Artifact) : string := _source_name a.

Definition source_version (a : Artifact) : result (option string) :=
  if decide (_state a = PENDING) then Ok None
  else v ← assert_some (_source_version a); Ok (Some v).

Definition description (a : Artifact) : option string := _description a.
Definition metadata (a : Artifact) : list (string * string) := _metadata a.
Definition aliases (a : Artifact) : list string := _aliases a.

Fixpoint contains_char (c : ascii) (s : string) : bool :=
  match s with
  | EmptyString => false
  | String d s' => Ascii.eqb c d || contains_char c s'
  end.

(** The [aliases] setter. *)
Definition set_aliases (v : list string) (a : Artifact) : result Artifact :=
  if existsb (fun al => contains_char "/" al || contains_char ":" al) v then
    Raise (ValueError "Aliases must not contain any of the following characters: /, :")
  else Ok (set__aliases v a).

Definition manifest (a : Artifact) : ArtifactManifest := _manifest a.

(** The artifact's [size] property (the name [size] is the entry's field):
    the loop with its accumulator. *)
Definition size_of (a : Artifact) : Z :=
  fold_left
    (fun total_size entry =>
       match size entry with
       | Some n => total_size + n
       | None => total_size
       end)
    (PyDict.values (entries (_manifest a))) 0.

Definition commit_hash (a : Artifact) : result string :=
  if decide (_state a = PENDING) then Raise (ArtifactNotLoggedError "commit_hash")
  else assert_some (_commit_hash a).

Definition file_count (a : Artifact) : result Z :=
  if decide (_state a = PENDING) then Raise (ArtifactNotLoggedError "file_count")
  else assert_some (_file_count a).

Definition created_at (a : Artifact) : result string :=
  if decide (_state a = PENDING) then Raise (ArtifactNotLoggedError "created_at")
  else assert_some (_created_at a).

(** [updated_at] reports itself as [created_at] in its error, and asserts on
    [_created_at]. *)
Definition updated_at (a : Artifact) : result string :=
  if decide (_state a = PENDING) then Raise (ArtifactNotLoggedError "created_at")
  else c ← assert_some (_created_at a);
       Ok (match _updated_at a with
           | Some u => if decide (u = "") then c else u
           | None => c
           end).

(** ** State management *)

Definition finalize : M unit := modify_self (set__final true).

Definition _ensure_can_add : M unit :=
  a ← get_self;
  if _final a then raise ArtifactFinalizedError else mret tt.

Definition is_draft (a : Artifact) : bool := bool_decide (_state a = PENDING).

Definition _is_draft_save_started (a : Artifact) : bool :=
  bool_decide (is_Some (_save_future a)).

Definition _set_save_future (save_future : MessageFuture) (client : RetryingClient)
  : M unit :=
  modify_self (set__save_future (Some save_future) (Some client)).

(** ** Collaborators

    Code that the artifact calls and that lives outside the two modules
    embedded here enters through one environment. *)

Record Env : Type := mkEnv {
  (** [wandb.sdk.lib.paths.LogicalPath]: normalisation of a logical path *)
  LogicalPath : string -> string;
  (** base64 MD5 of a byte string *)
  md5_b64 : string -> string;
  b64_to_hex_id : string -> string;
  hex_to_b64_id : string -> string;
  get_staging_dir : string;
  get_artifact_dir : string;
  is_windows : bool;
  (** [os.path.splitdrive]: the drive or share of a path, and the rest *)
  splitdrive : string -> string * string;
  abspath : string -> string;
  (** [with_suffix] of each class in [WBValue.type_mapping().values()] *)
  type_mapping : list (string -> string);
  (** [Artifact.from_id]: the cached or fetched artifact with that id *)
  from_id : string -> option Artifact;
  (** [requests.get(url)], [raise_for_status] and [from_manifest_json] *)
  requests_get : string -> result ArtifactManifest;
  (** the storage policy's handlers for the schemes other than
      [wandb-artifact] *)
  other_store_path : URIStr -> option string -> bool -> option Z
                     -> result (list ArtifactManifestEntry);
  (** the bytes the content store serves for an entry *)
  fetch : ArtifactManifestEntry -> result string;
  (** [ArtifactManifestEntry.ref_url] *)
  ref_url : ArtifactManifestEntry -> result URIStr;
  (** [os.path.join(self.TMP_DIR.name, str(id(self)))] *)
  class_tmp_dir : string;
  (** [artifact.download()] on a dependent artifact *)
  download_dependent : option string -> M unit;
  (** the order in which the tasks handed to a thread pool reach the
      artifact: some rearrangement of the tasks, which the scheduler picks *)
  pool_order : list (string * string) -> list (string * string);
}.

(** A [WBValue] as far as [add] looks at it. [to_json] is given the artifact
    and may add to it; it answers the serialised text. *)
Record WBValue : Type := mkWBValue {
  obj_id : nat;
  allowed_type : bool;
  _get_artifact_entry_ref_url : option URIStr;
  to_json : M string;
  with_suffix : string -> string;
}.

(** Modelled from the spec: [util.alias_is_version_index] is not part of the
    sources at hand; section 3 reserves the aliases of the form [v<N>]. *)
Definition alias_is_version_index (al : string) : bool :=
  match al with
  | String "v" (String d rest) =>
      forallb (fun c => (48 <=? nat_of_ascii c)%nat && (nat_of_ascii c <=? 57)%nat)
              (d :: list_ascii_of_string rest)
  | _ => false
  end.

(** Modelled from the spec: [ArtifactManifestEntry._is_artifact_reference] is
    not part of the sources at hand; section 6 names the internal
    cross-artifact scheme. *)
Definition _is_artifact_reference (e : ArtifactManifestEntry) : bool :=
  match ref e with
  | Some u => bool_decide (scheme u = "wandb-artifact")
  | None => false
  end.

Section Engine.
Context (env : Env).

(** *** Files *)

Definition isfile (p : string) : M bool :=
  fs ← get_files; mret (bool_decide (is_Some (fs !! p))).

(** The model has files only: a directory, named in normal form, exists when
    a file lies below it. *)
Definition isdir (p : string) : M bool :=
  fs ← get_files;
  mret (existsb (fun f => bool_decide (is_Some (relpath f p))) (map_to_list fs).*1).

Definition read_bytes (p : string) : M string :=
  fs ← get_files;
  match fs !! p with
  | Some c => mret c
  | None => raise (FileNotFoundError p)
  end.

Definition write_bytes (p c : string) : M unit :=
  fs ← get_files; put_files (<[p := c]> fs).

Definition os_remove (p : string) : M unit :=
  fs ← get_files;
  match fs !! p with
  | Some _ => put_files (delete p fs)
  | None => raise (FileNotFoundError p)
  end.

(** [os.walk(root)] flattened: every file below [root], with its path
    relative to [root]. The order in which the files come is the file
    system's. *)
Definition walk (root : string) (fs : gmap string string) : list (string * string) :=
  omap (fun f => rel ← relpath f root; Some (f, rel)) (map_to_list fs).*1.

(** Modelled from the spec: [hashutil.md5_file_b64] is not part of the
    sources at hand; section 3 makes the digest of a plain file the base64
    MD5 of its bytes, which needs the file to be there. *)
Definition md5_file_b64 (p : string) : M string :=
  c ← read_bytes p; mret (md5_b64 env c).

Definition getsize (p : string) : M Z :=
  c ← read_bytes p; mret (Z.of_nat (String.length c)).

(** *** After a save *)

Definition the_client : M RetryingClient :=
  a ← get_self;
  match _client a with
  | Some c => mret c
  | None => raise (AttributeError "'NoneType' object has no attribute 'execute'")
  end.

Definition own_aliases (collection : string) (l : list AliasAttr) : list string :=
  alias <$> filter (fun al => artifactCollectionName al = collection
                              ∧ alias_is_version_index (alias al) = false) l.

Definition _populate_after_save (artifact_id : string) : M unit :=
  c ← the_client;
  match artifact_by_id c artifact_id with
  | None => raise (ValueError ("Unable to fetch artifact with id " +:+ artifact_id))
  | Some attrs =>
      let nm := seq_name attrs +:+ ":v" +:+ pretty (versionIndex attrs) in
      let ver := "v" +:+ pretty (versionIndex attrs) in
      modify_self (fun a =>
        {| _client := _client a; _tmp_dir := _tmp_dir a; _added_objs := _added_objs a;
           _added_local_paths := _added_local_paths a; _save_future := _save_future a;
           _dependent_artifacts := _dependent_artifacts a;
           _download_roots := _download_roots a;
           _id := Some artifact_id;
           _entity := Some (seq_entityName attrs);
           _project := Some (seq_projectName attrs);
           _name := nm; _version := Some ver;
           _source_entity := Some (seq_entityName attrs);
           _source_project := Some (seq_projectName attrs);
           _source_name := nm; _source_version := Some ver;
           _type := _type a; _description := _description a; _metadata := _metadata a;
           _aliases := own_aliases (before_char ":" nm) (attr_aliases attrs);
           _saved_aliases := _saved_aliases a; _distributed_id := _distributed_id a;
           _incremental := _incremental a; _use_as := _use_as a;
           _state := attr_state attrs;
           _manifest := _manifest a; _commit_hash := _commit_hash a;
           _file_count := _file_count a; _created_at := _created_at a;
           _updated_at := _updated_at a; _final := _final a |});;
      m ← lift (requests_get env (directUrl attrs));
      modify_self (fun a =>
        {| _client := _client a; _tmp_dir := _tmp_dir a; _added_objs := _added_objs a;
           _added_local_paths := _added_local_paths a; _save_future := _save_future a;
           _dependent_artifacts := _dependent_artifacts a;
           _download_roots := _download_roots a;
           _id := _id a; _entity := _entity a; _project := _project a;
           _name := _name a; _version := _version a;
           _source_entity := _source_entity a; _source_project := _source_project a;
           _source_name := _source_name a; _source_version := _source_version a;
           _type := _type a; _description := _description a; _metadata := _metadata a;
           _aliases := _aliases a; _saved_aliases := _saved_aliases a;
           _distributed_id := _distributed_id a; _incremental := _incremental a;
           _use_as := _use_as a; _state := _state a;
           _manifest := m;
           _commit_hash := Some (commitHash attrs);
           _file_count := Some (fileCount attrs);
           _created_at := Some (createdAt attrs);
           _updated_at := updatedAt attrs;
           _final := _final a |})
  end.

(** [wait(timeout)]; the method returns [self], which is the state's. *)
Definition wait : M unit :=
  a ← get_self;
  if decide (_state a = PENDING) then
    match _save_future a with
    | None => raise (ArtifactNotLoggedError "wait")
    | Some fut =>
        match future_get fut with
        | None => raise WaitTimeoutError
        | Some response =>
            if decide (error_message response = "") then
              _populate_after_save (artifact_id response)
            else raise (ValueError (error_message response))
        end
    end
  else mret tt.

(** *** Persisting changes *)

Definition alias_inputs (collection : string) (l : list string) : list AliasAttr :=
  (fun al => mkAliasAttr collection al) <$> l.

Definition _update : M unit :=
  c ← the_client;
  a ← get_self;
  aliases ←
    (if has_AddAliasesInput c then
       let aliases_to_add : gset string :=
         list_to_set (_aliases a) ∖ list_to_set (_saved_aliases a) in
       let aliases_to_delete : gset string :=
         list_to_set (_saved_aliases a) ∖ list_to_set (_aliases a) in
       (if decide (aliases_to_add = ∅) then mret tt
        else i ← lift (id a);
             execute (AddAliasesMutation i (_entity a) (_project a)
                        (before_char ":" (_name a)) aliases_to_add));;
       (if decide (aliases_to_delete = ∅) then mret tt
        else i ← lift (id a);
             execute (DeleteAliasesMutation i (_entity a) (_project a)
                        (before_char ":" (_name a)) aliases_to_delete));;
       modify_self (set__saved_aliases (_aliases a));;
       mret None
     else
       mret (Some (alias_inputs (before_char ":" (_name a)) (_aliases a))));
  i ← lift (id a);
  execute (UpdateArtifactMutation i (description a) (metadata a) aliases).

(** [save]: a logged artifact is updated; a pending one is handed to the
    run's [log_artifact], which is the caller's. *)
Definition save (log_artifact : M unit) : M unit :=
  a ← get_self;
  if decide (_state a ≠ PENDING) then _update else log_artifact.

(** *** Adding entries *)

Definition tmp_path (dir : string) (n : nat) : string :=
  path_join dir ("tmp" +:+ pretty n).

(** The first number from [n] on whose temporary name is not taken. *)
Fixpoint first_free (dir : string) (fs : gmap string string) (n fuel : nat) : nat :=
  match fuel with
  | O => n
  | S k =>
      if bool_decide (is_Some (fs !! tmp_path dir n))
      then first_free dir fs (S n) k else n
  end.

(** [tempfile.NamedTemporaryFile(dir=get_staging_dir(), delete=False)]:
    a new, empty file under a name that is not in use. *)
Definition NamedTemporaryFile (dir : string) : M string :=
  fs ← get_files;
  n ← fresh_tmp_from (fun n => first_free dir fs n (base.size fs));
  let p := tmp_path dir n in
  write_bytes p "";; mret p.

Definition copyfile (src dst : string) : M unit :=
  c ← read_bytes src; write_bytes dst c.

(** [digest or md5_file_b64(staging_path)] *)
Definition digest_or (d : option string) (otherwise : M string) : M string :=
  match d with
  | Some s => if decide (s = "") then otherwise else mret s
  | None => otherwise
  end.

Definition _add_local_file (name path_ : string) (digest_ : option string)
  : M ArtifactManifestEntry :=
  staging_path ← NamedTemporaryFile (get_staging_dir env);
  copyfile path_ staging_path;;
  d ← digest_or digest_ (md5_file_b64 staging_path);
  sz ← getsize staging_path;
  let entry := {| path := name; digest := d; ref := None; size := Some sz;
                  local_path := Some staging_path |} in
  a ← get_self;
  m ← lift (add_entry entry (_manifest a));
  modify_self (set__manifest m);;
  modify_self (fun a => set__added_local_paths
                          (PyDict.set path_ entry (_added_local_paths a)) a);;
  mret entry.

(** The deterministic name used for temporary files: the first dot-separated
    part of the file name is replaced by twenty hex digits of the digest. *)
Definition tmp_name (name d : string) : string :=
  let file_path := dirname name in
  let file_name := basename name in
  let file_name_parts :=
    match split_char "." file_name with
    | _ :: parts => String.substring 0 20 (b64_to_hex_id env d) :: parts
    | [] => []
    end in
  path_join file_path (join_str "." file_name_parts).

Definition add_file (local_path_ : string) (name_ : option string) (is_tmp : bool)
  : M ArtifactManifestEntry :=
  _ensure_can_add;;
  b ← isfile local_path_;
  if negb b then raise (ValueError ("Path is not a file: " +:+ local_path_))
  else
    let name1 := LogicalPath env (or_str name_ (basename local_path_)) in
    d ← md5_file_b64 local_path_;
    let name2 := if is_tmp then tmp_name name1 d else name1 in
    _add_local_file name2 local_path_ (Some d).

(** [add_dir]: the worker pool maps [add_manifest_file] over the paths. The
    eight threads of the pool decide in which order the tasks reach the
    manifest; the tasks are run here one after the other in the order
    [pool_order] gives them, which is any rearrangement of the paths. *)
Definition add_dir (local_path_ : string) (name_ : option string) : M unit :=
  _ensure_can_add;;
  b ← isdir local_path_;
  if negb b then raise (ValueError ("Path is not a directory: " +:+ local_path_))
  else
    fs ← get_files;
    let paths :=
      (fun fr : string * string =>
         let (physical_path, rel) := fr in
         (match name_ with
          | Some n => path_join n rel
          | None => rel
          end, physical_path)) <$> walk local_path_ fs in
    for_each (pool_order env paths) (fun log_phy =>
      _add_local_file log_phy.1 log_phy.2 None;; mret tt).

(** [new_file(name)] as a context manager around [body], which is given the
    path of the open file and answers the text it wrote. The result is the
    path of the file, [f.name]. *)
Definition new_file (name_ : string) (body : string -> M string) : M string :=
  _ensure_can_add;;
  a ← get_self;
  tmp ← match _tmp_dir a with
        | Some d => mret d
        | None =>
            n ← fresh_tmp;
            let d := "/tmp/tmp" +:+ pretty n in
            modify_self (set__tmp_dir (Some d));; mret d
        end;
  let p := path_join tmp (lstrip_slash name_) in
  fs ← get_files;
  if bool_decide (is_Some (fs !! p)) then
    raise (ValueError ("File with name " +:+ name_ +:+ " already exists at " +:+ p))
  else
    write_bytes p "";;
    text ← body p;
    write_bytes p text;;
    add_file p (Some name_) false;; mret p.

(** *** Looking entries up *)

(** [_get_obj_entry(name)[0]]: the entry under the first type-suffixed name
    that the manifest knows. *)
Definition _get_obj_entry (name_ : string) (a : Artifact)
  : option ArtifactManifestEntry :=
  head (omap (fun suffixed : string -> string =>
                PyDict.get (suffixed name_) (entries (_manifest a)))
             (type_mapping env)).

(** [get_path(name)]. The entry's back pointer to its artifact is not part
    of the entry record. *)
Definition get_path (name_ : string) : M ArtifactManifestEntry :=
  a ← get_self;
  if decide (_state a = PENDING) then raise (ArtifactNotLoggedError "get_path")
  else
    let nm := LogicalPath env name_ in
    match PyDict.get nm (entries (manifest a)) with
    | Some e => mret e
    | None =>
        match _get_obj_entry nm a with
        | Some e => mret e
        | None => raise (KeyError ("Path not contained in artifact: " +:+ nm))
        end
    end.

(** *** Loading a manifest *)

(** [_load_manifest(url)]. For a cross-artifact entry the source evaluates
    [self.client] as an argument of [from_id]; the class defines [_client]
    only, so the attribute lookup raises. *)
Definition _load_manifest (url : string) : M unit :=
  m ← lift (requests_get env url);
  modify_self (set__manifest m);;
  for_each (PyDict.values (entries m)) (fun entry =>
    if _is_artifact_reference entry then
      raise (AttributeError "'Artifact' object has no attribute 'client'")
    else mret tt).

(** A call [target._load_manifest(args...)]: Python binds the positional
    arguments to the one parameter [url] before the body runs. *)
Definition call__load_manifest (args : list string) : M unit :=
  match args with
  | [url] => _load_manifest url
  | [] => raise (TypeError "_load_manifest() missing 1 required positional argument: 'url'")
  | _ => raise (TypeError "_load_manifest() takes 2 positional arguments")
  end.

(** *** The cross-artifact storage handler: [WBArtifactHandler] *)

Definition _scheme : string := "wandb-artifact".

Definition can_handle (parsed_url : URIStr) : bool :=
  bool_decide (scheme parsed_url = _scheme).

(** The variables [target_artifact], [artifact_file_path] and [entry] of
    [store_path], unbound until the loop body has run once. *)
Definition Bound : Type := Artifact * string * ArtifactManifestEntry.

(** The [while] loop of [store_path]. [reload] is the effect of the call
    [target_artifact._load_manifest()] on the target. [None]: the loop
    has not finished within [fuel] turns. *)
Fixpoint resolve (reload : Artifact -> result Artifact) (fuel : nat)
    (path_ : option URIStr) (bound : option Bound) : option (result (option Bound)) :=
  match path_ with
  | None => Some (Ok bound)
  | Some u =>
      if decide (scheme u = _scheme) then
        match fuel with
        | O => None
        | S k =>
            let artifact_id := netloc u in
            let artifact_file_path := upath u in
            match from_id env (hex_to_b64_id env artifact_id) with
            | None =>
                Some (Raise (AttributeError
                  "'NoneType' object has no attribute '_load_manifest'"))
            | Some target_artifact =>
                match reload target_artifact with
                | Raise e => Some (Raise e)
                | Ok target_artifact =>
                    match get_entry_by_path artifact_file_path
                            (_manifest target_artifact) with
                    | None =>
                        Some (Raise (AttributeError
                          "'NoneType' object has no attribute 'ref'"))
                    | Some entry =>
                        resolve reload k (ref entry)
                          (Some (target_artifact, artifact_file_path, entry))
                    end
                end
            end
        end
      else Some (Ok bound)
  end.

Definition uri_str (u : URIStr) : string :=
  scheme u +:+ "://" +:+ netloc u +:+ "/" +:+ upath u.

(** What follows the loop: the new reference and the one entry. *)
Definition emit (name_ : option string) (bound : option Bound)
  : result (list ArtifactManifestEntry) :=
  match bound with
  | None => Raise (UnboundLocalError "target_artifact")
  | Some (target_artifact, artifact_file_path, entry) =>
      i ← id target_artifact;
      match i with
      | None => Raise (TypeError "b64_to_hex_id: expected a string, not None")
      | Some i =>
          let path_ := mkURI _scheme (b64_to_hex_id env i) artifact_file_path in
          Ok [ {| path := or_str name_ (basename (uri_str path_));
                  ref := Some path_;
                  size := Some 0;
                  digest := digest entry;
                  local_path := None |} ]
      end
  end.

Definition store_path_with (reload : Artifact -> result Artifact) (fuel : nat)
    (path_ : URIStr) (name_ : option string) (checksum : bool)
    (max_objects : option Z) : option (result (list ArtifactManifestEntry)) :=
  r ← resolve reload fuel (Some path_) None;
  Some (bound ← r; emit name_ bound).

(** The call as the source writes it: [target_artifact._load_manifest()],
    with no argument, run on the target. *)
Definition reload_as_written (target : Artifact) : result Artifact :=
  match call__load_manifest [] (mkState target ∅ 0 []) with
  | (Ok _, st) => Ok (self st)
  | (Raise e, _) => Raise e
  end.

(** [store_path]. The loop of the source leaves its first turn by an
    exception or is not entered at all, so that one turn of fuel is all it
    needs (lemma [store_path_fuel] below). *)
Definition store_path (path_ : URIStr) (name_ : option string) (checksum : bool)
    (max_objects : option Z) : result (list ArtifactManifestEntry) :=
  default (Raise (UnboundLocalError "target_artifact"))
    (store_path_with reload_as_written 1 path_ name_ checksum max_objects).

(** Modelled from the spec: [WandbStoragePolicy.store_reference] is not part
    of the sources at hand; section 4.2 has it delegate to the handler that
    matches the scheme of the URI. *)
Definition store_reference (uri : URIStr) (name_ : option string) (checksum : bool)
    (max_objects : option Z) : result (list ArtifactManifestEntry) :=
  if can_handle uri then store_path uri name_ checksum max_objects
  else other_store_path env uri name_ checksum max_objects.

Definition add_reference (uri : ArtifactManifestEntry + URIStr) (name_ : option string)
    (checksum : bool) (max_objects : option Z) : M (list ArtifactManifestEntry) :=
  _ensure_can_add;;
  let name1 := LogicalPath env <$> name_ in
  u ← match uri with
      | inl e => lift (ref_url env e)
      | inr u => mret u
      end;
  if decide (scheme u = "") then
    raise (ValueError "References must be URIs. To reference a local file, use file://")
  else
    manifest_entries ← lift (store_reference u name1 checksum max_objects);
    for_each manifest_entries (fun entry =>
      a ← get_self;
      m ← lift (add_entry entry (_manifest a));
      modify_self (set__manifest m));;
    mret manifest_entries.

(** [add(obj, name)]. The note the source leaves on [obj] about its target
    artifact is a change to [obj], which the state does not hold. *)
Definition add (obj : WBValue) (name_ : string) : M ArtifactManifestEntry :=
  _ensure_can_add;;
  let name1 := LogicalPath env name_ in
  let is_tmp_name := startswith "media/tables" name1 in
  if negb (allowed_type obj) then
    raise (ValueError "Found object of a type that is not one of the allowed types.")
  else
    a ← get_self;
    match _added_objs a !! obj_id obj with
    | Some e => mret e
    | None =>
        match _get_artifact_entry_ref_url obj with
        | Some ref_path =>
            l ← add_reference (inr ref_path) (Some (with_suffix obj name1)) true None;
            match l with
            | e :: _ => mret e
            | [] => raise IndexError
            end
        | None =>
            val ← to_json obj;
            let name2 := with_suffix obj name1 in
            a ← get_self;
            match get_entry_by_path name2 (_manifest a) with
            | Some e => mret e
            | None =>
                file_path ←
                  (if is_tmp_name then
                     let fp := path_join (class_tmp_dir env) name2 in
                     write_bytes fp val;; mret fp
                   else new_file name2 (fun _ => mret val));
                entry ← add_file file_path (Some name2) is_tmp_name;
                modify_self (fun a =>
                  set__added_objs (<[obj_id obj := entry]> (_added_objs a)) a);;
                (if is_tmp_name then
                   b ← isfile file_path;
                   if b : bool then os_remove file_path else mret tt
                 else mret tt : M unit);;
                mret entry
            end
        end
    end.

(** *** Downloading *)

Definition _default_root (include_version : bool) (a : Artifact) : string :=
  let nm := if include_version then name a else before_char ":" (name a) in
  let root := path_join (get_artifact_dir env) nm in
  if is_windows env then
    let (head, tail) := splitdrive env root in
    head +:+ replace_char ":" "-" tail
  else root.

Definition _add_download_root (dir_path : string) : M unit :=
  modify_self (fun a =>
    set__download_roots ({[abspath env dir_path]} ∪ _download_roots a) a).

(** Python's [sum] over the sizes, starting from [0]: adding [None] to an
    [int] raises. *)
Fixpoint py_sum (acc : Z) (l : list (option Z)) : result Z :=
  match l with
  | [] => Ok acc
  | Some n :: l' => py_sum (acc + n) l'
  | None :: _ =>
      Raise (TypeError "unsupported operand type(s) for +: 'int' and 'NoneType'")
  end.

(** Modelled from the spec: [ArtifactManifestEntry.download] is not part of
    the sources at hand; section 4.5 has a download materialise the entry
    under the root. *)
Definition entry_download (e : ArtifactManifestEntry) (root : string) : M string :=
  c ← lift (fetch env e);
  let p := path_join root (path e) in
  write_bytes p c;; mret p.

(** [download(root, recursive)]. The progress log is not modelled; the pool
    maps [_download_file] over the entry names, run here one after the
    other. *)
Definition download (root : option string) (recursive : bool) : M string :=
  a ← get_self;
  if decide (_state a = PENDING) then raise (ArtifactNotLoggedError "download")
  else
    let root1 := or_str root (_default_root true a) in
    _add_download_root root1;;
    let nfiles := List.length (entries (_manifest a)) in
    size_ ← lift (py_sum 0 (size <$> PyDict.values (entries (_manifest a))));
    for_each (PyDict.keys (entries (manifest a))) (fun name_ =>
      e ← get_path name_; entry_download e root1;; mret tt);;
    (if recursive then
       for_each (elements (_dependent_artifacts a)) (download_dependent env)
     else mret tt);;
    mret root1.

Definition checkout (root : option string) : M string :=
  a ← get_self;
  if decide (_state a = PENDING) then raise (ArtifactNotLoggedError "checkout")
  else
    let root1 := or_str root (_default_root false a) in
    fs ← get_files;
    for_each (walk root1 fs) (fun fr =>
      let full_path := fr.1 in
      let artifact_path := fr.2 in
      try_except_KeyError (get_path artifact_path;; mret tt) (os_remove full_path));;
    download (Some root1) false.

(** The second loop of [verify], with its counter. *)
Fixpoint verify_entries (root : string) (l : list ArtifactManifestEntry)
    (ref_count : nat) : M nat :=
  match l with
  | [] => mret ref_count
  | entry :: l' =>
      match ref entry with
      | None =>
          d ← md5_file_b64 (path_join root (path entry));
          if decide (d ≠ digest entry) then
            raise (ValueError ("Digest mismatch for file: " +:+ path entry))
          else verify_entries root l' ref_count
      | Some _ => verify_entries root l' (S ref_count)
      end
  end.

(** [verify(root)]. The answer is the number of references, which the
    source prints in a warning when it is positive. *)
Definition verify (root : option string) : M nat :=
  a ← get_self;
  if decide (_state a = PENDING) then raise (ArtifactNotLoggedError "verify")
  else
    let root1 := or_str root (_default_root true a) in
    fs ← get_files;
    for_each (walk root1 fs) (fun fr =>
      let full_path := fr.1 in
      let artifact_path := fr.2 in
      try_except_KeyError (get_path artifact_path;; mret tt)
        (raise (ValueError ("Found file " +:+ full_path
                            +:+ " which is not a member of artifact " +:+ name a))));;
    verify_entries root1 (PyDict.values (entries (_manifest a))) 0.

(** *** Deleting *)

Definition delete (delete_aliases : bool) : M unit :=
  a ← get_self;
  if decide (_state a = PENDING) then raise (ArtifactNotLoggedError "delete")
  else
    the_client;;
    i ← lift (id a);
    execute (DeleteArtifactMutation i delete_aliases).

End Engine.

(** ** Further methods *)

(** The whole [ArtifactFragment] of a response: what [Attrs] holds, and the
    id, the type name, the description and the metadata, the last one
    already parsed ([None] for a null or empty string). *)
Record ArtifactFragment : Type := mkFragment {
  frag_id : string;
  frag_type : string;
  frag_description : option string;
  frag_metadata : option (list (string * string));
  frag_attrs : Attrs;
}.

(** A method run on an artifact that nobody else holds yet: the artifact it
    leaves, or the exception. *)
Definition run_on {A} (m : M A) (a : Artifact) : result Artifact :=
  match m (mkState a ∅ 0 []) with
  | (Ok _, st) => Ok (self st)
  | (Raise e, _) => Raise e
  end.

(** [get_added_local_path_name(local_path)] *)
Definition get_added_local_path_name (local_path_ : string) (a : Artifact)
  : option string :=
  match PyDict.get local_path_ (_added_local_paths a) with
  | None => None
  | Some entry => Some (path entry)
  end.

(** [qualified_name]: the f-string reads [entity], [project] and [name] in
    this order. *)
Definition qualified_name (a : Artifact) : result string :=
  e ← entity a; p ← project a; Ok (e +:+ "/" +:+ p +:+ "/" +:+ name a).

Section Loading.
Context (env : Env).

Definition version_aliases (collection : string) (l : list AliasAttr) : list string :=
  alias <$> filter (fun al => artifactCollectionName al = collection
                              ∧ alias_is_version_index (alias al) = true) l.

(** [from_attrs(entity, project, name, attrs, client)]. The artifact is new
    and nobody holds it before the method returns, so that an exception
    leaves nothing behind. The entry in the process-wide cache is not
    modelled. *)
Definition from_attrs (entity_ project_ name_ : string) (attrs : ArtifactFragment)
    (client : RetryingClient) : result Artifact :=
  artifact ← __init__ (before_char ":" name_) (frag_type attrs) None None false None;
  match version_aliases (before_char ":" name_) (attr_aliases (frag_attrs attrs)) with
  | [v] =>
      let al := own_aliases (before_char ":" name_) (attr_aliases (frag_attrs attrs)) in
      let src_name := seq_name (frag_attrs attrs) +:+ ":v"
                      +:+ pretty (versionIndex (frag_attrs attrs)) in
      let before_load :=
        {| _client := Some client; _tmp_dir := _tmp_dir artifact;
           _added_objs := _added_objs artifact;
           _added_local_paths := _added_local_paths artifact;
           _save_future := _save_future artifact;
           _dependent_artifacts := _dependent_artifacts artifact;
           _download_roots := _download_roots artifact;
           _id := Some (frag_id attrs);
           _entity := Some entity_; _project := Some project_; _name := name_;
           _version := Some v;
           _source_entity := Some (seq_entityName (frag_attrs attrs));
           _source_project := Some (seq_projectName (frag_attrs attrs));
           _source_name := src_name;
           _source_version := Some ("v" +:+ pretty (versionIndex (frag_attrs attrs)));
           _type := _type artifact;
           _description := frag_description attrs;
           _metadata := default [] (frag_metadata attrs);
           _aliases := al; _saved_aliases := al;
           _distributed_id := _distributed_id artifact;
           _incremental := _incremental artifact; _use_as := _use_as artifact;
           _state := attr_state (frag_attrs attrs);
           _manifest := _manifest artifact; _commit_hash := _commit_hash artifact;
           _file_count := _file_count artifact; _created_at := _created_at artifact;
           _updated_at := _updated_at artifact; _final := _final artifact |} in
      loaded ← run_on (_load_manifest env (directUrl (frag_attrs attrs))) before_load;
      Ok {| _client := _client loaded; _tmp_dir := _tmp_dir loaded;
            _added_objs := _added_objs loaded;
            _added_local_paths := _added_local_paths loaded;
            _save_future := _save_future loaded;
            _dependent_artifacts := _dependent_artifacts loaded;
            _download_roots := _download_roots loaded;
            _id := _id loaded; _entity := _entity loaded; _project := _project loaded;
            _name := _name loaded; _version := _version loaded;
            _source_entity := _source_entity loaded;
            _source_project := _source_project loaded;
            _source_name := _source_name loaded;
            _source_version := _source_version loaded;
            _type := _type loaded; _description := _description loaded;
            _metadata := _metadata loaded; _aliases := _aliases loaded;
            _saved_aliases := _saved_aliases loaded;
            _distributed_id := _distributed_id loaded;
            _incremental := _incremental loaded; _use_as := _use_as loaded;
            _state := _state loaded; _manifest := _manifest loaded;
            _commit_hash := Some (commitHash (frag_attrs attrs));
            _file_count := Some (fileCount (frag_attrs attrs));
            _created_at := Some (createdAt (frag_attrs attrs));
            _updated_at := updatedAt (frag_attrs attrs);
            _final := true |}
  | _ => Raise AssertionError
  end.

(** [from_id(artifact_id, client)], the class method itself: [cache] is the
    process-wide cache and [fragment_by_id] the answer of the service to the
    [ArtifactByID] query. *)
Definition from_id_by_query (cache : string -> option Artifact)
    (fragment_by_id : string -> option ArtifactFragment) (artifact_id : string)
    (client : RetryingClient) : result (option Artifact) :=
  match cache artifact_id with
  | Some artifact => Ok (Some artifact)
  | None =>
      match fragment_by_id artifact_id with
      | None => Ok None
      | Some attrs =>
          let entity_ := seq_entityName (frag_attrs attrs) in
          let project_ := seq_projectName (frag_attrs attrs) in
          let name_ := seq_name (frag_attrs attrs) +:+ ":v"
                       +:+ pretty (versionIndex (frag_attrs attrs)) in
          artifact ← from_attrs entity_ project_ name_ attrs client; Ok (Some artifact)
      end
  end.

(** [new_draft()]. [copy_manifest] is the manifest's trip through its JSON
    form, which the manifest classes own. The draft shares the metadata
    mapping with the artifact it comes from; the sharing is not modelled. *)
Definition new_draft (copy_manifest : ArtifactManifest -> result ArtifactManifest)
    (a : Artifact) : result Artifact :=
  if decide (_state a = PENDING) then Raise (ArtifactNotLoggedError "new_draft")
  else
    artifact ← __init__ (before_char ":" (source_name a)) (_type a) None None false None;
    m ← copy_manifest (manifest a);
    Ok {| _client := _client artifact; _tmp_dir := _tmp_dir artifact;
          _added_objs := _added_objs artifact;
          _added_local_paths := _added_local_paths artifact;
          _save_future := _save_future artifact;
          _dependent_artifacts := _dependent_artifacts artifact;
          _download_roots := _download_roots artifact;
          _id := _id artifact; _entity := _entity artifact;
          _project := _project artifact; _name := _name artifact;
          _version := _version artifact;
          _source_entity := _source_entity artifact;
          _source_project := _source_project artifact;
          _source_name := _source_name artifact;
          _source_version := _source_version artifact;
          _type := _type artifact; _description := description a;
          _metadata := metadata a; _aliases := _aliases artifact;
          _saved_aliases := _saved_aliases artifact;
          _distributed_id := _distributed_id artifact;
          _incremental := _incremental artifact; _use_as := _use_as artifact;
          _state := _state artifact; _manifest := m;
          _commit_hash := _commit_hash artifact;
          _file_count := _file_count artifact; _created_at := _created_at artifact;
          _updated_at := _updated_at artifact; _final := _final artifact |}.

(** [file(root)]: a missing [root] is tested with [is None]. *)
Definition file (root : option string) : M string :=
  a ← get_self;
  if decide (_state a = PENDING) then raise (ArtifactNotLoggedError "file")
  else
    let root1 := match root with
                 | None => path_join (path_join "." "artifacts") (name a)
                 | Some r => r
                 end in
    if (1 <? List.length (entries (_manifest a)))%nat then
      raise (ValueError "This artifact contains more than one file, call `.download()` to get all files or call .get_path(filename).download()")
    else
      match PyDict.keys (entries (_manifest a)) with
      | [] => raise IndexError
      | k :: _ => e ← get_path env k; entry_download env e root1
      end.

(** [_get_obj_entry(name)], both components: the entry and the position of
    its class in the type mapping. *)
Fixpoint _get_obj_entry_from (i : nat) (classes : list (string -> string))
    (name_ : string) (a : Artifact) : option (ArtifactManifestEntry * nat) :=
  match classes with
  | [] => None
  | suffixed :: rest =>
      match PyDict.get (suffixed name_) (entries (_manifest a)) with
      | Some entry => Some (entry, i)
      | None => _get_obj_entry_from (S i) rest name_ a
      end
  end.

(** [get(name)]. [is_table] tells the class that is [wandb.Table] and
    [from_json] is the classes' [from_json] on the text of the file; the
    entry is downloaded below the default root. *)
Definition get {V : Type} (is_table : nat -> bool)
    (from_json : nat -> string -> result V) (name_ : string) : M (option V) :=
  a ← get_self;
  if decide (_state a = PENDING) then raise (ArtifactNotLoggedError "get")
  else
    match _get_obj_entry_from 0 (type_mapping env) name_ a with
    | None => mret None
    | Some (entry, wb_class) =>
        if _is_artifact_reference entry then
          raise (AttributeError "'Artifact' object has no attribute 'client'")
        else
          (if is_table wb_class then download env None true;; mret tt
           else mret tt : M unit);;
          item ← get_path env (path entry);
          item_path ← entry_download env item (_default_root env true a);
          text ← read_bytes item_path;
          v ← lift (from_json wb_class text);
          mret (Some v)
    end.
End Loading.

(** ** The life of an artifact through its public methods *)

(** The assignments behind the setters of [description], [metadata] and
    [distributed_id]. *)
Definition set__user_fields (d : option string) (md : list (string * string))
    (did : option string) (a : Artifact) : Artifact :=
  {| _client := _client a; _tmp_dir := _tmp_dir a; _added_objs := _added_objs a;
     _added_local_paths := _added_local_paths a; _save_future := _save_future a;
     _dependent_artifacts := _dependent_artifacts a; _download_roots := _download_roots a;
     _id := _id a; _entity := _entity a; _project := _project a; _name := _name a;
     _version := _version a; _source_entity := _source_entity a;
     _source_project := _source_project a; _source_name := _source_name a;
     _source_version := _source_version a; _type := _type a;
     _description := d; _metadata := md; _aliases := _aliases a;
     _saved_aliases := _saved_aliases a; _distributed_id := did;
     _incremental := _incremental a; _use_as := _use_as a; _state := _state a;
     _manifest := _manifest a; _commit_hash := _commit_hash a;
     _file_count := _file_count a; _created_at := _created_at a;
     _updated_at := _updated_at a; _final := _final a |}.

(** Modelled from the spec: [Run.log_artifact] is not part of the sources at
    hand. Section 4.6 has [final] flip while the artifact is a draft, before
    the commit, and the docstring of [finalize] has the artifact finalized
    when [log_artifact] is called; [_set_save_future] is the hook through
    which the run then hands over the future of the upload and the client. *)
Definition run_log_artifact (save_future : MessageFuture) (client : RetryingClient)
  : M unit :=
  finalize;; _set_save_future save_future client.

(** The three fields that decide whether an artifact can still be added to
    and whether it counts as logged. *)
Definition lifecycle_fields (a : Artifact)
  : ArtifactState * bool * option MessageFuture :=
  (_state a, _final a, _save_future a).

(** A computation leaves the observation [f] of the artifact as it was,
    whatever it returns. *)
Definition keeps {B A : Type} (f : Artifact -> B) (m : M A) : Prop :=
  ∀ st, f (self (m st).2) = f (self st).

(** A call of a public method, with its arguments. [call_save] carries what
    the run's [log_artifact] would hand over if the artifact is still
    pending; [call_new_file] carries the text written inside the [with]
    block; [call_aliases_in_place] is a change of the list that the
    [aliases] getter returns, which the setter does not see. *)
Inductive Call : Type :=
| call_finalize
| call_save (save_future : MessageFuture) (client : RetryingClient)
| call_wait
| call_set_description (d : option string)
| call_set_metadata (md : list (string * string))
| call_set_distributed_id (did : option string)
| call_set_aliases (v : list string)
| call_aliases_in_place (v : list string)
| call_new_file (name_ text : string)
| call_add_file (local_path_ : string) (name_ : option string) (is_tmp : bool)
| call_add_dir (local_path_ : string) (name_ : option string)
| call_add_reference (uri : ArtifactManifestEntry + URIStr) (name_ : option string)
    (checksum : bool) (max_objects : option Z)
| call_add (obj : WBValue) (name_ : string)
| call_get_path (name_ : string)
| call_get (is_table : nat -> bool) (from_json : nat -> string -> result unit)
    (name_ : string)
| call_download (root : option string) (recursive : bool)
| call_checkout (root : option string)
| call_verify (root : option string)
| call_file (root : option string)
| call_delete (delete_aliases : bool).

Definition do_call (env : Env) (c : Call) : M unit :=
  match c with
  | call_finalize => finalize
  | call_save save_future client => save (run_log_artifact save_future client)
  | call_wait => wait env
  | call_set_description d =>
      modify_self (fun a => set__user_fields d (_metadata a) (_distributed_id a) a)
  | call_set_metadata md =>
      modify_self (fun a => set__user_fields (_description a) md (_distributed_id a) a)
  | call_set_distributed_id did =>
      modify_self (fun a => set__user_fields (_description a) (_metadata a) did a)
  | call_set_aliases v =>
      a ← get_self; a' ← lift (set_aliases v a); modify_self (fun _ => a')
  | call_aliases_in_place v => modify_self (set__aliases v)
  | call_new_file name_ text => new_file env name_ (fun _ => mret text);; mret tt
  | call_add_file local_path_ name_ is_tmp =>
      add_file env local_path_ name_ is_tmp;; mret tt
  | call_add_dir local_path_ name_ => add_dir env local_path_ name_
  | call_add_reference uri name_ checksum max_objects =>
      add_reference env uri name_ checksum max_objects;; mret tt
  | call_add obj name_ => add env obj name_;; mret tt
  | call_get_path name_ => get_path env name_;; mret tt
  | call_get is_table from_json name_ => get env is_table from_json name_;; mret tt
  | call_download root recursive => download env root recursive;; mret tt
  | call_checkout root => checkout env root;; mret tt
  | call_verify root => verify env root;; mret tt
  | call_file root => file env root;; mret tt
  | call_delete delete_aliases => delete delete_aliases
  end.

(** What a call needs of the code it is given: the [to_json] of an object
    and the download of a dependent artifact may add to the artifact or
    write files, but do not touch the three lifecycle fields. *)
Definition admissible (env : Env) (c : Call) : Prop :=
  match c with
  | call_add obj _ => keeps lifecycle_fields (to_json obj)
  | call_get _ _ _ | call_download _ _ =>
      ∀ d, keeps lifecycle_fields (download_dependent env d)
  | _ => True
  end.

(** The states an artifact gets into: it is made by the constructor, loaded
    from the service by [from_attrs] or drafted by [new_draft], then its
    public methods are called, and the files on disk change under it. *)
Inductive reachable (env : Env) : State -> Prop :=
| reach_constructed name_ type_ d md inc use_as_ a fs n s :
    __init__ name_ type_ d md inc use_as_ = Ok a →
    reachable env (mkState a fs n s)
| reach_loaded entity_ project_ name_ attrs client a fs n s :
    from_attrs env entity_ project_ name_ attrs client = Ok a →
    reachable env (mkState a fs n s)
| reach_drafted copy_manifest a0 a fs n s :
    new_draft copy_manifest a0 = Ok a →
    reachable env (mkState a fs n s)
| reach_call st c :
    reachable env st → admissible env c → reachable env (do_call env c st).2
| reach_files st fs :
    reachable env st → reachable env (mkState (self st) fs (next_tmp st) (sent st)).

(** The constraint the reachable states obey: an artifact that is logged, or
    whose save has been started, is final. *)
Definition finalized_once_logged (a : Artifact) : Prop :=
  _state a ≠ PENDING ∨ is_Some (_save_future a) → _final a = true.

(** ** Sample data *)

Definition env0 : Env :=
  {| LogicalPath := fun s => s;
     md5_b64 := fun c => "md5:" +:+ c;
     b64_to_hex_id := fun s => s;
     hex_to_b64_id := fun s => s;
     get_staging_dir := "staging";
     get_artifact_dir := "artifacts";
     is_windows := false;
     splitdrive := fun s => ("", s);
     abspath := fun s => s;
     type_mapping := [fun n => n +:+ ".table.json"];
     from_id := fun _ => None;
     requests_get := fun _ => Ok (mkManifest []);
     other_store_path := fun _ _ _ _ => Ok [];
     fetch := fun e => Ok ("bytes of " +:+ path e);
     ref_url := fun _ => Raise AssertionError;
     class_tmp_dir := "/tmp/wandb-artifacts/0";
     download_dependent := fun _ => mret tt;
     pool_order := fun l => l |}.

(** [Artifact("mnist", "dataset")] *)
Definition draft0 : Artifact :=
  {| _client := None; _tmp_dir := None; _added_objs := ∅;
     _added_local_paths := []; _save_future := None;
     _dependent_artifacts := ∅; _download_roots := ∅;
     _id := None; _entity := None; _project := None; _name := "mnist";
     _version := None; _source_entity := None; _source_project := None;
     _source_name := "mnist"; _source_version := None; _type := "dataset";
     _description := None; _metadata := [];
     _aliases := ["latest"]; _saved_aliases := []; _distributed_id := None;
     _incremental := false; _use_as := None; _state := PENDING;
     _manifest := mkManifest []; _commit_hash := None; _file_count := None;
     _created_at := None; _updated_at := None; _final := false |}.

Definition attrs0 : Attrs :=
  {| seq_entityName := "team"; seq_projectName := "vision"; seq_name := "mnist";
     versionIndex := 0;
     attr_aliases := [mkAliasAttr "mnist" "latest"; mkAliasAttr "mnist" "v0"];
     attr_state := COMMITTED; directUrl := "https://storage/manifest.json";
     commitHash := "c0ffee"; fileCount := 0; createdAt := "2023-07-01";
     updatedAt := None |}.

Definition client0 : RetryingClient :=
  {| has_AddAliasesInput := true; artifact_by_id := fun _ => Some attrs0 |}.

(** A backend older than 0.13.0. *)
Definition old_client : RetryingClient :=
  {| has_AddAliasesInput := false; artifact_by_id := fun _ => Some attrs0 |}.

Definition future0 : MessageFuture :=
  {| future_get := Some (mkResponse "" "QXJ0aWZhY3Q6MQ==") |}.

Definition disk0 : gmap string string := {[ "data/f.txt" := "hello" ]}.

Definition start0 : State := mkState draft0 disk0 0 [].

(** A committed artifact as [from_attrs] leaves it: final, with its id. *)
Definition committed_with (c : RetryingClient) (al saved : list string)
    (m : ArtifactManifest) : Artifact :=
  {| _client := Some c; _tmp_dir := None; _added_objs := ∅;
     _added_local_paths := []; _save_future := None;
     _dependent_artifacts := ∅; _download_roots := ∅;
     _id := Some "QXJ0aWZhY3Q6MQ=="; _entity := Some "team";
     _project := Some "vision"; _name := "mnist:v0";
     _version := Some "v0"; _source_entity := Some "team";
     _source_project := Some "vision";
     _source_name := "mnist:v0"; _source_version := Some "v0"; _type := "dataset";
     _description := Some "digits"; _metadata := [("classes", "10")];
     _aliases := al; _saved_aliases := saved; _distributed_id := None;
     _incremental := false; _use_as := None; _state := COMMITTED;
     _manifest := m; _commit_hash := Some "c0ffee"; _file_count := Some 1;
     _created_at := Some "2023-07-01"; _updated_at := None; _final := true |}.

(** A committed artifact [A] with one plain file [p.txt], reachable by its
    id, and the reference [wandb-artifact://<id of A>/p.txt]. *)
Definition artifact_A : Artifact :=
  committed_with client0 ["latest"] ["latest"]
    (mkManifest [("p.txt", mkEntry "p.txt" "md5:payload" None (Some 7) None)]).

Definition env_A : Env :=
  {| LogicalPath := LogicalPath env0; md5_b64 := md5_b64 env0;
     b64_to_hex_id := b64_to_hex_id env0; hex_to_b64_id := hex_to_b64_id env0;
     get_staging_dir := get_staging_dir env0; get_artifact_dir := get_artifact_dir env0;
     is_windows := is_windows env0; splitdrive := splitdrive env0;
     abspath := abspath env0;
     type_mapping := type_mapping env0;
     from_id := fun i => if decide (i = "QXJ0aWZhY3Q6MQ==") then Some artifact_A else None;
     requests_get := requests_get env0; other_store_path := other_store_path env0;
     fetch := fetch env0; ref_url := ref_url env0; class_tmp_dir := class_tmp_dir env0;
     download_dependent := download_dependent env0;
     pool_order := pool_order env0 |}.

Definition uri_A_p : URIStr := mkURI "wandb-artifact" "QXJ0aWZhY3Q6MQ==" "p.txt".

(** The pending artifact of [start0] with its save future set. *)
Definition saving0 : State := (_set_save_future future0 client0 start0).2.

(** An environment whose manifest download fails. *)
Definition env_offline : Env :=
  {| LogicalPath := LogicalPath env0; md5_b64 := md5_b64 env0;
     b64_to_hex_id := b64_to_hex_id env0; hex_to_b64_id := hex_to_b64_id env0;
     get_staging_dir := get_staging_dir env0; get_artifact_dir := get_artifact_dir env0;
     is_windows := is_windows env0; splitdrive := splitdrive env0;
     abspath := abspath env0;
     type_mapping := type_mapping env0; from_id := from_id env0;
     requests_get := fun _ => Raise (ValueError "503 Server Error");
     other_store_path := other_store_path env0;
     fetch := fetch env0; ref_url := ref_url env0; class_tmp_dir := class_tmp_dir env0;
     download_dependent := download_dependent env0;
     pool_order := pool_order env0 |}.

(** The service's full answer for the artifact of [attrs0], and the same
    with the reserved type [job]. *)
Definition fragment0 : ArtifactFragment :=
  {| frag_id := "QXJ0aWZhY3Q6MQ=="; frag_type := "dataset";
     frag_description := Some "digits"; frag_metadata := None; frag_attrs := attrs0 |}.

Definition job_fragment : ArtifactFragment :=
  {| frag_id := "QXJ0aWZhY3Q6Mg=="; frag_type := "job";
     frag_description := None; frag_metadata := None; frag_attrs := attrs0 |}.

(** An environment that serves a manifest with a plain file and a reference
    into another artifact. *)
Definition env_with_reference : Env :=
  {| LogicalPath := LogicalPath env0; md5_b64 := md5_b64 env0;
     b64_to_hex_id := b64_to_hex_id env0; hex_to_b64_id := hex_to_b64_id env0;
     get_staging_dir := get_staging_dir env0; get_artifact_dir := get_artifact_dir env0;
     is_windows := is_windows env0; splitdrive := splitdrive env0;
     abspath := abspath env0;
     type_mapping := type_mapping env0; from_id := from_id env0;
     requests_get := fun _ =>
       Ok (mkManifest [("f.txt", mkEntry "f.txt" "md5:hello" None (Some 5) None);
                       ("p.txt", mkEntry "p.txt" "md5:payload" (Some uri_A_p) (Some 0) None)]);
     other_store_path := other_store_path env0;
     fetch := fetch env0; ref_url := ref_url env0; class_tmp_dir := class_tmp_dir env0;
     download_dependent := download_dependent env0;
     pool_order := pool_order env0 |}.


(** ** Notions used in the statements *)

(** The sizes that are known, entry by entry. *)
Definition known_sizes (a : Artifact) : list Z :=
  omap size (PyDict.values (entries (_manifest a))).

(** [n] calls of [add_file] with the same arguments, one after the other. *)
Definition add_file_times (env : Env) (n : nat) (local_path_ : string)
    (name_ : option string) (is_tmp : bool) : M unit :=
  for_each (replicate n tt) (fun _ => add_file env local_path_ name_ is_tmp;; mret tt).

(** The name under which [add_file] records the file whose bytes are [c]. *)
Definition add_file_name (env : Env) (local_path_ : string) (name_ : option string)
    (is_tmp : bool) (c : string) : string :=
  let name1 := LogicalPath env (or_str name_ (basename local_path_)) in
  if is_tmp then tmp_name env name1 (md5_b64 env c) else name1.

(** A file path relative to the root has a manifest entry: under its own
    name or under a type-suffixed one, which is how [get_path] looks. *)
Definition tracked (env : Env) (a : Artifact) (artifact_path : string) : Prop :=
  is_Some (PyDict.get (LogicalPath env artifact_path) (entries (_manifest a)))
  ∨ is_Some (_get_obj_entry env (LogicalPath env artifact_path) a).

(** A non-reference entry whose file is not under the root. *)
Definition entry_missing (root : string) (fs : gmap string string)
    (e : ArtifactManifestEntry) : Prop :=
  ref e = None ∧ fs !! path_join root (path e) = None.

(** A non-reference entry whose file is under the root with other bytes than
    the recorded digest stands for. *)
Definition entry_mismatch (env : Env) (root : string) (fs : gmap string string)
    (e : ArtifactManifestEntry) : Prop :=
  ref e = None ∧ ∃ c, fs !! path_join root (path e) = Some c ∧ md5_b64 env c ≠ digest e.

(** The number of reference entries. *)
Definition ref_count_of (l : list ArtifactManifestEntry) : nat :=
  List.length (filter (fun e => is_Some (ref e)) l).

#[global] Instance tracked_dec (env : Env) (a : Artifact) (p : string) :
  Decision (tracked env a p).
Proof. unfold tracked. apply _. Defined.

(** What the first loop of [checkout] leaves of the files: each walked file
    without an entry is removed. *)
Definition purge (env : Env) (a : Artifact) (l : list (string * string))
    (fs : gmap string string) : gmap string string :=
  foldl (fun fs fr => if decide (tracked env a fr.2) then fs else base.delete fr.1 fs) fs l.

(** What downloading the entries named [ks] writes below [root]. *)
Definition download_files (env : Env) (root : string)
    (d : PyDict.t ArtifactManifestEntry) (ks : list string)
    (fs : gmap string string) : gmap string string :=
  foldl (fun fs k =>
           match PyDict.get (LogicalPath env k) d with
           | Some e =>
               match fetch env e with
               | Ok c => <[path_join root (path e) := c]> fs
               | Raise _ => fs
               end
           | None => fs
           end) fs ks.

(** A committed artifact with a plain file and a reference whose size the
    remote did not tell, and a directory holding the file and a stray one. *)
Definition artifact_with_unsized_ref : Artifact :=
  committed_with client0 ["latest"] ["latest"]
    (mkManifest [("f.txt", mkEntry "f.txt" "md5:hello" None (Some 5) None);
                 ("r", mkEntry "r" "etag" (Some (mkURI "gopher" "host" "r")) None None)]).

Definition disk_with_stray : gmap string string :=
  {[ "root/f.txt" := "hello"; "root/stray.txt" := "x" ]}.

(** A request that replaces the whole alias list. *)
Definition full_alias_replace (r : Request) : Prop :=
  match r with
  | UpdateArtifactMutation _ _ _ (Some _) => True
  | _ => False
  end.


(** ** Properties *)

Lemma fold_sizes (l : list ArtifactManifestEntry) (acc : Z) :
  fold_left (fun total_size entry =>
               match size entry with
               | Some n => total_size + n
               | None => total_size
               end) l acc
  = acc + foldr Z.add 0 (omap size l).
Proof.
  revert acc. induction l as [|e l IH]; intros acc; cbn [fold_left omap list_omap].
  - cbn. lia.
  - rewrite IH. unfold omap. cbn [list_omap]. destruct (size e); cbn [foldr]; lia.
Qed.

(** C10. The [size] property is the sum of the sizes of the manifest entries
    whose size is known; an entry whose size is [None] adds nothing and
    raises nothing. *)
Theorem size_sums_known_sizes (a : Artifact) :
  size_of a = foldr Z.add 0 (known_sizes a).
Proof. unfold size_of, known_sizes. rewrite fold_sizes. lia. Qed.

(** C9. A constructed artifact has the alias list ["latest"] and nothing
    synced yet; saving it hands this very artifact, alias included, to
    [log_artifact]. *)
Theorem init_aliases_latest (nm ty : string) (desc : option string)
    (md : option (list (string * string))) (inc : bool) (use : option string)
    (a : Artifact) :
  __init__ nm ty desc md inc use = Ok a →
  _aliases a = ["latest"] ∧ _saved_aliases a = [] ∧ _state a = PENDING ∧
  ∀ (log_artifact : M unit) (st : State),
    self st = a →
    save log_artifact st = log_artifact st ∧ _aliases (self st) = ["latest"].
Proof.
  unfold __init__. intros H.
  destruct (negb (name_matches nm)); [discriminate|].
  destruct (bool_decide (ty = "job") || startswith "wandb-" ty); [discriminate|].
  injection H as <-. simpl. repeat split; try reflexivity.
  - unfold save, get_self, mbind, M_bind. rewrite H. simpl. reflexivity.
  - rewrite H. reflexivity.
Qed.

Lemma init_aliases_latest_witness :
  __init__ "mnist" "dataset" None None false None = Ok draft0 ∧
  _aliases draft0 = ["latest"].
Proof.
  split; [reflexivity|].
  apply (init_aliases_latest "mnist" "dataset" None None false None draft0).
  reflexivity.
Defined.

(** C2, as the code has it. On a pending artifact the version, the commit
    hash, the timestamps, the entity, the project, the file count and the
    source entity and project raise [ArtifactNotLoggedError]; the id and the
    source version raise nothing and answer [None]. *)
Theorem draft_server_fields (a : Artifact) :
  _state a = PENDING →
  version a = Raise (ArtifactNotLoggedError "version") ∧
  commit_hash a = Raise (ArtifactNotLoggedError "commit_hash") ∧
  created_at a = Raise (ArtifactNotLoggedError "created_at") ∧
  updated_at a = Raise (ArtifactNotLoggedError "created_at") ∧
  entity a = Raise (ArtifactNotLoggedError "entity") ∧
  project a = Raise (ArtifactNotLoggedError "project") ∧
  file_count a = Raise (ArtifactNotLoggedError "file_count") ∧
  source_entity a = Raise (ArtifactNotLoggedError "source_entity") ∧
  source_project a = Raise (ArtifactNotLoggedError "source_project") ∧
  id a = Ok None ∧
  source_version a = Ok None.
Proof.
  intros H.
  unfold version, commit_hash, created_at, updated_at, entity, project,
    file_count, source_entity, source_project, id, source_version.
  rewrite H. repeat split; reflexivity.
Qed.

Lemma draft_server_fields_witness :
  _state draft0 = PENDING ∧ version draft0 = Raise (ArtifactNotLoggedError "version").
Proof.
  split; [reflexivity|].
  exact (proj1 (draft_server_fields draft0 eq_refl)).
Defined.

(** C2 as stated fails for the server id: on a pending artifact the [id]
    property answers [None] and raises nothing. *)
Lemma draft_id_does_not_raise :
  _state draft0 = PENDING ∧ id draft0 = Ok None ∧
  ¬ ∃ e, id draft0 = Raise e.
Proof.
  repeat split.
  intros [e He]. discriminate He.
Qed.

(** *** Deleting *)

(** C8, as the code has it. [delete] on a pending artifact raises
    [ArtifactNotLoggedError]. On a logged artifact that has its client and
    its id, [delete(delete_aliases=True)] returns after one
    [deleteArtifact] mutation for that id; the artifact in memory, its state
    included, is what it was. *)
Theorem delete_spec (st : State) :
  (_state (self st) = PENDING →
   ∀ b, delete b st = (Raise (ArtifactNotLoggedError "delete"), st)) ∧
  (∀ c i, _state (self st) ≠ PENDING →
     _client (self st) = Some c → _id (self st) = Some i →
     ∃ st', delete true st = (Ok tt, st') ∧
       self st' = self st ∧
       sent st' = sent st ++ [DeleteArtifactMutation (Some i) true]).
Proof.
  split.
  - intros H b. unfold delete, get_self, mbind, M_bind. rewrite H. reflexivity.
  - intros c i Hs Hc Hi.
    unfold delete, the_client, get_self, execute, lift, id, mbind, M_bind,
      result_bind. simpl.
    destruct (decide (_state (self st) = PENDING)) as [E|_]; [contradiction|].
    rewrite Hc. simpl.
    destruct (decide (_state (self st) = PENDING)) as [E|_]; [contradiction|].
    rewrite Hi. simpl. eexists. repeat split.
Qed.

Lemma delete_spec_witness :
  _state draft0 = PENDING ∧
  delete false start0 = (Raise (ArtifactNotLoggedError "delete"), start0).
Proof.
  split; [reflexivity|].
  exact (proj1 (delete_spec start0) eq_refl false).
Defined.

(** C8 as stated fails in its last part: after a successful [delete] the
    artifact's state is still [COMMITTED]. *)
Lemma delete_leaves_state_committed :
  let st := mkState (committed_with client0 ["latest"] ["latest"] (mkManifest []))
              ∅ 0 [] in
  (delete true st).1 = Ok tt ∧
  _state (self (delete true st).2) = COMMITTED ∧
  _state (self (delete true st).2) ≠ DELETED.
Proof. repeat split. discriminate. Qed.

(** *** Updating *)

(** C7, as the code has it. [save] on a logged artifact is [_update]. With a
    backend that knows [AddAliasesInput] the aliases travel as the two set
    differences only, each sent when it is not empty, the final
    [updateArtifact] carries no alias list, and the synced list becomes the
    list in memory. With an older backend the whole list in memory is sent
    inside [updateArtifact] and the synced list stays. The description and
    the metadata are sent as they are in both cases. *)
Theorem update_spec (st : State) (c : RetryingClient) (i : string) (log_artifact : M unit) :
  _state (self st) ≠ PENDING →
  _client (self st) = Some c →
  _id (self st) = Some i →
  let a := self st in
  let to_add : gset string := list_to_set (_aliases a) ∖ list_to_set (_saved_aliases a) in
  let to_delete : gset string := list_to_set (_saved_aliases a) ∖ list_to_set (_aliases a) in
  let coll := before_char ":" (_name a) in
  ∃ st', save log_artifact st = (Ok tt, st') ∧
    files st' = files st ∧ _aliases (self st') = _aliases a ∧
    if has_AddAliasesInput c then
      sent st' = sent st
        ++ (if decide (to_add = ∅) then []
            else [AddAliasesMutation (Some i) (_entity a) (_project a) coll to_add])
        ++ (if decide (to_delete = ∅) then []
            else [DeleteAliasesMutation (Some i) (_entity a) (_project a) coll to_delete])
        ++ [UpdateArtifactMutation (Some i) (_description a) (_metadata a) None]
      ∧ _saved_aliases (self st') = _aliases (self st')
      ∧ ∀ r, r ∈ drop (List.length (sent st)) (sent st') → ¬ full_alias_replace r
    else
      sent st' = sent st
        ++ [UpdateArtifactMutation (Some i) (_description a) (_metadata a)
              (Some (alias_inputs coll (_aliases a)))]
      ∧ self st' = a.
Proof.
  intros Hs Hc Hi a to_add to_delete coll.
  unfold save, get_self, mbind, M_bind.
  destruct (decide (_state (self st) ≠ PENDING)) as [_|E]; [|contradiction].
  unfold _update, the_client, get_self, execute, lift, id, modify_self, mret, M_ret,
    mbind, M_bind, result_bind. simpl.
  rewrite Hc. simpl.
  destruct (decide (_state (self st) = PENDING)) as [E|_]; [contradiction|].
  rewrite Hi. simpl.
  destruct (has_AddAliasesInput c) eqn:Hb; simpl.
  - fold a. fold to_add. fold to_delete. fold coll.
    destruct (decide (to_add = ∅)) as [Ea|Ea];
      destruct (decide (to_delete = ∅)) as [Ed|Ed]; simpl;
      (eexists; split; [reflexivity|]); simpl;
      (split; [reflexivity|]); (split; [reflexivity|]);
      (split; [rewrite <- ?app_assoc; reflexivity|]);
      (split; [reflexivity|]);
      intros r; rewrite <- ?app_assoc, drop_app_length; simpl;
      intros Hr;
      repeat (apply elem_of_cons in Hr; destruct Hr as [->|Hr]; [simpl; tauto|]);
      by apply elem_of_nil in Hr.
  - eexists; split; [reflexivity|]. simpl. repeat split.
Qed.

Lemma update_spec_witness :
  let st := mkState (committed_with client0 ["latest"; "best"] ["latest"; "old"]
                       (mkManifest [])) ∅ 0 [] in
  ∃ st', save (mret tt) st = (Ok tt, st') ∧
    _saved_aliases (self st') = ["latest"; "best"].
Proof.
  intros st.
  destruct (update_spec st client0 "QXJ0aWZhY3Q6MQ==" (mret tt))
    as (st' & Hrun & _ & Hal & Hsent); [discriminate|reflexivity|reflexivity|].
  exists st'. split; [exact Hrun|].
  simpl in Hsent. destruct Hsent as (_ & Hsaved & _).
  rewrite Hsaved. exact Hal.
Defined.

(** C7 as stated fails against a backend older than 0.13.0: the whole alias
    list is sent as a replacement and the synced list is left behind. *)
Lemma update_old_backend_replaces_aliases :
  let st := mkState (committed_with old_client ["latest"; "best"] ["latest"]
                       (mkManifest [])) ∅ 0 [] in
  sent (save (mret tt) st).2 =
    [UpdateArtifactMutation (Some "QXJ0aWZhY3Q6MQ==") (Some "digits")
       [("classes", "10")]
       (Some [mkAliasAttr "mnist" "latest"; mkAliasAttr "mnist" "best"])] ∧
  (∃ r, r ∈ sent (save (mret tt) st).2 ∧ full_alias_replace r) ∧
  _saved_aliases (self (save (mret tt) st).2) ≠ _aliases (self (save (mret tt) st).2).
Proof.
  repeat split.
  - eexists. split; [apply list_elem_of_here|]. exact I.
  - discriminate.
Qed.

(** *** The guard of the mutators *)

Lemma _ensure_can_add_final (st : State) :
  _final (self st) = true → _ensure_can_add st = (Raise ArtifactFinalizedError, st).
Proof.
  intros H. unfold _ensure_can_add, get_self, mbind, M_bind. rewrite H. reflexivity.
Qed.

Lemma _ensure_can_add_open (st : State) :
  _final (self st) = false → _ensure_can_add st = (Ok tt, st).
Proof.
  intros H. unfold _ensure_can_add, get_self, mbind, M_bind. rewrite H. reflexivity.
Qed.

(** *** What the methods leave of the lifecycle fields *)

Section Keeps.
Context {B : Type} (f : Artifact -> B).

Lemma keeps_ret {A} (a : A) : keeps f (mret a : M A).
Proof. by intros st. Qed.

Lemma keeps_raise {A} (e : exn) : keeps f (raise e : M A).
Proof. by intros st. Qed.

Lemma keeps_lift {A} (r : result A) : keeps f (lift r).
Proof. by intros st. Qed.

Lemma keeps_get_self : keeps f get_self.
Proof. by intros st. Qed.

Lemma keeps_get_files : keeps f get_files.
Proof. by intros st. Qed.

Lemma keeps_put_files (fs : gmap string string) : keeps f (put_files fs).
Proof. by intros st. Qed.

Lemma keeps_execute (r : Request) : keeps f (execute r).
Proof. by intros st. Qed.

Lemma keeps_fresh_tmp_from (pick : nat -> nat) : keeps f (fresh_tmp_from pick).
Proof. by intros st. Qed.

Lemma keeps_modify_self (g : Artifact -> Artifact) :
  (∀ a, f (g a) = f a) → keeps f (modify_self g).
Proof. intros H st. apply H. Qed.

Lemma keeps_bind {A C} (m : M A) (k : A -> M C) :
  keeps f m → (∀ a, keeps f (k a)) → keeps f (m ≫= k).
Proof.
  intros Hm Hk st. unfold mbind, M_bind. specialize (Hm st).
  destruct (m st) as [[a|e] st1]; simpl in Hm |- *; [|exact Hm].
  by rewrite Hk.
Qed.

Lemma keeps_for_each {A} (l : list A) (body : A -> M unit) :
  (∀ x, keeps f (body x)) → keeps f (for_each l body).
Proof.
  intros H. induction l as [|x l IH]; [apply keeps_ret|].
  cbn [for_each]. apply keeps_bind; [apply H|]. by intros _.
Qed.

Lemma keeps_try_except_KeyError {A} (body handler : M A) :
  keeps f body → keeps f handler → keeps f (try_except_KeyError body handler).
Proof.
  intros Hb Hh st. unfold try_except_KeyError. specialize (Hb st).
  destruct (body st) as [[a|e] st1]; simpl in Hb |- *; [exact Hb|].
  destruct e; simpl; try exact Hb. by rewrite Hh.
Qed.
Lemma keeps_digest_or (d : option string) (otherwise : M string) :
  keeps f otherwise → keeps f (digest_or d otherwise).
Proof.
  intros H. unfold digest_or. destruct d as [s|]; [|exact H].
  destruct (decide (s = "")); [exact H|apply keeps_ret].
Qed.
End Keeps.

Ltac keeps_step :=
  first
    [ match goal with
      | H : _ |- keeps _ _ => solve [apply H]
      | |- keeps _ (match ?x with _ => _ end) => destruct x
      end
    | apply keeps_ret | apply keeps_raise | apply keeps_lift | apply keeps_get_self
    | apply keeps_get_files | apply keeps_put_files | apply keeps_execute
    | apply keeps_fresh_tmp_from
    | apply keeps_modify_self; intros ?; reflexivity
    | apply keeps_digest_or
    | apply keeps_for_each; intros ?
    | apply keeps_try_except_KeyError
    | apply keeps_bind; [|intros ?] ].

Ltac keeps_tac := repeat keeps_step.

Section KeepsMethods.
Context (env : Env) {B : Type} (f : Artifact -> B).
Hypothesis f_manifest : ∀ m a, f (set__manifest m a) = f a.
Hypothesis f_added_local_paths : ∀ v a, f (set__added_local_paths v a) = f a.
Hypothesis f_added_objs : ∀ v a, f (set__added_objs v a) = f a.
Hypothesis f_tmp_dir : ∀ v a, f (set__tmp_dir v a) = f a.
Hypothesis f_download_roots : ∀ v a, f (set__download_roots v a) = f a.
Hypothesis f_saved_aliases : ∀ v a, f (set__saved_aliases v a) = f a.

Ltac keeps_setters :=
  repeat first
    [ keeps_step
    | apply keeps_modify_self; intros ?;
      first [ apply f_manifest | apply f_added_local_paths | apply f_added_objs
            | apply f_tmp_dir | apply f_download_roots | apply f_saved_aliases ] ].

Lemma keeps__ensure_can_add : keeps f _ensure_can_add.
Proof. unfold _ensure_can_add. keeps_setters. Qed.

Lemma keeps_isfile (p : string) : keeps f (isfile p).
Proof. unfold isfile. keeps_setters. Qed.

Lemma keeps_isdir (p : string) : keeps f (isdir p).
Proof. unfold isdir. keeps_setters. Qed.

Lemma keeps_read_bytes (p : string) : keeps f (read_bytes p).
Proof. unfold read_bytes. keeps_setters. Qed.

Lemma keeps_write_bytes (p c : string) : keeps f (write_bytes p c).
Proof. unfold write_bytes. keeps_setters. Qed.

Lemma keeps_os_remove (p : string) : keeps f (os_remove p).
Proof. unfold os_remove. keeps_setters. Qed.

Lemma keeps_md5_file_b64 (p : string) : keeps f (md5_file_b64 env p).
Proof. unfold md5_file_b64. apply keeps_bind; [apply keeps_read_bytes|]. intros. keeps_setters. Qed.

Lemma keeps__add_local_file (name_ path_ : string) (d : option string) :
  keeps f (_add_local_file env name_ path_ d).
Proof.
  unfold _add_local_file, NamedTemporaryFile, copyfile, digest_or, getsize.
  pose proof keeps_read_bytes. pose proof keeps_write_bytes. pose proof keeps_md5_file_b64.
  keeps_setters.
Qed.

Lemma keeps_add_file (lp : string) (nm : option string) (tmp : bool) :
  keeps f (add_file env lp nm tmp).
Proof.
  unfold add_file.
  pose proof keeps__ensure_can_add. pose proof keeps_isfile.
  pose proof keeps_md5_file_b64. pose proof keeps__add_local_file.
  keeps_setters.
Qed.

Lemma keeps_add_dir (lp : string) (nm : option string) : keeps f (add_dir env lp nm).
Proof.
  unfold add_dir.
  pose proof keeps__ensure_can_add. pose proof keeps_isdir. pose proof keeps__add_local_file.
  keeps_setters.
Qed.

Lemma keeps_add_reference (uri : ArtifactManifestEntry + URIStr) (nm : option string)
    (checksum : bool) (max_objects : option Z) :
  keeps f (add_reference env uri nm checksum max_objects).
Proof.
  unfold add_reference. pose proof keeps__ensure_can_add. keeps_setters.
Qed.

Lemma keeps_new_file (name_ : string) (body : string -> M string) :
  (∀ p, keeps f (body p)) → keeps f (new_file env name_ body).
Proof.
  intros Hbody. unfold new_file, fresh_tmp.
  pose proof keeps__ensure_can_add. pose proof keeps_write_bytes.
  pose proof keeps_add_file.
  keeps_setters.
Qed.

Lemma keeps_add (obj : WBValue) (name_ : string) :
  keeps f (to_json obj) → keeps f (add env obj name_).
Proof.
  intros Hjson. unfold add.
  pose proof keeps__ensure_can_add. pose proof keeps_write_bytes.
  pose proof keeps_add_file. pose proof keeps_add_reference.
  pose proof keeps_isfile. pose proof keeps_os_remove.
  keeps_setters.
Qed.

Lemma keeps_get_path (name_ : string) : keeps f (get_path env name_).
Proof. unfold get_path. keeps_setters. Qed.

Lemma keeps_entry_download (e : ArtifactManifestEntry) (root : string) :
  keeps f (entry_download env e root).
Proof. unfold entry_download. pose proof keeps_write_bytes. keeps_setters. Qed.

Lemma keeps_download (root : option string) (recursive : bool) :
  (∀ d, keeps f (download_dependent env d)) → keeps f (download env root recursive).
Proof.
  intros Hdep. unfold download, _add_download_root.
  pose proof keeps_get_path. pose proof keeps_entry_download.
  keeps_setters.
Qed.

Lemma keeps_checkout (root : option string) : keeps f (checkout env root).
Proof.
  unfold checkout, download, _add_download_root.
  pose proof keeps_get_path. pose proof keeps_entry_download. pose proof keeps_os_remove.
  keeps_setters.
Qed.

Lemma keeps_verify_entries (root : string) (l : list ArtifactManifestEntry) (n : nat) :
  keeps f (verify_entries env root l n).
Proof.
  revert n. induction l as [|e l IH]; intros n; cbn [verify_entries].
  - apply keeps_ret.
  - pose proof keeps_md5_file_b64. keeps_setters; apply IH.
Qed.

Lemma keeps_verify (root : option string) : keeps f (verify env root).
Proof.
  unfold verify. pose proof keeps_get_path. pose proof keeps_verify_entries.
  keeps_setters.
Qed.

Lemma keeps_file (root : option string) : keeps f (file env root).
Proof.
  unfold file. pose proof keeps_get_path. pose proof keeps_entry_download.
  keeps_setters.
Qed.

Lemma keeps_get {V} (is_table : nat -> bool) (from_json : nat -> string -> result V)
    (name_ : string) :
  (∀ d, keeps f (download_dependent env d)) →
  keeps f (get env is_table from_json name_).
Proof.
  intros Hdep. unfold get.
  pose proof keeps_get_path. pose proof keeps_entry_download.
  pose proof keeps_read_bytes.
  keeps_setters.
Qed.

Lemma keeps_the_client : keeps f the_client.
Proof. unfold the_client. keeps_setters. Qed.

Lemma keeps__update : keeps f _update.
Proof. unfold _update. pose proof keeps_the_client. keeps_setters. Qed.

Lemma keeps_delete (delete_aliases : bool) : keeps f (delete delete_aliases).
Proof. unfold delete. pose proof keeps_the_client. keeps_setters. Qed.
End KeepsMethods.

(** [wait] never changes the [final] flag. *)
Lemma keeps_final_wait (env : Env) : keeps _final (wait env).
Proof. unfold wait, _populate_after_save, the_client. keeps_tac. Qed.

Lemma wait_without_save_future (env : Env) (st : State) :
  _state (self st) = PENDING → _save_future (self st) = None →
  wait env st = (Raise (ArtifactNotLoggedError "wait"), st).
Proof.
  intros Hs Hf. unfold wait, get_self, mbind, M_bind. cbn beta iota.
  rewrite decide_True by done. by rewrite Hf.
Qed.

(** *** Logged artifacts are final *)

Lemma finalized_once_logged_fields (a a' : Artifact) :
  lifecycle_fields a' = lifecycle_fields a →
  finalized_once_logged a → finalized_once_logged a'.
Proof.
  unfold lifecycle_fields, finalized_once_logged. intros H. injection H as -> -> ->. done.
Qed.

Lemma __init___pending (name_ type_ : string) (d : option string)
    (md : option (list (string * string))) (inc : bool) (use_as_ : option string)
    (a : Artifact) :
  __init__ name_ type_ d md inc use_as_ = Ok a →
  _state a = PENDING ∧ _save_future a = None ∧ _final a = false.
Proof.
  unfold __init__. destruct (negb _); [discriminate|]. destruct (_ || _); [discriminate|].
  intros H. injection H as <-. done.
Qed.

Lemma from_attrs_final (env : Env) (entity_ project_ name_ : string)
    (attrs : ArtifactFragment) (client : RetryingClient) (a : Artifact) :
  from_attrs env entity_ project_ name_ attrs client = Ok a → _final a = true.
Proof.
  unfold from_attrs. intros H.
  destruct (__init__ _ _ None None false None) as [art|]; [|discriminate H].
  cbn [mbind result_bind] in H.
  destruct (version_aliases _ _) as [|v [|]]; try discriminate H.
  destruct (run_on _ _) as [loaded|]; [|discriminate H].
  cbn [mbind result_bind] in H. by injection H as <-.
Qed.

Lemma new_draft_pending (copy_manifest : ArtifactManifest -> result ArtifactManifest)
    (a0 a : Artifact) :
  new_draft copy_manifest a0 = Ok a → _state a = PENDING ∧ _save_future a = None.
Proof.
  unfold new_draft. destruct (decide (_state a0 = PENDING)); [discriminate|].
  destruct (__init__ _ _ None None false None) as [art|] eqn:Hinit; [|discriminate].
  apply __init___pending in Hinit as (Hs & Hf & _).
  cbn [mbind result_bind]. destruct (copy_manifest _); [|discriminate].
  cbn [mbind result_bind]. intros H. by injection H as <-.
Qed.

(** Every call of a public method keeps the constraint. *)
Lemma do_call_finalized_once_logged (env : Env) (c : Call) (st : State) :
  admissible env c →
  finalized_once_logged (self st) → finalized_once_logged (self (do_call env c st).2).
Proof.
  intros Hadm Hinv.
  assert (∀ m : M unit, keeps lifecycle_fields m → finalized_once_logged (self (m st).2))
    as Hkeeps.
  { intros m Hm. by apply (finalized_once_logged_fields (self st)). }
  destruct c; cbn [do_call admissible] in Hadm |- *.
  - intros _. reflexivity.
  - unfold save, get_self, mbind, M_bind. cbn beta iota.
    destruct (decide (_state (self st) ≠ PENDING)).
    + apply Hkeeps. by apply keeps__update.
    + intros _. reflexivity.
  - destruct (_final (self st)) eqn:Hfin.
    + intros _. by rewrite keeps_final_wait.
    + assert (_state (self st) = PENDING) as Hs.
      { destruct (decide (_state (self st) = PENDING)) as [|Hn]; [done|].
        specialize (Hinv (or_introl Hn)). congruence. }
      assert (_save_future (self st) = None) as Hf.
      { destruct (_save_future (self st)) eqn:E; [|done].
        assert (_final (self st) = true) by (apply Hinv; right; rewrite E; by eexists).
        congruence. }
      by rewrite (wait_without_save_future env st Hs Hf).
  - apply Hkeeps. by apply keeps_modify_self.
  - apply Hkeeps. by apply keeps_modify_self.
  - apply Hkeeps. by apply keeps_modify_self.
  - unfold get_self, lift, modify_self, set_aliases, mbind, M_bind. cbn beta iota.
    destruct (existsb _ v); cbn [snd self]; [exact Hinv|].
    by apply (finalized_once_logged_fields (self st)).
  - apply Hkeeps. by apply keeps_modify_self.
  - apply Hkeeps. apply keeps_bind; [|intros; apply keeps_ret].
    apply keeps_new_file; try done; intros; apply keeps_ret.
  - apply Hkeeps. apply keeps_bind; [|intros; apply keeps_ret]. by apply keeps_add_file.
  - apply Hkeeps. by apply keeps_add_dir.
  - apply Hkeeps. apply keeps_bind; [|intros; apply keeps_ret]. by apply keeps_add_reference.
  - apply Hkeeps. apply keeps_bind; [|intros; apply keeps_ret]. by apply keeps_add.
  - apply Hkeeps. apply keeps_bind; [|intros; apply keeps_ret]. by apply keeps_get_path.
  - apply Hkeeps. apply keeps_bind; [|intros; apply keeps_ret]. by apply keeps_get.
  - apply Hkeeps. apply keeps_bind; [|intros; apply keeps_ret]. by apply keeps_download.
  - apply Hkeeps. apply keeps_bind; [|intros; apply keeps_ret]. by apply keeps_checkout.
  - apply Hkeeps. apply keeps_bind; [|intros; apply keeps_ret]. by apply keeps_verify.
  - apply Hkeeps. apply keeps_bind; [|intros; apply keeps_ret]. by apply keeps_file.
  - apply Hkeeps. by apply keeps_delete.
Qed.

(** An artifact that is logged, or whose save has been started, is final in
    every reachable state. *)
Lemma reachable_finalized_once_logged (env : Env) (st : State) :
  reachable env st → finalized_once_logged (self st).
Proof.
  induction 1 as [? ? ? ? ? ? a ? ? ? Hinit|? ? ? ? ? a ? ? ? Hload
                 |? ? a ? ? ? Hdraft|st c _ IH Hadm|st fs _ IH]; cbn [self].
  - apply __init___pending in Hinit as (Hs & Hf & _).
    intros [Hn|[? Hsome]]; [contradiction|]. rewrite Hf in Hsome. discriminate.
  - intros _. by apply (from_attrs_final env _ _ _ _ _ _ Hload).
  - apply new_draft_pending in Hdraft as (Hs & Hf).
    intros [Hn|[? Hsome]]; [contradiction|]. rewrite Hf in Hsome. discriminate.
  - by apply do_call_finalized_once_logged.
  - exact IH.
Qed.

Lemma final_blocks_mutators (env : Env) (st : State) :
  _final (self st) = true →
  (∀ p n t, add_file env p n t st = (Raise ArtifactFinalizedError, st)) ∧
  (∀ p n, add_dir env p n st = (Raise ArtifactFinalizedError, st)) ∧
  (∀ u n c m, add_reference env u n c m st = (Raise ArtifactFinalizedError, st)) ∧
  (∀ n body, new_file env n body st = (Raise ArtifactFinalizedError, st)) ∧
  (∀ obj n, add env obj n st = (Raise ArtifactFinalizedError, st)).
Proof.
  intros H. pose proof (_ensure_can_add_final st H) as G.
  repeat split; intros;
    [unfold add_file | unfold add_dir | unfold add_reference
    | unfold new_file | unfold add];
    unfold mbind at 1, M_bind; rewrite G; reflexivity.
Qed.

(** C1. On an artifact whose [final] flag is set, and on an artifact that is
    not a draft in any state that the constructor, [from_attrs] or
    [new_draft] followed by calls of the public methods lead to, each of
    [add_file], [add_dir], [add_reference], [new_file] and [add] raises
    [ArtifactFinalizedError] and leaves the whole state, the manifest
    included, as it was. The guard itself reads the flag only; an artifact
    stops being a draft in [wait] alone, which needs the save future that
    the run sets after it has finalized the artifact. *)
Theorem finalized_mutators_fail (env : Env) (st : State) :
  _final (self st) = true ∨ (_state (self st) ≠ PENDING ∧ reachable env st) →
  (∀ p n t, add_file env p n t st = (Raise ArtifactFinalizedError, st)) ∧
  (∀ p n, add_dir env p n st = (Raise ArtifactFinalizedError, st)) ∧
  (∀ u n c m, add_reference env u n c m st = (Raise ArtifactFinalizedError, st)) ∧
  (∀ n body, new_file env n body st = (Raise ArtifactFinalizedError, st)) ∧
  (∀ obj n, add env obj n st = (Raise ArtifactFinalizedError, st)).
Proof.
  intros H. apply final_blocks_mutators.
  destruct H as [H|[Hs Hr]]; [exact H|].
  apply (reachable_finalized_once_logged env st Hr). by left.
Qed.

Lemma finalized_mutators_fail_witness :
  let st := (do_call env0 call_wait
               (do_call env0 (call_save future0 client0) start0).2).2 in
  _state (self st) = COMMITTED ∧
  entries (_manifest (self st)) = [] ∧
  add_file env0 "data/f.txt" None false st = (Raise ArtifactFinalizedError, st) ∧
  entries (_manifest (self (add_file env0 "data/f.txt" None false st).2)) = [].
Proof.
  intros st.
  assert (_state (self st) = COMMITTED) as Hs by (vm_compute; reflexivity).
  assert (reachable env0 st) as Hr.
  { apply reach_call; [|exact I]. apply reach_call; [|exact I].
    by apply (reach_constructed env0 "mnist" "dataset" None None false None). }
  assert (add_file env0 "data/f.txt" None false st = (Raise ArtifactFinalizedError, st))
    as Hadd.
  { apply (finalized_mutators_fail env0 st). right. split; [|exact Hr].
    rewrite Hs. discriminate. }
  split; [exact Hs|]. split; [vm_compute; reflexivity|]. split; [exact Hadd|].
  rewrite Hadd. vm_compute. reflexivity.
Defined.

(** *** The cross-artifact handler *)

Section Handler.
Context (env : Env).

Lemma reload_as_written_raises (target : Artifact) :
  reload_as_written env target
  = Raise (TypeError "_load_manifest() missing 1 required positional argument: 'url'").
Proof. reflexivity. Qed.

(** The loop as written is over after its first turn, whatever fuel is
    left. *)
Lemma resolve_as_written (k : nat) (u : URIStr) :
  resolve env (reload_as_written env) (S k) (Some u) None
  = resolve env (reload_as_written env) 1 (Some u) None
  ∧ ∃ r, resolve env (reload_as_written env) 1 (Some u) None = Some r
         ∧ ∀ b, r ≠ Ok (Some b).
Proof.
  simpl. destruct (decide (scheme u = _scheme)).
  - destruct (from_id env (hex_to_b64_id env (netloc u))).
    + split; [reflexivity|]. eexists. split; [reflexivity|]. discriminate.
    + split; [reflexivity|]. eexists. split; [reflexivity|]. discriminate.
  - split; [reflexivity|]. eexists. split; [reflexivity|]. discriminate.
Qed.

Lemma store_path_fuel (k : nat) (path_ : URIStr) (name_ : option string)
    (checksum : bool) (max_objects : option Z) :
  store_path_with env (reload_as_written env) (S k) path_ name_ checksum max_objects
  = Some (store_path env path_ name_ checksum max_objects).
Proof.
  unfold store_path, store_path_with.
  destruct (resolve_as_written k path_) as [-> (r & -> & _)]. reflexivity.
Qed.

Lemma store_path_always_raises (path_ : URIStr) (name_ : option string)
    (checksum : bool) (max_objects : option Z) :
  ∃ e, store_path env path_ name_ checksum max_objects = Raise e.
Proof.
  unfold store_path, store_path_with.
  destruct (resolve_as_written 0 path_) as [_ (r & -> & Hr)]. simpl.
  destruct r as [[b|]|e]; simpl.
  - exfalso. by apply (Hr b).
  - eexists. reflexivity.
  - eexists. reflexivity.
Qed.

(** What the loop would do if the call of [_load_manifest] in its body
    had no effect on the target ([reload] answers its argument). *)

Lemma resolve_bound_irrelevant (reload : Artifact -> result Artifact) (fuel : nat)
    (u : URIStr) (b b' : option Bound) :
  scheme u = _scheme →
  resolve env reload fuel (Some u) b = resolve env reload fuel (Some u) b'.
Proof.
  intros H. destruct fuel; simpl; destruct (decide (scheme u = _scheme));
    try contradiction; reflexivity.
Qed.

(** Chain flattening: a reference to [B]'s [q], which itself refers to
    [uA], is stored like a reference to [uA]. *)
Lemma resolve_through (fuel : nat) (uA uB : URIStr) (name_ : option string)
    (checksum : bool) (max_objects : option Z) (tB : Artifact)
    (eB : ArtifactManifestEntry) :
  scheme uA = _scheme → scheme uB = _scheme →
  from_id env (hex_to_b64_id env (netloc uB)) = Some tB →
  get_entry_by_path (upath uB) (_manifest tB) = Some eB →
  ref eB = Some uA →
  store_path_with env Ok (S fuel) uB name_ checksum max_objects
  = store_path_with env Ok fuel uA name_ checksum max_objects.
Proof.
  intros HA HB Hid He Hr. unfold store_path_with. simpl.
  destruct (decide (scheme uB = _scheme)); [|contradiction].
  rewrite Hid, He, Hr.
  by rewrite (resolve_bound_irrelevant Ok fuel uA _ None).
Qed.

(** A reference to an entry that is no cross-artifact reference gives one
    entry with that entry's digest and size [0]. *)
Lemma resolve_direct (fuel : nat) (uA : URIStr) (name_ : option string)
    (checksum : bool) (max_objects : option Z) (tA : Artifact)
    (eA : ArtifactManifestEntry) (i : string) :
  scheme uA = _scheme →
  from_id env (hex_to_b64_id env (netloc uA)) = Some tA →
  get_entry_by_path (upath uA) (_manifest tA) = Some eA →
  _is_artifact_reference eA = false →
  _state tA ≠ PENDING → _id tA = Some i →
  ∃ e, store_path_with env Ok (S fuel) uA name_ checksum max_objects = Some (Ok [e])
       ∧ digest e = digest eA ∧ size e = Some 0
       ∧ ref e = Some (mkURI _scheme (b64_to_hex_id env i) (upath uA)).
Proof.
  intros HA Hid He Hc Hs Hi. unfold store_path_with. simpl.
  destruct (decide (scheme uA = _scheme)); [|contradiction].
  rewrite Hid, He.
  assert (resolve env Ok fuel (ref eA) (Some (tA, upath uA, eA))
          = Some (Ok (Some (tA, upath uA, eA)))) as ->.
  { unfold _is_artifact_reference in Hc. destruct fuel, (ref eA) as [u|]; simpl;
      try reflexivity;
      (destruct (decide (scheme u = _scheme)) as [E|E]; [|reflexivity]);
      unfold _scheme in E; rewrite bool_decide_eq_false in Hc; contradiction. }
  simpl. unfold id. destruct (decide (_state tA = PENDING)); [contradiction|].
  rewrite Hi. simpl. eexists. split; [reflexivity|]. repeat split.
Qed.
End Handler.

(** C3 does not hold of the code: [store_path] calls
    [target_artifact._load_manifest()] without the [url] the method
    requires, so every call ends in an exception and no entry is emitted.
    For the reference to [p.txt] of the committed artifact [A] the
    exception is the [TypeError] of that call. *)
Theorem store_path_raises :
  store_path env_A uri_A_p None true None
  = Raise (TypeError "_load_manifest() missing 1 required positional argument: 'url'")
  ∧ (from_id env_A (hex_to_b64_id env_A (netloc uri_A_p)) = Some artifact_A
     ∧ get_entry_by_path (upath uri_A_p) (_manifest artifact_A)
       = Some (mkEntry "p.txt" "md5:payload" None (Some 7) None))
  ∧ ∀ env path_ name_ checksum max_objects,
      ∃ e, store_path env path_ name_ checksum max_objects = Raise e.
Proof.
  split; [reflexivity|]. split; [split; reflexivity|].
  intros. apply store_path_always_raises.
Qed.

(** *** Re-adding a file *)

Lemma PyDict_set_fresh {V} (k : string) (v : V) (d : PyDict.t V) :
  PyDict.get k d = None → PyDict.set k v d = d ++ [(k, v)].
Proof.
  induction d as [|[k' v'] d IH]; simpl; [reflexivity|].
  destruct (decide (k' = k)); [discriminate|]. intros H. by rewrite IH.
Qed.

Lemma PyDict_get_snoc {V} (k : string) (v : V) (d : PyDict.t V) :
  PyDict.get k d = None → PyDict.get k (d ++ [(k, v)]) = Some v.
Proof.
  induction d as [|[k' v'] d IH]; simpl.
  - destruct (decide (k = k)); [reflexivity|contradiction].
  - destruct (decide (k' = k)); [discriminate|]. exact IH.
Qed.

Lemma tmp_path_inj (dir : string) : Inj (=) (=) (tmp_path dir).
Proof.
  intros n m. unfold tmp_path, path_join.
  destruct (decide (dir = "")); intros H.
  - apply (inj (String.app "tmp")) in H. by apply (inj pretty).
  - apply (inj (String.app dir)) in H. apply (inj (String.app "/")) in H.
    apply (inj (String.app "tmp")) in H. by apply (inj pretty).
Qed.

Lemma first_free_range (dir : string) (fs : gmap string string) (fuel n : nat) :
  fs !! tmp_path dir (first_free dir fs n fuel) = None
  ∨ ∀ j, (n ≤ j ≤ n + fuel)%nat → is_Some (fs !! tmp_path dir j).
Proof.
  revert n. induction fuel as [|k IH]; intros n; simpl.
  - destruct (fs !! tmp_path dir n) eqn:E; [right|by left].
    intros j Hj. assert (j = n) as -> by lia. by rewrite E.
  - case_bool_decide as E; [|left; by apply eq_None_not_Some].
    destruct (IH (S n)) as [H|H]; [by left|right].
    intros j Hj. destruct (decide (j = n)) as [->|]; [done|]. apply H. lia.
Qed.

(** The name [NamedTemporaryFile] picks is not in use. *)
Lemma first_free_free (dir : string) (fs : gmap string string) (n : nat) :
  fs !! tmp_path dir (first_free dir fs n (base.size fs)) = None.
Proof.
  destruct (first_free_range dir fs (base.size fs) n) as [H|H]; [exact H|].
  exfalso.
  set (names := tmp_path dir <$> seq n (S (base.size fs))).
  assert (NoDup names) as Hnd.
  { apply (NoDup_fmap_2 _ (Inj0 := tmp_path_inj dir)). apply NoDup_seq. }
  assert (list_to_set (C := gset string) names ⊆ dom fs) as Hsub.
  { intros x Hx. apply elem_of_list_to_set, list_elem_of_fmap in Hx as (j & -> & Hj).
    apply elem_of_seq in Hj. apply elem_of_dom, H. lia. }
  apply subseteq_size in Hsub.
  rewrite size_list_to_set, size_dom in Hsub by done.
  unfold names in Hsub. rewrite length_fmap, length_seq in Hsub. lia.
Qed.

Lemma bind_ok {A B} (m : M A) (f : A → M B) (st st' : State) (a : A) :
  m st = (Ok a, st') → (m ≫= f) st = f a st'.
Proof. intros H. unfold mbind, M_bind. by rewrite H. Qed.

Lemma bind_raise {A B} (m : M A) (f : A → M B) (st st' : State) (e : exn) :
  m st = (Raise e, st') → (m ≫= f) st = (Raise e, st').
Proof. intros H. unfold mbind, M_bind. by rewrite H. Qed.

Section ReAdd.
Context (env : Env).

Lemma _add_local_file_run (name_ lp c : string) (st : State) :
  files st !! lp = Some c →
  let n := first_free (get_staging_dir env) (files st) (next_tmp st)
             (base.size (files st)) in
  let p := tmp_path (get_staging_dir env) n in
  let entry := mkEntry name_ (md5_b64 env c) None
                 (Some (Z.of_nat (String.length c))) (Some p) in
  let fs' := <[p := c]> (<[p := ""]> (files st)) in
  _add_local_file env name_ lp (Some (md5_b64 env c)) st =
    match add_entry entry (_manifest (self st)) with
    | Ok m =>
        (Ok entry,
         mkState (set__added_local_paths
                    (PyDict.set lp entry (_added_local_paths (self st)))
                    (set__manifest m (self st)))
                 fs' (S n) (sent st))
    | Raise e => (Raise e, mkState (self st) fs' (S n) (sent st))
    end
  ∧ fs' !! lp = Some c.
Proof.
  intros Hlp n p entry fs'.
  assert (files st !! p = None) as Hp by apply first_free_free.
  assert (p ≠ lp) as Hne by (intros ->; congruence).
  assert (fs' !! lp = Some c) as Hlp'.
  { unfold fs'. by rewrite !lookup_insert_ne. }
  split; [|exact Hlp'].
  unfold _add_local_file, NamedTemporaryFile, copyfile, md5_file_b64, getsize,
    read_bytes, write_bytes, get_files, put_files, fresh_tmp_from, get_self,
    modify_self, lift, mbind, M_bind, mret, M_ret. simpl.
  fold p. rewrite lookup_insert_ne by done. rewrite Hlp. simpl.
  unfold digest_or.
  destruct (decide (md5_b64 env c = "")) as [E|E];
    unfold mbind, M_bind, mret, M_ret; simpl; fold fs';
    repeat (unfold fs' at 1; rewrite lookup_insert_eq; simpl);
    reflexivity.
Qed.

(** One call on an open artifact whose file is there. *)
Lemma add_file_run (lp : string) (nm : option string) (tmp : bool) (c : string)
    (st : State) :
  _final (self st) = false →
  files st !! lp = Some c →
  let n := first_free (get_staging_dir env) (files st) (next_tmp st)
             (base.size (files st)) in
  let p := tmp_path (get_staging_dir env) n in
  let entry := mkEntry (add_file_name env lp nm tmp c) (md5_b64 env c) None
                 (Some (Z.of_nat (String.length c))) (Some p) in
  let fs' := <[p := c]> (<[p := ""]> (files st)) in
  add_file env lp nm tmp st =
    match add_entry entry (_manifest (self st)) with
    | Ok m =>
        (Ok entry,
         mkState (set__added_local_paths
                    (PyDict.set lp entry (_added_local_paths (self st)))
                    (set__manifest m (self st)))
                 fs' (S n) (sent st))
    | Raise e => (Raise e, mkState (self st) fs' (S n) (sent st))
    end
  ∧ fs' !! lp = Some c.
Proof.
  intros Hf Hlp n p entry fs'.
  unfold add_file. unfold mbind at 1, M_bind at 1.
  rewrite (_ensure_can_add_open st Hf).
  unfold isfile, md5_file_b64, read_bytes, get_files, mbind, M_bind, mret, M_ret.
  simpl. repeat (rewrite Hlp; simpl).
  exact (_add_local_file_run (add_file_name env lp nm tmp c) lp c st Hlp).
Qed.

(** A further call, once an entry with the file's digest is recorded under
    the name: the manifest stays. *)
Lemma add_file_again (lp : string) (nm : option string) (tmp : bool) (c : string)
    (st : State) (old : ArtifactManifestEntry) :
  _final (self st) = false →
  files st !! lp = Some c →
  PyDict.get (add_file_name env lp nm tmp c) (entries (_manifest (self st))) = Some old →
  digest old = md5_b64 env c →
  ∃ e st', add_file env lp nm tmp st = (Ok e, st') ∧
    _manifest (self st') = _manifest (self st) ∧
    _final (self st') = false ∧ files st' !! lp = Some c.
Proof.
  intros Hf Hlp Hold Hd.
  destruct (add_file_run lp nm tmp c st Hf Hlp) as [Hrun Hlp'].
  rewrite Hrun. unfold add_entry. simpl. rewrite Hold.
  destruct (decide (digest old = md5_b64 env c)); [|contradiction].
  eexists _, _. split; [reflexivity|]. simpl. by repeat split.
Qed.

Lemma add_file_times_again (n : nat) (lp : string) (nm : option string) (tmp : bool)
    (c : string) (st : State) (old : ArtifactManifestEntry) :
  _final (self st) = false →
  files st !! lp = Some c →
  PyDict.get (add_file_name env lp nm tmp c) (entries (_manifest (self st))) = Some old →
  digest old = md5_b64 env c →
  ∃ st', add_file_times env n lp nm tmp st = (Ok tt, st') ∧
    _manifest (self st') = _manifest (self st) ∧
    _final (self st') = false ∧ files st' !! lp = Some c.
Proof.
  revert st. induction n as [|n IH]; intros st Hf Hlp Hold Hd.
  - exists st. by repeat split.
  - destruct (add_file_again lp nm tmp c st old Hf Hlp Hold Hd)
      as (e & st1 & Hrun & Hm & Hf1 & Hlp1).
    destruct (IH st1 Hf1 Hlp1) as (st2 & Hrun2 & Hm2 & Hf2 & Hlp2);
      [by rewrite Hm|done|].
    exists st2. split; [|by rewrite Hm2, Hm].
    unfold add_file_times in *. cbn [replicate for_each].
    erewrite bind_ok; [exact Hrun2|].
    erewrite bind_ok; [reflexivity|exact Hrun].
Qed.

(** C4. On an open artifact, with the file in place and no entry yet
    under its name, any number of [add_file] calls with the same arguments
    succeed and leave the manifest with exactly one more entry, the one
    of the first call: it carries the name, the digest of the bytes and
    their length. A further call again leaves the manifest as it is. *)
Theorem add_file_idempotent (lp : string) (nm : option string) (tmp : bool)
    (c : string) (st : State) :
  _final (self st) = false →
  files st !! lp = Some c →
  PyDict.get (add_file_name env lp nm tmp c) (entries (_manifest (self st))) = None →
  ∃ e, path e = add_file_name env lp nm tmp c ∧ digest e = md5_b64 env c ∧
    size e = Some (Z.of_nat (String.length c)) ∧ ref e = None ∧
    ∀ n, ∃ st',
      add_file_times env (S n) lp nm tmp st = (Ok tt, st') ∧
      entries (_manifest (self st'))
        = entries (_manifest (self st)) ++ [(add_file_name env lp nm tmp c, e)] ∧
      is_ok (add_file env lp nm tmp st').1 = true ∧
      _manifest (self (add_file env lp nm tmp st').2) = _manifest (self st').
Proof.
  intros Hf Hlp Hnone.
  destruct (add_file_run lp nm tmp c st Hf Hlp) as [Hrun Hlp'].
  unfold add_entry in Hrun. simpl in Hrun. rewrite Hnone in Hrun.
  rewrite (PyDict_set_fresh _ _ _ Hnone) in Hrun.
  exists (mkEntry (add_file_name env lp nm tmp c) (md5_b64 env c) None
            (Some (Z.of_nat (String.length c)))
            (Some (tmp_path (get_staging_dir env)
                     (first_free (get_staging_dir env) (files st) (next_tmp st)
                        (base.size (files st)))))).
  do 4 (split; [reflexivity|]).
  intros n.
  match type of Hrun with _ = (_, ?s) => set (st1 := s) in * end.
  match type of Hrun with _ = (Ok ?x, _) => set (e := x) in * end.
  assert (PyDict.get (add_file_name env lp nm tmp c) (entries (_manifest (self st1)))
          = Some e) as Hget by (simpl; by apply PyDict_get_snoc).
  destruct (add_file_times_again n lp nm tmp c st1 e) as (st2 & Hrun2 & Hm2 & Hf2 & Hlp2);
    [exact Hf|exact Hlp'|exact Hget|reflexivity|].
  exists st2. split; [|split].
  - unfold add_file_times in *. cbn [replicate for_each].
    erewrite bind_ok; [exact Hrun2|].
    erewrite bind_ok; [reflexivity|exact Hrun].
  - rewrite Hm2. reflexivity.
  - destruct (add_file_again lp nm tmp c st2 e) as (e' & st3 & Hrun3 & Hm3 & _);
      [exact Hf2|exact Hlp2|by rewrite Hm2|reflexivity|].
    rewrite Hrun3. simpl. by split.
Qed.
End ReAdd.

Lemma add_file_idempotent_witness :
  ∃ e, path e = "f.txt" ∧ digest e = "md5:hello" ∧
    ∃ st', add_file_times env0 3 "data/f.txt" None false start0 = (Ok tt, st') ∧
      entries (_manifest (self st')) = [("f.txt", e)].
Proof.
  destruct (add_file_idempotent env0 "data/f.txt" None false "hello" start0)
    as (e & Hp & Hd & _ & _ & Hn); [reflexivity|reflexivity|reflexivity|].
  exists e. split; [exact Hp|]. split; [exact Hd|].
  destruct (Hn 2%nat) as (st' & Hrun & Hent & _).
  exists st'. split; [exact Hrun|exact Hent].
Defined.

(** *** Verifying a directory *)

Section Verify.
Context (env : Env).

Lemma get_path_run (st : State) (rel : string) :
  _state (self st) ≠ PENDING →
  (tracked env (self st) rel ∧ ∃ e, get_path env rel st = (Ok e, st))
  ∨ (¬ tracked env (self st) rel
     ∧ get_path env rel st
       = (Raise (KeyError ("Path not contained in artifact: "
                           +:+ LogicalPath env rel)), st)).
Proof.
  intros Hs. unfold get_path, get_self, tracked, manifest, mbind, M_bind. simpl.
  destruct (decide (_state (self st) = PENDING)); [contradiction|].
  destruct (PyDict.get (LogicalPath env rel) (entries (_manifest (self st)))) as [e|].
  - left. split; [left; by eexists|]. by exists e.
  - destruct (_get_obj_entry env (LogicalPath env rel) (self st)) as [e|].
    + left. split; [right; by eexists|]. by exists e.
    + right. split; [|reflexivity]. intros [[? H]|[? H]]; discriminate H.
Qed.

(** The first loop of [verify]: every file is looked up; the first one
    without an entry ends the walk. *)
Lemma verify_walk_run (st : State) (msg : string -> string)
    (l : list (string * string)) :
  _state (self st) ≠ PENDING →
  let body := fun fr : string * string =>
    try_except_KeyError (get_path env fr.2;; mret tt)
      (raise (ValueError (msg fr.1))) in
  (Forall (fun fr => tracked env (self st) fr.2) l
   ∧ for_each l body st = (Ok tt, st))
  ∨ (∃ fr, fr ∈ l ∧ ¬ tracked env (self st) fr.2
           ∧ for_each l body st = (Raise (ValueError (msg fr.1)), st)).
Proof.
  intros Hs body. induction l as [|fr l IH].
  - left. split; [constructor|reflexivity].
  - cbn [for_each].
    destruct (get_path_run st fr.2 Hs) as [[Ht [e He]]|[Hn He]].
    + assert (body fr st = (Ok tt, st)) as Hb.
      { unfold body, try_except_KeyError. rewrite (bind_ok _ _ _ _ _ He). reflexivity. }
      rewrite (bind_ok _ _ _ _ _ Hb).
      destruct IH as [[Hall Hrun]|(fr' & Hin & Hn & Hrun)].
      * left. split; [by constructor|exact Hrun].
      * right. exists fr'. split; [by apply list_elem_of_further|]. by split.
    + assert (body fr st = (Raise (ValueError (msg fr.1)), st)) as Hb.
      { unfold body, try_except_KeyError. rewrite (bind_raise _ _ _ _ _ He). reflexivity. }
      rewrite (bind_raise _ _ _ _ _ Hb).
      right. exists fr. split; [apply list_elem_of_here|]. by split.
Qed.

(** The second loop: references are counted, the other entries hashed. *)
Lemma verify_entries_run (st : State) (root : string)
    (l : list ArtifactManifestEntry) (k : nat) :
  (verify_entries env root l k st = (Ok (k + ref_count_of l)%nat, st)
   ∧ Forall (fun e => ¬ entry_missing root (files st) e
                      ∧ ¬ entry_mismatch env root (files st) e) l)
  ∨ (∃ e, e ∈ l ∧ entry_mismatch env root (files st) e
          ∧ verify_entries env root l k st
            = (Raise (ValueError ("Digest mismatch for file: " +:+ path e)), st))
  ∨ (∃ e, e ∈ l ∧ entry_missing root (files st) e
          ∧ verify_entries env root l k st
            = (Raise (FileNotFoundError (path_join root (path e))), st)).
Proof.
  revert k. induction l as [|e l IH]; intros k.
  - left. split; [|constructor]. unfold ref_count_of. simpl.
    by rewrite Nat.add_0_r.
  - cbn [verify_entries]. destruct (ref e) as [u|] eqn:Hr.
    + destruct (IH (S k)) as [[Hrun Hall]|[(e' & Hin & Hm & Hrun)|(e' & Hin & Hm & Hrun)]].
      * left. split.
        -- rewrite Hrun. unfold ref_count_of. rewrite filter_cons_True by (by rewrite Hr).
           simpl. do 2 f_equal. lia.
        -- constructor; [|exact Hall].
           unfold entry_missing, entry_mismatch. rewrite Hr. split; intros [? _]; done.
      * right; left. exists e'. split; [by apply list_elem_of_further|]. by split.
      * right; right. exists e'. split; [by apply list_elem_of_further|]. by split.
    + unfold md5_file_b64, read_bytes, get_files, mbind, M_bind, mret, M_ret. simpl.
      destruct (files st !! path_join root (path e)) as [c|] eqn:Hc; simpl.
      * destruct (decide (md5_b64 env c ≠ digest e)) as [Hd|Hd].
        -- right; left. exists e. split; [apply list_elem_of_here|]. split; [|reflexivity].
           split; [exact Hr|]. by exists c.
        -- destruct (IH k)
             as [[Hrun Hall]|[(e' & Hin & Hm & Hrun)|(e' & Hin & Hm & Hrun)]].
           ++ left. split.
              ** rewrite Hrun. unfold ref_count_of.
                 rewrite filter_cons_False by (rewrite Hr; by intros [? ?]).
                 reflexivity.
              ** constructor; [|exact Hall]. split.
                 --- intros [_ H]. congruence.
                 --- intros [_ (c' & H1 & H2)]. rewrite Hc in H1.
                     injection H1 as <-. by apply Hd.
           ++ right; left. exists e'. split; [by apply list_elem_of_further|]. by split.
           ++ right; right. exists e'. split; [by apply list_elem_of_further|]. by split.
      * right; right. exists e. split; [apply list_elem_of_here|]. by split.
Qed.

(** C5, as the code has it. On a logged artifact [verify] changes nothing,
    and it fails exactly when a file under the root has no entry (looked
    up as [get_path] does), or the file of a non-reference entry has bytes
    whose hash is not the recorded digest, or the file of a non-reference
    entry is not there at all. The error names the file or the entry's
    path. Reference entries are only counted, and the count is the
    answer. *)
Theorem verify_spec (st : State) (root : option string) :
  _state (self st) ≠ PENDING →
  let a := self st in
  let r := or_str root (_default_root env true a) in
  let l := PyDict.values (entries (_manifest a)) in
  let untracked := fun fr : string * string =>
    fr ∈ walk r (files st) ∧ ¬ tracked env a fr.2 in
  (verify env root st).2 = st ∧
  (is_ok (verify env root st).1 = false ↔
     (∃ fr, untracked fr)
     ∨ (∃ e, e ∈ l ∧ entry_mismatch env r (files st) e)
     ∨ (∃ e, e ∈ l ∧ entry_missing r (files st) e)) ∧
  (∀ err, (verify env root st).1 = Raise err →
     (∃ fr, untracked fr
            ∧ err = ValueError ("Found file " +:+ fr.1
                                +:+ " which is not a member of artifact " +:+ name a))
     ∨ (∃ e, e ∈ l ∧ entry_mismatch env r (files st) e
             ∧ err = ValueError ("Digest mismatch for file: " +:+ path e))
     ∨ (∃ e, e ∈ l ∧ entry_missing r (files st) e
             ∧ err = FileNotFoundError (path_join r (path e)))) ∧
  (∀ n, (verify env root st).1 = Ok n → n = ref_count_of l).
Proof.
  intros Hs a r l untracked.
  set (msg := fun full : string =>
         "Found file " +:+ full +:+ " which is not a member of artifact " +:+ name a).
  set (body := fun fr : string * string =>
         try_except_KeyError (get_path env fr.2;; mret tt)
           (raise (ValueError (msg fr.1)))).
  assert (verify env root st
          = (for_each (walk r (files st)) body ≫= fun _ => verify_entries env r l 0) st)
    as Hv.
  { unfold verify, get_self, get_files. unfold mbind at 1 2, M_bind at 1 2. simpl.
    destruct (decide (_state (self st) = PENDING)); [contradiction|]. reflexivity. }
  rewrite Hv. clear Hv.
  destruct (verify_walk_run st msg (walk r (files st)) Hs)
    as [[Hall Hrun]|(fr & Hin & Hn & Hrun)]; fold body in Hrun.
  - rewrite (bind_ok _ _ _ _ _ Hrun).
    assert (¬ ∃ fr, untracked fr) as Hno.
    { intros (fr & Hin & Hn). rewrite Forall_forall in Hall. by apply Hn, Hall. }
    destruct (verify_entries_run st r l 0)
      as [[Hrun2 Hall2]|[(e & Hin & Hm & Hrun2)|(e & Hin & Hm & Hrun2)]];
      rewrite Hrun2; simpl.
    + rewrite Forall_forall in Hall2.
      split; [reflexivity|]. split; [|split]; [|discriminate|by intros n [= <-]].
      split; [discriminate|].
      intros [H|[(e & Hin & H)|(e & Hin & H)]]; [contradiction|..];
        destruct (Hall2 e Hin); contradiction.
    + split; [reflexivity|]. split; [|split]; [|intros err [= <-]|discriminate].
      * split; [|reflexivity]. intros _. right; left. by exists e.
      * right; left. by exists e.
    + split; [reflexivity|]. split; [|split]; [|intros err [= <-]|discriminate].
      * split; [|reflexivity]. intros _. right; right. by exists e.
      * right; right. by exists e.
  - rewrite (bind_raise _ _ _ _ _ Hrun). simpl.
    split; [reflexivity|]. split; [|split]; [|intros err [= <-]|discriminate].
    + split; [|reflexivity]. intros _. left. by exists fr.
    + left. by exists fr.
Qed.
End Verify.

Lemma verify_spec_witness :
  let st := mkState (committed_with client0 ["latest"] ["latest"]
                       (mkManifest [("f.txt", mkEntry "f.txt" "md5:hello" None (Some 5) None);
                                    ("r", mkEntry "r" "etag" (Some (mkURI "https" "host" "r"))
                                            None None)]))
              {[ "root/f.txt" := "hello" ]} 0 [] in
  _state (self st) ≠ PENDING ∧
  (verify env0 (Some "root") st).2 = st ∧
  ∀ n, (verify env0 (Some "root") st).1 = Ok n → n = 1%nat.
Proof.
  intros st. split; [discriminate|].
  destruct (verify_spec env0 st (Some "root")) as (Hst & _ & _ & Hn); [discriminate|].
  split; [exact Hst|exact Hn].
Defined.

(** C5 as stated fails when the file of an entry is not under the root:
    [verify] fails with a file-not-found error although no file is untracked
    and no hash that could be recomputed differs. *)
Lemma verify_fails_on_missing_file :
  let st := mkState (committed_with client0 ["latest"] ["latest"]
                       (mkManifest [("f.txt", mkEntry "f.txt" "md5:hello" None (Some 5) None)]))
              ∅ 0 [] in
  (verify env0 (Some "root") st).1 = Raise (FileNotFoundError "root/f.txt") ∧
  walk "root" (files st) = [] ∧
  ∀ e, ¬ entry_mismatch env0 "root" (files st) e.
Proof.
  intros st. split; [reflexivity|]. split; [reflexivity|].
  intros e [_ (c & Hc & _)]. simpl in Hc. by rewrite lookup_empty in Hc.
Qed.

(** *** Checking out *)

(** C6 does not hold of the code for an artifact that has an entry of
    unknown size: [checkout] removes the stray file and then fails inside
    [download], whose [sum] over the sizes cannot add [None]; nothing is
    downloaded and no root is returned. The [size] property, summing the
    same sizes, skips [None]. *)
Theorem checkout_raises_on_unknown_size :
  let st := mkState artifact_with_unsized_ref disk_with_stray 0 [] in
  _state (self st) = COMMITTED ∧
  (checkout env0 (Some "root") st).1
    = Raise (TypeError "unsupported operand type(s) for +: 'int' and 'NoneType'") ∧
  files (checkout env0 (Some "root") st).2 !! "root/stray.txt" = None ∧
  files (checkout env0 (Some "root") st).2 !! "root/f.txt" = Some "hello" ∧
  size_of (self st) = 5.
Proof. vm_compute. repeat split. Qed.
Section Checkout.
Context (env : Env).

Lemma walk_elem (root : string) (fs : gmap string string) (fr : string * string) :
  fr ∈ walk root fs ↔ is_Some (fs !! fr.1) ∧ relpath fr.1 root = Some fr.2.
Proof.
  unfold walk. rewrite list_elem_of_omap. split.
  - intros (f & Hf & Hrel). destruct (relpath f root) as [rel|] eqn:E; [|discriminate].
    simpl in Hrel. injection Hrel as <-. simpl. split; [|exact E].
    apply list_elem_of_fmap in Hf as ([k v] & -> & Hkv).
    apply elem_of_map_to_list in Hkv. by eexists.
  - intros [[v Hv] Hrel]. exists fr.1. split.
    + apply list_elem_of_fmap. exists (fr.1, v). split; [reflexivity|].
      by apply elem_of_map_to_list.
    + rewrite Hrel. simpl. by destruct fr.
Qed.

Lemma walk_NoDup (root : string) (fs : gmap string string) :
  NoDup (walk root fs).*1.
Proof.
  unfold walk. pose proof (NoDup_fst_map_to_list fs) as H.
  induction ((map_to_list fs).*1) as [|f l IH]; [constructor|].
  apply NoDup_cons in H as [Hf Hl]. cbn [omap list_omap].
  destruct (relpath f root) as [rel|]; simpl; [|by apply IH].
  constructor; [|by apply IH].
  intros Hin. apply Hf.
  apply list_elem_of_fmap in Hin as ([f' rel'] & -> & Hin).
  apply list_elem_of_omap in Hin as (g & Hg & Hrel).
  destruct (relpath g root); [|discriminate]. simpl in Hrel.
  injection Hrel as <- <-. exact Hg.
Qed.

Lemma purge_cons (a : Artifact) (fr : string * string) (l : list (string * string))
    (fs : gmap string string) :
  purge env a (fr :: l) fs
  = purge env a l (if decide (tracked env a fr.2) then fs else base.delete fr.1 fs).
Proof. reflexivity. Qed.

(** The first loop of [checkout]. *)
Lemma checkout_purge_run (l : list (string * string)) (st : State) :
  _state (self st) ≠ PENDING →
  NoDup l.*1 →
  (∀ fr, fr ∈ l → is_Some (files st !! fr.1)) →
  for_each l (fun fr =>
      try_except_KeyError (get_path env fr.2;; mret tt) (os_remove fr.1)) st
  = (Ok tt, mkState (self st) (purge env (self st) l (files st))
              (next_tmp st) (sent st)).
Proof.
  revert st. induction l as [|fr l IH]; intros st Hs Hnd Hin.
  - by destruct st.
  - cbn [for_each]. apply NoDup_cons in Hnd as [Hfr Hnd].
    rewrite purge_cons.
    destruct (get_path_run env st fr.2 Hs) as [[Ht [e He]]|[Hn He]].
    + erewrite bind_ok; cycle 1.
      { unfold try_except_KeyError. rewrite (bind_ok _ _ _ _ _ He). reflexivity. }
      destruct (decide (tracked env (self st) fr.2)); [|contradiction].
      apply IH; [done..|]. intros fr' ?. apply Hin. by apply list_elem_of_further.
    + destruct (Hin fr) as [c Hc]; [apply list_elem_of_here|].
      erewrite bind_ok; cycle 1.
      { unfold try_except_KeyError. rewrite (bind_raise _ _ _ _ _ He).
        unfold os_remove, get_files, put_files, mbind, M_bind. simpl.
        rewrite Hc. reflexivity. }
      destruct (decide (tracked env (self st) fr.2)); [contradiction|].
      rewrite IH; [reflexivity|done..|]. simpl.
      intros fr' Hfr'. rewrite lookup_delete_ne.
      * apply Hin. by apply list_elem_of_further.
      * intros E. apply Hfr. rewrite E. apply list_elem_of_fmap. by exists fr'.
  Qed.

Lemma purge_lookup (a : Artifact) (l : list (string * string))
    (fs : gmap string string) (k : string) :
  purge env a l fs !! k
  = if decide (Exists (fun fr => fr.1 = k ∧ ¬ tracked env a fr.2) l)
    then None else fs !! k.
Proof.
  revert fs. induction l as [|fr l IH]; intros fs.
  - unfold purge. cbn [foldl]. case_decide as H; [by apply Exists_nil in H|reflexivity].
  - rewrite purge_cons, IH.
    destruct (decide (Exists (fun fr0 => fr0.1 = k ∧ ¬ tracked env a fr0.2) l))
      as [Hex|Hno].
    + rewrite decide_True; [reflexivity|]. by apply Exists_cons_tl.
    + destruct (decide (tracked env a fr.2)) as [Ht|Ht].
      * rewrite decide_False; [reflexivity|].
        rewrite Exists_cons. intros [[_ Hn]|Hex]; contradiction.
      * destruct (decide (fr.1 = k)) as [<-|Hk].
        -- rewrite lookup_delete_eq. rewrite decide_True; [reflexivity|].
           by apply Exists_cons_hd.
        -- rewrite lookup_delete_ne by done. rewrite decide_False; [reflexivity|].
           rewrite Exists_cons. intros [[Hk0 _]|Hex]; contradiction.
Qed.

Lemma py_sum_known (l : list (option Z)) (acc : Z) :
  Forall is_Some l → ∃ z, py_sum acc l = Ok z.
Proof.
  revert acc. induction l as [|[n|] l IH]; intros acc H; simpl.
  - by eexists.
  - apply Forall_cons in H as [_ H]. by apply IH.
  - apply Forall_cons in H as [[? H0] _]. discriminate H0.
Qed.

(** The loop of [download] over the entry names. *)
Lemma download_loop_run (root : string) (ks : list string) (st : State) :
  _state (self st) ≠ PENDING →
  (∀ k, k ∈ ks →
     ∃ e c, PyDict.get (LogicalPath env k) (entries (_manifest (self st))) = Some e
            ∧ fetch env e = Ok c) →
  for_each ks (fun name_ => e ← get_path env name_; entry_download env e root;; mret tt) st
  = (Ok tt, mkState (self st)
              (download_files env root (entries (_manifest (self st))) ks (files st))
              (next_tmp st) (sent st)).
Proof.
  revert st. induction ks as [|k ks IH]; intros st Hs Hks.
  - by destruct st.
  - cbn [for_each]. destruct (Hks k) as (e & c & He & Hc); [apply list_elem_of_here|].
    erewrite bind_ok; cycle 1.
    { unfold get_path, entry_download, write_bytes, get_self, get_files, put_files,
        lift, manifest, mbind, M_bind, mret, M_ret. simpl.
      destruct (decide (_state (self st) = PENDING)); [contradiction|].
      rewrite He. simpl. rewrite Hc. reflexivity. }
    rewrite IH; simpl; [|done|].
    + unfold download_files. cbn [foldl]. by rewrite He, Hc.
    + intros k' Hk'. apply Hks. by apply list_elem_of_further.
Qed.

(** Where every size is known, every entry can be fetched and the entry
    names are in normal form, [checkout] does what C6 says: the files under
    the root that have no entry are removed, those that have one stay,
    then the entries are written below the root, which is the answer. *)
Lemma checkout_sync (st : State) (root : option string) :
  _state (self st) ≠ PENDING →
  let a := self st in
  let r := or_str root (_default_root env false a) in
  r ≠ "" →
  Forall (fun e => is_Some (size e)) (PyDict.values (entries (_manifest a))) →
  (∀ k, k ∈ PyDict.keys (entries (_manifest a)) →
     ∃ e c, PyDict.get (LogicalPath env k) (entries (_manifest a)) = Some e
            ∧ fetch env e = Ok c) →
  ∃ st', checkout env root st = (Ok r, st') ∧
    _manifest (self st') = _manifest a ∧
    files st' = download_files env r (entries (_manifest a))
                  (PyDict.keys (entries (_manifest a)))
                  (purge env a (walk r (files st)) (files st)) ∧
    ∀ full rel, (full, rel) ∈ walk r (files st) →
      purge env a (walk r (files st)) (files st) !! full
      = if decide (tracked env a rel) then files st !! full else None.
Proof.
  intros Hs a r Hr Hsz Hks.
  destruct (py_sum_known (size <$> PyDict.values (entries (_manifest a))) 0)
    as [z Hz]; [by apply Forall_fmap|].
  eexists. split; [|split; [|split]]; cycle 3.
  - intros full rel Hin. rewrite purge_lookup.
    destruct (decide (tracked env a rel)) as [Ht|Ht].
    + rewrite decide_False; [reflexivity|]. rewrite Exists_exists.
      intros ([full' rel'] & Hin' & Hk & Hn). simpl in *. subst full'.
      apply walk_elem in Hin as [_ H1]. apply walk_elem in Hin' as [_ H2].
      simpl in *. rewrite H1 in H2. injection H2 as <-. contradiction.
    + rewrite decide_True; [reflexivity|]. rewrite Exists_exists.
      by exists (full, rel).
  - unfold checkout. unfold get_self at 1, get_files at 1.
    unfold mbind at 1 2, M_bind at 1 2. simpl.
    destruct (decide (_state (self st) = PENDING)); [contradiction|].
    fold a. fold r.
    erewrite bind_ok; cycle 1.
    { apply (checkout_purge_run (walk r (files st)) st Hs (walk_NoDup r (files st))).
      intros fr Hfr. by apply walk_elem in Hfr as [? _]. }
    unfold download. unfold get_self at 1. unfold mbind at 1, M_bind at 1. simpl.
    destruct (decide (_state (self st) = PENDING)); [contradiction|].
    destruct (decide (r = "")); [contradiction|].
    unfold _add_download_root, modify_self, lift. unfold mbind at 1, M_bind at 1. simpl.
    unfold mbind at 1, M_bind at 1. fold a. rewrite Hz.
    erewrite bind_ok; cycle 1.
    { apply download_loop_run; [exact Hs|]. simpl. exact Hks. }
    simpl. reflexivity.
  - reflexivity.
  - reflexivity.
Qed.
End Checkout.

(** *** What a successful [add_file] leaves behind *)

Lemma PyDict_get_set_eq {V} (k : string) (v : V) (d : PyDict.t V) :
  PyDict.get k (PyDict.set k v d) = Some v.
Proof.
  induction d as [|[k' v'] d IH]; simpl.
  - by rewrite decide_True.
  - destruct (decide (k' = k)) as [->|Hne]; simpl.
    + by rewrite decide_True.
    + by rewrite decide_False.
Qed.

Lemma size_of_snoc (a a' : Artifact) (k : string) (e : ArtifactManifestEntry) :
  entries (_manifest a') = entries (_manifest a) ++ [(k, e)] →
  size_of a' = size_of a + default 0 (size e).
Proof.
  intros H. unfold size_of, PyDict.values. rewrite H, fmap_app, fold_left_app.
  simpl. destruct (size e); simpl; lia.
Qed.

Lemma split_char_not_nil (sep : ascii) (s : string) : split_char sep s ≠ [].
Proof.
  destruct s as [|c s]; [discriminate|]. cbn [split_char].
  destruct (Ascii.eqb c sep); [discriminate|].
  destruct (split_char sep s); discriminate.
Qed.

Section AfterAddFile.
Context (env : Env).

(** What a call that returned says about the state before it. *)
Lemma add_file_ok_inv (lp : string) (nm : option string) (tmp : bool) (st st' : State)
    (e : ArtifactManifestEntry) :
  add_file env lp nm tmp st = (Ok e, st') →
  _final (self st) = false ∧ ∃ c, files st !! lp = Some c.
Proof.
  intros H. destruct (_final (self st)) eqn:Hf.
  - unfold add_file in H. rewrite (bind_raise _ _ _ _ _ (_ensure_can_add_final st Hf)) in H.
    discriminate H.
  - split; [reflexivity|]. destruct (files st !! lp) as [c|] eqn:Hc; [by exists c|].
    unfold add_file in H. rewrite (bind_ok _ _ _ _ _ (_ensure_can_add_open st Hf)) in H.
    unfold isfile, get_files, mbind, M_bind, mret, M_ret in H. simpl in H.
    rewrite Hc in H. simpl in H. discriminate H.
Qed.

(** After [add_file(local_path, name, is_tmp)] the artifact answers the
    entry's name for that local path. The name is the normal form of [name],
    or of the base name of the local path when no name is given; for a
    temporary file the first dot-separated part of its file name is replaced
    by the first twenty characters of the hex id of the digest of the
    file's bytes, the directory part and the other parts staying. *)
Theorem added_local_path_name_after_add_file (lp : string) (nm : option string)
    (tmp : bool) (st st' : State) (e : ArtifactManifestEntry) :
  add_file env lp nm tmp st = (Ok e, st') →
  get_added_local_path_name lp (self st') = Some (path e)
  ∧ ∃ c, files st !! lp = Some c ∧
      let name1 := LogicalPath env (or_str nm (basename lp)) in
      path e = if tmp then
                 path_join (dirname name1)
                   (join_str "."
                      (String.substring 0 20 (b64_to_hex_id env (md5_b64 env c))
                       :: tail (split_char "." (basename name1))))
               else name1.
Proof.
  intros H. destruct (add_file_ok_inv lp nm tmp st st' e H) as [Hf [c Hc]].
  destruct (add_file_run env lp nm tmp c st Hf Hc) as [Hrun _].
  rewrite Hrun in H.
  destruct (add_entry _ (_manifest (self st))) as [m|err]; [|discriminate H].
  injection H as <- <-. simpl. unfold get_added_local_path_name. simpl.
  rewrite PyDict_get_set_eq. split; [reflexivity|]. exists c. split; [exact Hc|].
  unfold add_file_name, tmp_name. destruct tmp; [|reflexivity].
  pose proof (split_char_not_nil "." (basename (LogicalPath env (or_str nm (basename lp)))))
    as Hparts.
  destruct (split_char "." (basename (LogicalPath env (or_str nm (basename lp)))));
    [contradiction|reflexivity].
Qed.

(** The staged copy is a file of its own in the staging directory: it holds
    the bytes whose digest and length the entry records, the source file is
    left as it was, and overwriting the source afterwards changes neither
    the copy nor the artifact. *)
Theorem staged_copy_independent (lp : string) (nm : option string) (tmp : bool)
    (st st' : State) (e : ArtifactManifestEntry) :
  add_file env lp nm tmp st = (Ok e, st') →
  ∃ c sp, files st !! lp = Some c ∧ files st' !! lp = Some c ∧
    local_path e = Some sp ∧
    (∃ base, base ≠ "" ∧ sp = path_join (get_staging_dir env) base) ∧
    sp ≠ lp ∧ files st !! sp = None ∧
    files st' !! sp = Some c ∧
    digest e = md5_b64 env c ∧ size e = Some (Z.of_nat (String.length c)) ∧
    ∀ c', files (write_bytes lp c' st').2 !! sp = Some c
          ∧ self (write_bytes lp c' st').2 = self st'.
Proof.
  intros H. destruct (add_file_ok_inv lp nm tmp st st' e H) as [Hf [c Hc]].
  destruct (add_file_run env lp nm tmp c st Hf Hc) as [Hrun Hlp].
  rewrite Hrun in H.
  destruct (add_entry _ (_manifest (self st))) as [m|err]; [|discriminate H].
  injection H as <- <-. simpl.
  set (sp := tmp_path (get_staging_dir env)
               (first_free (get_staging_dir env) (files st) (next_tmp st)
                  (base.size (files st)))) in *.
  assert (files st !! sp = None) as Hsp by apply first_free_free.
  assert (sp ≠ lp) as Hne by (intros ->; congruence).
  exists c, sp. repeat split; try done.
  - eexists. split; [|reflexivity]. discriminate.
  - by rewrite lookup_insert_eq.
  - unfold write_bytes, get_files, put_files, mbind, M_bind. simpl.
    rewrite lookup_insert_ne by done. by rewrite lookup_insert_eq.
Qed.

(** Adding a file under a name the manifest does not have yet raises the
    artifact's size by the length of the file; when the name is there
    already the size stays. *)
Theorem size_after_add_file (lp : string) (nm : option string) (tmp : bool)
    (st st' : State) (e : ArtifactManifestEntry) (c : string) :
  add_file env lp nm tmp st = (Ok e, st') →
  files st !! lp = Some c →
  size_of (self st')
  = size_of (self st)
    + match PyDict.get (path e) (entries (_manifest (self st))) with
      | None => Z.of_nat (String.length c)
      | Some _ => 0
      end.
Proof.
  intros H Hc. destruct (add_file_ok_inv lp nm tmp st st' e H) as [Hf _].
  destruct (add_file_run env lp nm tmp c st Hf Hc) as [Hrun _].
  rewrite Hrun in H. unfold add_entry in H. simpl in H.
  destruct (PyDict.get (add_file_name env lp nm tmp c) (entries (_manifest (self st))))
    as [old|] eqn:Hold.
  - destruct (decide (digest old = md5_b64 env c)); [|discriminate H].
    injection H as <- <-. cbn [path self]. rewrite Hold.
    unfold size_of. cbn [self _manifest set__added_local_paths set__manifest]. lia.
  - injection H as <- <-. cbn [path self]. rewrite Hold.
    erewrite size_of_snoc; cycle 1.
    { cbn [self _manifest set__added_local_paths set__manifest entries].
      by apply PyDict_set_fresh. }
    reflexivity.
Qed.

(** A call that the manifest rejects, because the name is taken by an entry
    with another digest, leaves the artifact as it was and one more file in
    the staging directory. *)
Theorem rejected_add_file_leaves_staged_copy (lp : string) (nm : option string)
    (tmp : bool) (st : State) (c : string) (old : ArtifactManifestEntry) :
  _final (self st) = false →
  files st !! lp = Some c →
  PyDict.get (add_file_name env lp nm tmp c) (entries (_manifest (self st))) = Some old →
  digest old ≠ md5_b64 env c →
  ∃ msg sp st', add_file env lp nm tmp st = (Raise (ValueError msg), st') ∧
    self st' = self st ∧
    (∃ base, base ≠ "" ∧ sp = path_join (get_staging_dir env) base) ∧
    files st !! sp = None ∧ files st' !! sp = Some c ∧
    base.size (files st') = S (base.size (files st)).
Proof.
  intros Hf Hc Hold Hd.
  destruct (add_file_run env lp nm tmp c st Hf Hc) as [Hrun _].
  unfold add_entry in Hrun. simpl in Hrun. rewrite Hold in Hrun.
  destruct (decide (digest old = md5_b64 env c)); [contradiction|].
  set (sp := tmp_path (get_staging_dir env)
               (first_free (get_staging_dir env) (files st) (next_tmp st)
                  (base.size (files st)))) in *.
  assert (files st !! sp = None) as Hsp by apply first_free_free.
  eexists _, sp, _. split; [exact Hrun|]. simpl.
  repeat split; try done.
  - eexists. split; [|reflexivity]. discriminate.
  - by rewrite lookup_insert_eq.
  - rewrite insert_insert_eq. by rewrite map_size_insert_None.
Qed.
End AfterAddFile.

Lemma added_local_path_name_after_add_file_witness :
  get_added_local_path_name "data/f.txt"
    (self (add_file env0 "data/f.txt" (Some "media/tables/t.table.json") true start0).2)
  = Some "media/tables/md5:hello.table.json".
Proof.
  destruct (added_local_path_name_after_add_file env0 "data/f.txt"
              (Some "media/tables/t.table.json") true start0 _ _ eq_refl) as [H _].
  etrans; [exact H|]. vm_compute. reflexivity.
Defined.

Lemma staged_copy_independent_witness :
  ∃ sp, sp ≠ "data/f.txt" ∧
    files (add_file env0 "data/f.txt" None false start0).2 !! sp = Some "hello".
Proof.
  destruct (staged_copy_independent env0 "data/f.txt" None false start0 _ _ eq_refl)
    as (c & sp & Hc & _ & _ & _ & Hne & _ & Hsp & _).
  exists sp. split; [exact Hne|].
  vm_compute in Hc. injection Hc as <-. exact Hsp.
Defined.

Lemma size_after_add_file_witness :
  size_of (self (add_file env0 "data/f.txt" None false start0).2) = 0 + 5.
Proof.
  exact (size_after_add_file env0 "data/f.txt" None false start0 _ _ "hello"
           eq_refl eq_refl).
Defined.

Lemma rejected_add_file_leaves_staged_copy_witness :
  let st := mkState (set__manifest
                       (mkManifest [("f.txt", mkEntry "f.txt" "md5:old" None (Some 3) None)])
                       draft0) disk0 0 [] in
  ∃ msg st', add_file env0 "data/f.txt" None false st = (Raise (ValueError msg), st') ∧
    self st' = self st.
Proof.
  intros st.
  destruct (rejected_add_file_leaves_staged_copy env0 "data/f.txt" None false st "hello"
              (mkEntry "f.txt" "md5:old" None (Some 3) None))
    as (msg & sp & st' & Hrun & Hself & _); [reflexivity|reflexivity|reflexivity|discriminate|].
  exists msg, st'. split; [exact Hrun|exact Hself].
Defined.

(** *** Adding a directory *)

Lemma PyDict_get_snoc_ne {V} (k k' : string) (v : V) (d : PyDict.t V) :
  k ≠ k' → PyDict.get k (d ++ [(k', v)]) = PyDict.get k d.
Proof.
  intros Hne. induction d as [|[k0 v0] d IH]; simpl.
  - by rewrite decide_False.
  - destruct (decide (k0 = k)); [reflexivity|exact IH].
Qed.





Section AddDir.
Context (env : Env).




End AddDir.


(** *** Paths and references that are turned away *)

Section Rejections.
Context (env : Env).

(** On an open artifact, [add_file] on a path where no file is and [add_dir]
    on a path that is no directory raise [ValueError] naming the path, and
    nothing is changed. *)
Theorem add_rejects_missing_paths (lp : string) (st : State) :
  _final (self st) = false →
  (files st !! lp = None →
   ∀ nm tmp, add_file env lp nm tmp st
             = (Raise (ValueError ("Path is not a file: " +:+ lp)), st)) ∧
  ((isdir lp st).1 = Ok false →
   ∀ nm, add_dir env lp nm st
         = (Raise (ValueError ("Path is not a directory: " +:+ lp)), st)).
Proof.
  intros Hf. split.
  - intros Hlp nm tmp. unfold add_file.
    rewrite (bind_ok _ _ _ _ _ (_ensure_can_add_open st Hf)).
    unfold isfile, get_files, mbind, M_bind, mret, M_ret. simpl. by rewrite Hlp.
  - intros Hd nm. unfold add_dir.
    rewrite (bind_ok _ _ _ _ _ (_ensure_can_add_open st Hf)).
    unfold isdir, get_files, mbind, M_bind, mret, M_ret in Hd |- *.
    cbn [fst] in Hd. injection Hd as Hd. cbn beta iota. by rewrite Hd.
Qed.

(** The loop of [add_reference] over entries with paths that are new and
    differ from each other. *)
Lemma add_entries_run (l : list ArtifactManifestEntry) (st : State) :
  NoDup (path <$> l) →
  (∀ e, e ∈ l → PyDict.get (path e) (entries (_manifest (self st))) = None) →
  ∃ st', for_each l (fun entry =>
           a ← get_self;
           m ← lift (add_entry entry (_manifest a));
           modify_self (set__manifest m)) st = (Ok tt, st') ∧
    files st' = files st ∧ sent st' = sent st ∧ _final (self st') = _final (self st) ∧
    entries (_manifest (self st'))
    = entries (_manifest (self st)) ++ ((fun e => (path e, e)) <$> l).
Proof.
  revert st. induction l as [|e l IH]; intros st Hnd Hfresh.
  - exists st. repeat split. by rewrite app_nil_r.
  - rewrite fmap_cons in Hnd. apply NoDup_cons in Hnd as [He Hnd].
    assert (PyDict.get (path e) (entries (_manifest (self st))) = None) as He0
      by apply Hfresh, list_elem_of_here.
    set (st1 := mkState (set__manifest
                           (mkManifest (entries (_manifest (self st)) ++ [(path e, e)]))
                           (self st)) (files st) (next_tmp st) (sent st)).
    destruct (IH st1 Hnd) as (st' & Hloop & Hfs & Hsent & Hfin & Hent).
    { intros e' He'. simpl. rewrite PyDict_get_snoc_ne.
      - apply Hfresh. by apply list_elem_of_further.
      - intros E. apply He. rewrite <- E. apply list_elem_of_fmap. by exists e'. }
    exists st'. split; [|repeat split; try done].
    + cbn [for_each]. erewrite bind_ok; [exact Hloop|].
      unfold get_self, lift, modify_self, add_entry, mbind, M_bind. simpl.
      rewrite He0. by rewrite (PyDict_set_fresh _ _ _ He0).
    + rewrite Hent. simpl. by rewrite <- app_assoc.
Qed.

(** [add_reference] on an open artifact. A URI without a scheme is turned
    away with [ValueError] before the storage policy is asked, and nothing is
    changed. A [wandb-artifact] URI never yields an entry: the call raises
    and the manifest stays. For any other scheme, when the handler's entries
    have paths that are new and differ from each other, the call returns
    them and the manifest gains them in their order. *)
Theorem add_reference_outcomes (u : URIStr) (nm : option string) (checksum : bool)
    (max_objects : option Z) (st : State) :
  _final (self st) = false →
  (scheme u = "" →
   add_reference env (inr u) nm checksum max_objects st
   = (Raise (ValueError "References must be URIs. To reference a local file, use file://"),
      st)) ∧
  (scheme u = "wandb-artifact" →
   ∃ e, add_reference env (inr u) nm checksum max_objects st = (Raise e, st)) ∧
  (scheme u ≠ "" → scheme u ≠ "wandb-artifact" →
   ∀ l, other_store_path env u (LogicalPath env <$> nm) checksum max_objects = Ok l →
     NoDup (path <$> l) →
     (∀ e, e ∈ l → PyDict.get (path e) (entries (_manifest (self st))) = None) →
     ∃ st', add_reference env (inr u) nm checksum max_objects st = (Ok l, st') ∧
       files st' = files st ∧
       entries (_manifest (self st'))
       = entries (_manifest (self st)) ++ ((fun e => (path e, e)) <$> l)).
Proof.
  intros Hf. split; [|split].
  - intros Hs. unfold add_reference.
    rewrite (bind_ok _ _ _ _ _ (_ensure_can_add_open st Hf)).
    unfold mbind, M_bind, mret, M_ret. simpl. by rewrite decide_True.
  - intros Hs. unfold add_reference.
    rewrite (bind_ok _ _ _ _ _ (_ensure_can_add_open st Hf)).
    unfold mbind at 1, M_bind at 1, mret, M_ret. simpl.
    rewrite decide_False by (rewrite Hs; discriminate).
    unfold store_reference, can_handle, _scheme. rewrite bool_decide_eq_true_2 by done.
    destruct (store_path_always_raises env u (LogicalPath env <$> nm) checksum max_objects)
      as [e ->].
    exists e. reflexivity.
  - intros Hs1 Hs2 l Hl Hnd Hfresh. unfold add_reference.
    rewrite (bind_ok _ _ _ _ _ (_ensure_can_add_open st Hf)).
    unfold mbind at 1, M_bind at 1, mret at 1, M_ret at 1. simpl.
    rewrite decide_False by done.
    unfold store_reference, can_handle, _scheme. rewrite bool_decide_eq_false_2 by done.
    rewrite Hl. unfold lift at 1. unfold mbind at 1, M_bind at 1. simpl.
    destruct (add_entries_run l st Hnd Hfresh) as (st' & Hloop & Hfs & _ & _ & Hent).
    exists st'. split; [|by split].
    erewrite bind_ok; [reflexivity|exact Hloop].
Qed.
End Rejections.

Lemma add_rejects_missing_paths_witness :
  add_file env0 "data/nothing.txt" None false start0
  = (Raise (ValueError "Path is not a file: data/nothing.txt"), start0)
  ∧ add_dir env0 "elsewhere" None start0
    = (Raise (ValueError "Path is not a directory: elsewhere"), start0).
Proof.
  assert ((isdir "elsewhere" start0).1 = Ok false) as Hd by (vm_compute; reflexivity).
  destruct (add_rejects_missing_paths env0 "data/nothing.txt" start0 eq_refl) as [H1 _].
  destruct (add_rejects_missing_paths env0 "elsewhere" start0 eq_refl) as [_ H2].
  split; [exact (H1 eq_refl None false)|exact (H2 Hd None)].
Defined.

Lemma add_reference_outcomes_witness :
  add_reference env0 (inr (mkURI "" "" "some/local/file")) None true None start0
  = (Raise (ValueError "References must be URIs. To reference a local file, use file://"),
     start0).
Proof.
  exact (proj1 (add_reference_outcomes env0 (mkURI "" "" "some/local/file") None true None
                  start0 eq_refl) eq_refl).
Defined.

(** *** Writing a new file twice *)

Section NewFile.
Context (env : Env).

Lemma new_file_exists (name_ : string) (body : string -> M string) (st : State)
    (d : string) :
  _final (self st) = false →
  _tmp_dir (self st) = Some d →
  is_Some (files st !! path_join d (lstrip_slash name_)) →
  new_file env name_ body st
  = (Raise (ValueError ("File with name " +:+ name_ +:+ " already exists at "
                        +:+ path_join d (lstrip_slash name_))), st).
Proof.
  intros Hf Hd Hp. unfold new_file.
  rewrite (bind_ok _ _ _ _ _ (_ensure_can_add_open st Hf)).
  unfold get_self, get_files, mbind, M_bind, mret, M_ret. simpl. rewrite Hd. simpl.
  by rewrite bool_decide_eq_true_2.
Qed.

(** Once [new_file(name)] has written and added a text, a second
    [new_file] with the same name is turned away with [ValueError], because
    the first file is still in the artifact's temporary directory; the second
    call changes nothing. *)
Theorem new_file_twice (name_ text : string) (body : string -> M string)
    (st st' : State) (p : string) :
  new_file env name_ (fun _ => mret text) st = (Ok p, st') →
  (∃ msg, new_file env name_ body st' = (Raise (ValueError msg), st'))
  ∧ files st' !! p = Some text.
Proof.
  intros H.
  assert (_final (self st) = false) as Hf.
  { destruct (_final (self st)) eqn:Hf; [|reflexivity].
    unfold new_file in H.
    rewrite (bind_raise _ _ _ _ _ (_ensure_can_add_final st Hf)) in H. discriminate H. }
  unfold new_file in H.
  rewrite (bind_ok _ _ _ _ _ (_ensure_can_add_open st Hf)) in H.
  unfold get_self at 1 in H. unfold mbind at 1, M_bind at 1 in H. simpl in H.
  set (d := match _tmp_dir (self st) with
            | Some d => d
            | None => "/tmp/tmp" +:+ pretty (next_tmp st)
            end).
  set (st1 := match _tmp_dir (self st) with
              | Some _ => st
              | None => mkState (set__tmp_dir (Some d) (self st)) (files st)
                          (S (next_tmp st)) (sent st)
              end).
  assert (_final (self st1) = false ∧ _tmp_dir (self st1) = Some d
          ∧ files st1 = files st) as (Hf1 & Hd1 & Hfs1).
  { unfold st1, d. destruct (_tmp_dir (self st)) eqn:E; simpl; by rewrite ?E. }
  set (q := path_join d (lstrip_slash name_)).
  assert ((match files st !! q with
           | Some _ => (Raise (ValueError ("File with name " +:+ name_
                                           +:+ " already exists at " +:+ q)), st1)
           | None =>
               (add_file env q (Some name_) false ≫= fun _ => mret q)
                 (mkState (self st1) (<[q := text]> (<[q := ""]> (files st)))
                    (next_tmp st1) (sent st1))
           end) = (Ok p, st')) as H'.
  { rewrite <- H. unfold st1, d, q, d.
    destruct (_tmp_dir (self st)) eqn:E;
      unfold fresh_tmp, fresh_tmp_from, modify_self, get_files, write_bytes, put_files,
        mbind, M_bind, mret, M_ret; simpl;
      destruct (files st !! _) eqn:E2; simpl; try reflexivity;
      rewrite ?bool_decide_eq_true_2 by (by eexists); try reflexivity;
      rewrite ?bool_decide_eq_false_2 by (by intros [? ?]); reflexivity. }
  clear H. destruct (files st !! q) eqn:Hq; [discriminate H'|].
  set (st2 := mkState (self st1) (<[q := text]> (<[q := ""]> (files st)))
                (next_tmp st1) (sent st1)) in *.
  assert (files st2 !! q = Some text) as Hq2 by (simpl; by rewrite lookup_insert_eq).
  destruct (add_file_run env q (Some name_) false text st2 Hf1 Hq2) as [Hrun Hq'].
  unfold mbind, M_bind in H'. rewrite Hrun in H'.
  destruct (add_entry _ (_manifest (self st2))) as [m|err]; [|discriminate H'].
  simpl in H'. injection H' as <- <-.
  split; [|exact Hq'].
  eexists. apply (new_file_exists name_ body _ d); simpl; [exact Hf1|exact Hd1|].
  exists text. exact Hq'.
Qed.
End NewFile.

Lemma new_file_twice_witness :
  let st' := (new_file env0 "notes.txt" (fun _ => mret "hello") start0).2 in
  ∃ msg, new_file env0 "notes.txt" (fun _ => mret "again") st'
         = (Raise (ValueError msg), st').
Proof.
  intros st'.
  exact (proj1 (new_file_twice env0 "notes.txt" "hello" (fun _ => mret "again") start0 st'
                  "/tmp/tmp0/notes.txt" eq_refl)).
Defined.

(** *** Waiting for a save *)

Section Wait.
Context (env : Env).

Lemma own_aliases_no_version (collection : string) (l : list AliasAttr) :
  Forall (fun al => alias_is_version_index al = false) (own_aliases collection l).
Proof.
  unfold own_aliases. apply Forall_fmap, Forall_forall.
  intros al Hal. apply list_elem_of_filter in Hal as [[_ H] _]. exact H.
Qed.

(** A [wait] whose future answers, whose artifact the service knows and
    whose manifest can be fetched returns; it sends no mutation and touches
    no file. Afterwards the state is the one the service reports, the name
    and the source name are [<sequence>:v<index>], the manifest is the
    fetched one and no alias is a version index; the [final] flag and the
    last-synced alias list are what they were. If the reported state is
    other than pending, the server-assigned fields are readable, with the id
    of the response, the version [v<index>] and the secondary collection
    equal to the primary one, and a second [wait] does nothing. If the
    reported state is pending, the artifact still reads as a draft. *)
Theorem wait_makes_server_fields_readable (st : State) (fut : MessageFuture)
    (resp : LogArtifactResponse) (c : RetryingClient) (attrs : Attrs)
    (m : ArtifactManifest) :
  _state (self st) = PENDING →
  _save_future (self st) = Some fut →
  future_get fut = Some resp →
  error_message resp = "" →
  _client (self st) = Some c →
  artifact_by_id c (artifact_id resp) = Some attrs →
  requests_get env (directUrl attrs) = Ok m →
  ∃ st', wait env st = (Ok tt, st') ∧
    files st' = files st ∧ sent st' = sent st ∧
    _state (self st') = attr_state attrs ∧
    name (self st') = seq_name attrs +:+ ":v" +:+ pretty (versionIndex attrs) ∧
    source_name (self st') = name (self st') ∧
    _manifest (self st') = m ∧
    Forall (fun al => alias_is_version_index al = false) (_aliases (self st')) ∧
    _final (self st') = _final (self st) ∧
    _saved_aliases (self st') = _saved_aliases (self st) ∧
    (attr_state attrs ≠ PENDING →
     id (self st') = Ok (Some (artifact_id resp)) ∧
     version (self st') = Ok ("v" +:+ pretty (versionIndex attrs)) ∧
     source_version (self st') = Ok (Some ("v" +:+ pretty (versionIndex attrs))) ∧
     entity (self st') = Ok (seq_entityName attrs) ∧
     source_entity (self st') = Ok (seq_entityName attrs) ∧
     project (self st') = Ok (seq_projectName attrs) ∧
     source_project (self st') = Ok (seq_projectName attrs) ∧
     qualified_name (self st')
     = Ok (seq_entityName attrs +:+ "/" +:+ seq_projectName attrs +:+ "/"
           +:+ (seq_name attrs +:+ ":v" +:+ pretty (versionIndex attrs))) ∧
     commit_hash (self st') = Ok (commitHash attrs) ∧
     file_count (self st') = Ok (fileCount attrs) ∧
     created_at (self st') = Ok (createdAt attrs) ∧
     wait env st' = (Ok tt, st')) ∧
    (attr_state attrs = PENDING →
     id (self st') = Ok None ∧
     version (self st') = Raise (ArtifactNotLoggedError "version")).
Proof.
  intros Hs Hfut Hget Herr Hc Hattrs Hm.
  unfold wait. unfold get_self at 1. unfold mbind at 1, M_bind at 1. simpl.
  rewrite decide_True by done. rewrite Hfut, Hget. rewrite decide_True by done.
  unfold _populate_after_save, the_client, get_self, modify_self, lift,
    mbind, M_bind, mret, M_ret. simpl.
  rewrite Hc. simpl. rewrite Hattrs. simpl. rewrite Hm. simpl.
  eexists. split; [reflexivity|]. simpl.
  unfold qualified_name.
  unfold id, version, source_version, entity, source_entity, project, source_project,
    commit_hash, file_count, created_at, name, source_name, mbind, result_bind. simpl.
  repeat split; try reflexivity; try apply own_aliases_no_version;
    rewrite ?decide_False by done; rewrite ?decide_True by done; reflexivity.
Qed.

(** When the manifest cannot be fetched, [wait] passes the failure on after
    it has taken over the id and the state from the service: the artifact is
    logged from then on but keeps its old manifest and has no commit hash,
    and a second [wait] does not try again. *)
Theorem wait_failed_manifest_fetch (st : State) (fut : MessageFuture)
    (resp : LogArtifactResponse) (c : RetryingClient) (attrs : Attrs) (e : exn) :
  _state (self st) = PENDING →
  _save_future (self st) = Some fut →
  future_get fut = Some resp →
  error_message resp = "" →
  _client (self st) = Some c →
  artifact_by_id c (artifact_id resp) = Some attrs →
  requests_get env (directUrl attrs) = Raise e →
  attr_state attrs ≠ PENDING →
  ∃ st', wait env st = (Raise e, st') ∧
    _state (self st') = attr_state attrs ∧
    id (self st') = Ok (Some (artifact_id resp)) ∧
    _manifest (self st') = _manifest (self st) ∧
    _commit_hash (self st') = _commit_hash (self st) ∧
    (_commit_hash (self st) = None → commit_hash (self st') = Raise AssertionError) ∧
    wait env st' = (Ok tt, st').
Proof.
  intros Hs Hfut Hget Herr Hc Hattrs Hm Hstate.
  unfold wait. unfold get_self at 1. unfold mbind at 1, M_bind at 1. simpl.
  rewrite decide_True by done. rewrite Hfut, Hget. rewrite decide_True by done.
  unfold _populate_after_save, the_client, get_self, modify_self, lift,
    mbind, M_bind, mret, M_ret. simpl.
  rewrite Hc. simpl. rewrite Hattrs. simpl. rewrite Hm. simpl.
  eexists. split; [reflexivity|]. simpl.
  unfold id, commit_hash, mbind, result_bind. simpl.
  rewrite !decide_False by done. simpl.
  repeat split; try reflexivity; try (by rewrite decide_False).
  all: by intros ->.
Qed.

(** [wait] does not touch the last-synced alias list. For a pending artifact
    that has none synced, when the service reports a state other than
    pending and at least one alias of the collection that is no version
    index, [wait] followed by [save] against a backend that knows
    [AddAliasesInput] submits every such alias as an addition, then the
    [updateArtifact] without an alias list, and the last-synced list becomes
    the reported aliases. *)
Theorem save_after_wait_adds_known_aliases (st : State) (fut : MessageFuture)
    (resp : LogArtifactResponse) (c : RetryingClient) (attrs : Attrs)
    (m : ArtifactManifest) (log_artifact : M unit) :
  _state (self st) = PENDING →
  _save_future (self st) = Some fut →
  future_get fut = Some resp →
  error_message resp = "" →
  _client (self st) = Some c →
  artifact_by_id c (artifact_id resp) = Some attrs →
  requests_get env (directUrl attrs) = Ok m →
  attr_state attrs ≠ PENDING →
  has_AddAliasesInput c = true →
  _saved_aliases (self st) = [] →
  let reported := own_aliases (before_char ":" (seq_name attrs +:+ ":v"
                                                +:+ pretty (versionIndex attrs)))
                    (attr_aliases attrs) in
  reported ≠ [] →
  ∃ st', (wait env;; save log_artifact) st = (Ok tt, st') ∧
    sent st' = sent st ++
      [AddAliasesMutation (Some (artifact_id resp)) (Some (seq_entityName attrs))
         (Some (seq_projectName attrs))
         (before_char ":" (seq_name attrs +:+ ":v" +:+ pretty (versionIndex attrs)))
         (list_to_set reported);
       UpdateArtifactMutation (Some (artifact_id resp)) (_description (self st))
         (_metadata (self st)) None] ∧
    _saved_aliases (self st') = reported.
Proof.
  intros Hs Hfut Hget Herr Hc Hattrs Hm Hstate Hb Hsaved reported Hne.
  unfold wait. unfold get_self at 1. unfold mbind at 1 2, M_bind at 1 2. simpl.
  rewrite decide_True by done. rewrite Hfut, Hget. rewrite decide_True by done.
  unfold _populate_after_save, the_client, get_self, modify_self, lift,
    mbind, M_bind, mret, M_ret. simpl.
  rewrite Hc. simpl. rewrite Hattrs. simpl. rewrite Hm. simpl.
  unfold save, _update, the_client, get_self, modify_self, execute, lift, id,
    mbind, M_bind, result_bind, mret, M_ret. simpl.
  rewrite decide_True by done. rewrite Hc. simpl. rewrite Hb. simpl.
  rewrite Hsaved. fold reported.
  assert (list_to_set reported ∖ list_to_set [] = (list_to_set reported : gset string))
    as -> by set_solver.
  assert (list_to_set [] ∖ list_to_set reported = (∅ : gset string)) as -> by set_solver.
  rewrite decide_False.
  2:{ destruct reported as [|x l]; [contradiction|]. set_solver. }
  rewrite !decide_False by done.
  rewrite decide_True by done. simpl.
  eexists. split; [reflexivity|]. simpl. split; [|reflexivity].
  by rewrite <- app_assoc.
Qed.
End Wait.

Lemma wait_makes_server_fields_readable_witness :
  ∃ st', wait env0 saving0 = (Ok tt, st') ∧ version (self st') = Ok "v0"
         ∧ _aliases (self st') = ["latest"].
Proof.
  destruct (wait_makes_server_fields_readable env0 saving0 future0
              (mkResponse "" "QXJ0aWZhY3Q6MQ==") client0 attrs0 (mkManifest []))
    as (st' & Hrun & _ & _ & _ & _ & _ & _ & _ & _ & _ & Hlogged & _);
    [reflexivity|reflexivity|reflexivity|reflexivity|reflexivity|reflexivity|reflexivity|].
  destruct Hlogged as (_ & Hv & _); [discriminate|].
  exists st'. split; [exact Hrun|]. split; [exact Hv|].
  vm_compute in Hrun. injection Hrun as <-. reflexivity.
Defined.

Lemma wait_failed_manifest_fetch_witness :
  ∃ st', wait env_offline saving0 = (Raise (ValueError "503 Server Error"), st') ∧
    _state (self st') = COMMITTED ∧ commit_hash (self st') = Raise AssertionError.
Proof.
  destruct (wait_failed_manifest_fetch env_offline saving0 future0
              (mkResponse "" "QXJ0aWZhY3Q6MQ==") client0 attrs0
              (ValueError "503 Server Error"))
    as (st' & Hrun & Hs & _ & _ & _ & Hc & _);
    [reflexivity|reflexivity|reflexivity|reflexivity|reflexivity|reflexivity|reflexivity
    |discriminate|].
  exists st'. split; [exact Hrun|]. split; [exact Hs|exact (Hc eq_refl)].
Defined.

Lemma save_after_wait_adds_known_aliases_witness :
  ∃ st', (wait env0;; save (mret tt)) saving0 = (Ok tt, st') ∧
    _saved_aliases (self st') = ["latest"].
Proof.
  destruct (save_after_wait_adds_known_aliases env0 saving0 future0
              (mkResponse "" "QXJ0aWZhY3Q6MQ==") client0 attrs0 (mkManifest []) (mret tt))
    as (st' & Hrun & _ & Hsaved);
    [reflexivity|reflexivity|reflexivity|reflexivity|reflexivity|reflexivity|reflexivity
    |discriminate|reflexivity|reflexivity|discriminate|].
  exists st'. split; [exact Hrun|exact Hsaved].
Defined.

(** *** Loading an artifact from the service *)

Section Load.
Context (env : Env).

Lemma load_manifest_loop (l : list ArtifactManifestEntry) (st : State) :
  for_each l (fun entry =>
      if _is_artifact_reference entry then
        raise (AttributeError "'Artifact' object has no attribute 'client'")
      else mret tt) st
  = (if existsb _is_artifact_reference l
     then Raise (AttributeError "'Artifact' object has no attribute 'client'")
     else Ok tt, st).
Proof.
  induction l as [|e l IH]; [reflexivity|].
  cbn [for_each existsb]. destruct (_is_artifact_reference e); simpl.
  - reflexivity.
  - unfold mbind, M_bind, mret, M_ret. simpl. exact IH.
Qed.

(** [_load_manifest(url)] replaces the manifest by the fetched one, and it
    returns exactly when the fetched manifest holds no reference into another
    artifact; otherwise it raises [AttributeError], with the new manifest
    already in place. *)
Theorem _load_manifest_outcomes (url : string) (m : ArtifactManifest) (st : State) :
  requests_get env url = Ok m →
  _load_manifest env url st
  = (if existsb _is_artifact_reference (PyDict.values (entries m))
     then Raise (AttributeError "'Artifact' object has no attribute 'client'")
     else Ok tt,
     mkState (set__manifest m (self st)) (files st) (next_tmp st) (sent st)).
Proof.
  intros Hm. unfold _load_manifest. rewrite Hm.
  unfold lift, modify_self. unfold mbind at 1 2, M_bind at 1 2. simpl.
  apply load_manifest_loop.
Qed.

(** What [from_attrs] returns is a final artifact in the state the service
    reports, with the id of the answer, with the one version alias of its
    collection as its version and with an alias list that holds no version
    index and is also the last-synced list; its manifest is the fetched one
    and holds no reference into another artifact. *)
Theorem from_attrs_result (entity_ project_ name_ : string) (attrs : ArtifactFragment)
    (client : RetryingClient) (a : Artifact) :
  from_attrs env entity_ project_ name_ attrs client = Ok a →
  _final a = true ∧
  _state a = attr_state (frag_attrs attrs) ∧
  _id a = Some (frag_id attrs) ∧
  _client a = Some client ∧
  name a = name_ ∧ _entity a = Some entity_ ∧ _project a = Some project_ ∧
  version_aliases (before_char ":" name_) (attr_aliases (frag_attrs attrs))
  = default [] ((fun v => [v]) <$> _version a) ∧
  is_Some (_version a) ∧
  _saved_aliases a = _aliases a ∧
  Forall (fun al => alias_is_version_index al = false) (_aliases a) ∧
  requests_get env (directUrl (frag_attrs attrs)) = Ok (_manifest a) ∧
  Forall (fun e => _is_artifact_reference e = false)
         (PyDict.values (entries (_manifest a))) ∧
  _type a = frag_type attrs ∧
  _commit_hash a = Some (commitHash (frag_attrs attrs)).
Proof.
  unfold from_attrs. intros H.
  destruct (__init__ _ _ None None false None) as [art|] eqn:Hinit; [|discriminate H].
  cbn [mbind result_bind] in H.
  destruct (version_aliases _ _) as [|v [|]] eqn:Hv; try discriminate H.
  unfold run_on in H.
  destruct (requests_get env (directUrl (frag_attrs attrs))) as [m|err] eqn:Hm.
  - rewrite (_load_manifest_outcomes _ m _ Hm) in H.
    destruct (existsb _is_artifact_reference (PyDict.values (entries m))) eqn:Hex;
      [discriminate H|].
    cbn [mbind result_bind] in H. injection H as <-. simpl.
    assert (_type art = frag_type attrs) as Hty.
    { unfold __init__ in Hinit.
      destruct (negb _); [discriminate|]. destruct (_ || _); [discriminate|].
      by injection Hinit as <-. }
    repeat split; try done; try (by eexists); try apply own_aliases_no_version.
    apply Forall_forall. intros e He.
    destruct (_is_artifact_reference e) eqn:E; [|reflexivity].
    assert (existsb _is_artifact_reference (PyDict.values (entries m)) = true) as Habs.
    { apply existsb_exists. exists e. split; [by apply list_elem_of_In|exact E]. }
    congruence.
  - unfold _load_manifest in H. rewrite Hm in H.
    unfold lift, mbind, M_bind in H. simpl in H. discriminate H.
Qed.

(** [from_attrs] builds the artifact with the constructor, so that an
    artifact whose type is reserved ([job] or [wandb-...]) cannot be loaded:
    the call raises [ValueError]. For another type and a well-formed
    collection name it raises [AssertionError] unless the answer lists
    exactly one version alias for the collection. *)
Theorem from_attrs_failures (entity_ project_ name_ : string) (attrs : ArtifactFragment)
    (client : RetryingClient) :
  (frag_type attrs = "job" ∨ startswith "wandb-" (frag_type attrs) = true →
   ∃ msg, from_attrs env entity_ project_ name_ attrs client = Raise (ValueError msg)) ∧
  (name_matches (before_char ":" name_) = true →
   frag_type attrs ≠ "job" → startswith "wandb-" (frag_type attrs) = false →
   List.length (version_aliases (before_char ":" name_) (attr_aliases (frag_attrs attrs)))
   ≠ 1%nat →
   from_attrs env entity_ project_ name_ attrs client = Raise AssertionError).
Proof.
  split.
  - intros Hty. unfold from_attrs, __init__.
    destruct (negb (name_matches (before_char ":" name_))); [by eexists|].
    assert (bool_decide (frag_type attrs = "job") || startswith "wandb-" (frag_type attrs)
            = true) as ->.
    { destruct Hty as [->| ->]; [reflexivity|apply orb_true_r]. }
    by eexists.
  - intros Hn Hj Hw Hlen. unfold from_attrs, __init__. rewrite Hn, Hw.
    rewrite bool_decide_eq_false_2 by done. cbn [negb orb mbind result_bind].
    destruct (version_aliases _ _) as [|v [|]]; simpl in Hlen; try reflexivity.
    contradiction.
Qed.
End Load.

Lemma _load_manifest_outcomes_witness :
  (_load_manifest env_with_reference "https://storage/manifest.json" start0).1
  = Raise (AttributeError "'Artifact' object has no attribute 'client'")
  ∧ List.length (entries (_manifest (self
       (_load_manifest env_with_reference "https://storage/manifest.json" start0).2)))
    = 2%nat.
Proof.
  rewrite (_load_manifest_outcomes env_with_reference "https://storage/manifest.json"
             _ start0 eq_refl).
  split; reflexivity.
Defined.

Lemma from_attrs_result_witness :
  ∃ a, from_attrs env0 "team" "vision" "mnist:v0" fragment0 client0 = Ok a ∧
    _final a = true ∧ _saved_aliases a = _aliases a.
Proof.
  destruct (from_attrs env0 "team" "vision" "mnist:v0" fragment0 client0) as [a|e] eqn:H;
    [|vm_compute in H; discriminate H].
  exists a. split; [reflexivity|].
  destruct (from_attrs_result env0 "team" "vision" "mnist:v0" fragment0 client0 a H)
    as (Hf & _ & _ & _ & _ & _ & _ & _ & _ & Hs & _).
  split; [exact Hf|exact Hs].
Defined.

Lemma from_attrs_failures_witness :
  ∃ msg, from_attrs env0 "team" "vision" "mnist:v0" job_fragment client0
         = Raise (ValueError msg).
Proof.
  exact (proj1 (from_attrs_failures env0 "team" "vision" "mnist:v0" job_fragment client0)
           (or_introl eq_refl)).
Defined.

(** *** A [wait] that cannot finish *)

Section WaitFailures.
Context (env : Env).

(** On a pending artifact [wait] raises and leaves everything as it was
    when no save has been started ([ArtifactNotLoggedError]), when the
    future gives no result in time ([WaitTimeoutError]), when the response
    carries an error message ([ValueError] with that message) and when the
    service does not know the id of the response ([ValueError]). *)
Theorem wait_failures_change_nothing (st : State) :
  _state (self st) = PENDING →
  (_save_future (self st) = None →
   wait env st = (Raise (ArtifactNotLoggedError "wait"), st)) ∧
  (∀ fut, _save_future (self st) = Some fut → future_get fut = None →
     wait env st = (Raise WaitTimeoutError, st)) ∧
  (∀ fut resp, _save_future (self st) = Some fut → future_get fut = Some resp →
     error_message resp ≠ "" →
     wait env st = (Raise (ValueError (error_message resp)), st)) ∧
  (∀ fut resp c, _save_future (self st) = Some fut → future_get fut = Some resp →
     error_message resp = "" → _client (self st) = Some c →
     artifact_by_id c (artifact_id resp) = None →
     wait env st = (Raise (ValueError ("Unable to fetch artifact with id "
                                       +:+ artifact_id resp)), st)).
Proof.
  intros Hs.
  assert (∀ k : M unit, (if decide (_state (self st) = PENDING) then k else mret tt) st
                        = k st) as Hif.
  { intros k. by rewrite decide_True. }
  unfold wait, get_self, mbind, M_bind. cbn beta iota.
  split; [|split; [|split]].
  - intros H. rewrite Hif, H. reflexivity.
  - intros fut H1 H2. rewrite Hif, H1, H2. reflexivity.
  - intros fut resp H1 H2 Hne. rewrite Hif, H1, H2. by rewrite decide_False.
  - intros fut resp c H1 H2 He Hc Hnone. rewrite Hif, H1, H2.
    rewrite decide_True by done.
    unfold _populate_after_save, the_client, get_self, mbind, M_bind, mret, M_ret.
    cbn beta iota. rewrite Hc. cbn beta iota. rewrite Hnone. reflexivity.
Qed.
End WaitFailures.

Lemma wait_failures_change_nothing_witness :
  wait env0 start0 = (Raise (ArtifactNotLoggedError "wait"), start0).
Proof.
  exact (proj1 (wait_failures_change_nothing env0 start0 eq_refl) eq_refl).
Defined.

(** *** Saving twice *)

Lemma save_new_backend_run (st : State) (c : RetryingClient) (i : string)
    (log_artifact : M unit) :
  _state (self st) ≠ PENDING →
  _client (self st) = Some c →
  _id (self st) = Some i →
  has_AddAliasesInput c = true →
  let a := self st in
  let to_add : gset string := list_to_set (_aliases a) ∖ list_to_set (_saved_aliases a) in
  let to_delete : gset string := list_to_set (_saved_aliases a) ∖ list_to_set (_aliases a) in
  let coll := before_char ":" (_name a) in
  save log_artifact st
  = (Ok tt,
     mkState (set__saved_aliases (_aliases a) a) (files st) (next_tmp st)
       (sent st
        ++ (if decide (to_add = ∅) then []
            else [AddAliasesMutation (Some i) (_entity a) (_project a) coll to_add])
        ++ (if decide (to_delete = ∅) then []
            else [DeleteAliasesMutation (Some i) (_entity a) (_project a) coll to_delete])
        ++ [UpdateArtifactMutation (Some i) (_description a) (_metadata a) None])).
Proof.
  intros Hs Hc Hi Hb a to_add to_delete coll.
  unfold save, get_self, mbind, M_bind.
  destruct (decide (_state (self st) ≠ PENDING)) as [_|E]; [|contradiction].
  unfold _update, the_client, get_self, execute, lift, id, modify_self, mret, M_ret,
    mbind, M_bind, result_bind. simpl.
  rewrite Hc. simpl.
  destruct (decide (_state (self st) = PENDING)) as [E|_]; [contradiction|].
  rewrite Hi, Hb. simpl.
  fold a. fold to_add. fold to_delete. fold coll.
  destruct (decide (to_add = ∅)) as [Ea|Ea];
    destruct (decide (to_delete = ∅)) as [Ed|Ed]; simpl;
    rewrite <- ?app_assoc; reflexivity.
Qed.

(** Two [save]s in a row on a logged artifact, against a backend that knows
    [AddAliasesInput]: both return, and the second one sends no alias
    mutation at all, only the [updateArtifact] with the description and the
    metadata, and leaves the artifact as the first one left it. *)
Theorem second_save_sends_no_alias_change (st : State) (c : RetryingClient) (i : string)
    (log_artifact : M unit) :
  _state (self st) ≠ PENDING →
  _client (self st) = Some c →
  _id (self st) = Some i →
  has_AddAliasesInput c = true →
  ∃ st1 st2, save log_artifact st = (Ok tt, st1) ∧ save log_artifact st1 = (Ok tt, st2) ∧
    self st2 = self st1 ∧ files st2 = files st ∧
    sent st2 = sent st1 ++ [UpdateArtifactMutation (Some i) (_description (self st))
                              (_metadata (self st)) None].
Proof.
  intros Hs Hc Hi Hb.
  pose proof (save_new_backend_run st c i log_artifact Hs Hc Hi Hb) as H1.
  cbv zeta in H1.
  eexists. eexists. split; [exact H1|].
  match goal with |- save _ ?s = _ ∧ _ => set (st1 := s) end.
  pose proof (save_new_backend_run st1 c i log_artifact Hs Hc Hi Hb) as H2.
  cbv zeta in H2.
  assert (list_to_set (_aliases (self st1)) ∖ list_to_set (_saved_aliases (self st1))
          = (∅ : gset string)) as E1 by (simpl; set_solver).
  assert (list_to_set (_saved_aliases (self st1)) ∖ list_to_set (_aliases (self st1))
          = (∅ : gset string)) as E2 by (simpl; set_solver).
  rewrite E1, E2 in H2. rewrite !decide_True in H2 by done.
  split; [exact H2|]. split; [|split]; reflexivity.
Qed.

Lemma second_save_sends_no_alias_change_witness :
  let st := mkState (committed_with client0 ["latest"; "best"] ["latest"] (mkManifest []))
              ∅ 0 [] in
  ∃ st1 st2, save (mret tt) st = (Ok tt, st1) ∧ save (mret tt) st1 = (Ok tt, st2) ∧
    List.length (sent st1) = 2%nat ∧ List.length (sent st2) = 3%nat.
Proof.
  intros st.
  destruct (second_save_sends_no_alias_change st client0 "QXJ0aWZhY3Q6MQ==" (mret tt))
    as (st1 & st2 & H1 & H2 & _ & _ & Hsent); [discriminate|reflexivity|reflexivity|reflexivity|].
  exists st1, st2. split; [exact H1|]. split; [exact H2|].
  assert (List.length (sent st1) = 2%nat) as Hl.
  { vm_compute in H1. injection H1 as <-. reflexivity. }
  split; [exact Hl|]. rewrite Hsent, length_app, Hl. reflexivity.
Defined.

(** *** Where the files go when no root is given *)

Lemma bind_ok_inv {A B} (m : M A) (f : A → M B) (st st' : State) (b : B) :
  (m ≫= f) st = (Ok b, st') → ∃ a st1, m st = (Ok a, st1) ∧ f a st1 = (Ok b, st').
Proof.
  unfold mbind, M_bind. destruct (m st) as [[a|e] st1]; intros H; [|discriminate H].
  by exists a, st1.
Qed.

Lemma before_char_contains (s : string) :
  contains_char ":" s = true → before_char ":" s ≠ s.
Proof.
  induction s as [|d s IH]; [discriminate|].
  cbn [contains_char before_char].
  destruct (Ascii.eqb_spec d ":") as [->|Hne].
  - discriminate.
  - rewrite (proj2 (Ascii.eqb_neq ":" d)) by congruence.
    intros H Heq. injection Heq as Heq. by apply IH.
Qed.

Section DefaultRoots.
Context (env : Env).

Lemma default_root_posix (include_version : bool) (a : Artifact) :
  is_windows env = false →
  get_artifact_dir env ≠ "" →
  _default_root env include_version a
  = get_artifact_dir env +:+ "/"
    +:+ (if include_version then name a else before_char ":" (name a)).
Proof.
  intros Hw Hd. unfold _default_root, path_join. rewrite Hw.
  by rewrite decide_False.
Qed.

(** What [download] answers when it returns. *)
Lemma download_returns (root : option string) (recursive : bool) (st st' : State)
    (r : string) :
  download env root recursive st = (Ok r, st') →
  r = or_str root (_default_root env true (self st)).
Proof.
  unfold download. unfold get_self at 1. unfold mbind at 1, M_bind at 1. cbn beta iota.
  destruct (decide (_state (self st) = PENDING)); [discriminate|].
  intros H.
  apply bind_ok_inv in H as (? & s1 & _ & H).
  apply bind_ok_inv in H as (? & s2 & _ & H).
  apply bind_ok_inv in H as (? & s3 & _ & H).
  apply bind_ok_inv in H as (? & s4 & _ & H).
  by injection H as <- _.
Qed.

(** With no root given, [checkout] works on the directory named after the
    collection alone, while [download] works on the directory named after
    the whole name. For a name with a version, as every logged artifact has
    it, these are two directories: what [checkout()] cleans and fills is not
    what [download()] fills. *)
Theorem checkout_and_download_default_roots (st st1 st2 : State) (r1 r2 : string)
    (recursive : bool) :
  is_windows env = false →
  get_artifact_dir env ≠ "" →
  checkout env None st = (Ok r1, st1) →
  download env None recursive st = (Ok r2, st2) →
  r1 = get_artifact_dir env +:+ "/" +:+ before_char ":" (name (self st)) ∧
  r2 = get_artifact_dir env +:+ "/" +:+ name (self st) ∧
  (contains_char ":" (name (self st)) = true → r1 ≠ r2).
Proof.
  intros Hw Hd Hc Hdl.
  apply download_returns in Hdl.
  unfold checkout in Hc. unfold get_self at 1 in Hc.
  unfold mbind at 1, M_bind at 1 in Hc. cbn beta iota in Hc.
  destruct (decide (_state (self st) = PENDING)); [discriminate Hc|].
  apply bind_ok_inv in Hc as (? & s1 & _ & Hc).
  apply bind_ok_inv in Hc as (? & s2 & _ & Hc).
  apply download_returns in Hc.
  rewrite default_root_posix in Hc, Hdl by done.
  cbn [or_str] in Hc, Hdl. rewrite decide_False in Hc.
  2:{ destruct (get_artifact_dir env); [done|discriminate]. }
  subst r1 r2. split; [reflexivity|]. split; [reflexivity|].
  intros Hcol Heq. apply (before_char_contains _ Hcol).
  apply (inj (String.app (get_artifact_dir env))) in Heq.
  by apply (inj (String.app "/")) in Heq.
Qed.
End DefaultRoots.

Lemma checkout_and_download_default_roots_witness :
  let st := mkState artifact_A ∅ 0 [] in
  (checkout env0 None st).1 = Ok "artifacts/mnist" ∧
  (download env0 None false st).1 = Ok "artifacts/mnist:v0".
Proof.
  intros st.
  destruct (checkout env0 None st) as [[r1|e1] st1] eqn:H1;
    [|vm_compute in H1; discriminate H1].
  destruct (download env0 None false st) as [[r2|e2] st2] eqn:H2;
    [|vm_compute in H2; discriminate H2].
  destruct (checkout_and_download_default_roots env0 st st1 st2 r1 r2 false)
    as (-> & -> & _); [reflexivity|discriminate|exact H1|exact H2|].
  split; reflexivity.
Defined.

(** *** A draft of a logged artifact *)

(** [new_draft] refuses a pending artifact. What it returns otherwise is a
    pending artifact that is not final, named after the source collection of
    the artifact it comes from, with the same type, description and metadata
    and with the copied manifest; it has no id, no client, no save future
    and the aliases of a new artifact, it accepts additions, and [save] on
    it hands it to the run. *)
Theorem new_draft_result (copy_manifest : ArtifactManifest -> result ArtifactManifest)
    (a : Artifact) :
  (_state a = PENDING →
   new_draft copy_manifest a = Raise (ArtifactNotLoggedError "new_draft")) ∧
  ∀ d, new_draft copy_manifest a = Ok d →
    _state a ≠ PENDING ∧ _state d = PENDING ∧ _final d = false ∧
    name d = before_char ":" (source_name a) ∧ source_name d = name d ∧
    _type d = _type a ∧ _description d = _description a ∧ _metadata d = _metadata a ∧
    copy_manifest (_manifest a) = Ok (_manifest d) ∧
    _aliases d = ["latest"] ∧ _saved_aliases d = [] ∧
    id d = Ok None ∧ _client d = None ∧ _save_future d = None ∧
    ∀ fs n s log_artifact,
      _ensure_can_add (mkState d fs n s) = (Ok tt, mkState d fs n s) ∧
      save log_artifact (mkState d fs n s) = log_artifact (mkState d fs n s).
Proof.
  unfold new_draft. split.
  - intros Hs. by rewrite decide_True.
  - intros d H. destruct (decide (_state a = PENDING)) as [|Hs]; [discriminate H|].
    unfold __init__ in H.
    destruct (negb _); [discriminate H|]. destruct (_ || _); [discriminate H|].
    cbn [mbind result_bind] in H.
    destruct (copy_manifest (manifest a)) as [m|e] eqn:Hm; [|discriminate H].
    cbn [mbind result_bind] in H. injection H as <-.
    unfold id, name, source_name, description, metadata. cbn.
    repeat split; try done.
Qed.

Lemma new_draft_result_witness :
  ∃ d, new_draft Ok artifact_A = Ok d ∧ name d = "mnist" ∧ _state d = PENDING.
Proof.
  destruct (new_draft Ok artifact_A) as [d|e] eqn:H; [|vm_compute in H; discriminate H].
  exists d. split; [reflexivity|].
  destruct (proj2 (new_draft_result Ok artifact_A) d H) as (_ & Hs & _ & Hn & _).
  split; [exact Hn|exact Hs].
Defined.

(** *** Fetching the one file of an artifact *)

Section SingleFile.
Context (env : Env).

End SingleFile.


(** *** Getting an object back *)



Section GetObject.
Context (env : Env) {V : Type}.

End GetObject.


(** *** What a draft refuses *)

Section Drafts.
Context (env : Env) {V : Type}.

(** On a pending artifact the methods that read the logged content,
    [get_path], [get], [download], [checkout], [verify] and [file], raise
    [ArtifactNotLoggedError] naming the method, before anything else is
    looked at, and leave everything as it was. *)
Theorem readers_refuse_a_draft (st : State) :
  _state (self st) = PENDING →
  (∀ n, get_path env n st = (Raise (ArtifactNotLoggedError "get_path"), st)) ∧
  (∀ (is_table : nat -> bool) (from_json : nat -> string -> result V) n,
     get env is_table from_json n st = (Raise (ArtifactNotLoggedError "get"), st)) ∧
  (∀ r recursive,
     download env r recursive st = (Raise (ArtifactNotLoggedError "download"), st)) ∧
  (∀ r, checkout env r st = (Raise (ArtifactNotLoggedError "checkout"), st)) ∧
  (∀ r, verify env r st = (Raise (ArtifactNotLoggedError "verify"), st)) ∧
  (∀ r, file env r st = (Raise (ArtifactNotLoggedError "file"), st)).
Proof.
  intros Hs.
  split; [|split; [|split; [|split; [|split]]]]; intros.
  - unfold get_path. unfold get_self, mbind, M_bind. cbn beta iota.
    by rewrite decide_True.
  - unfold get. unfold get_self, mbind, M_bind. cbn beta iota.
    by rewrite decide_True.
  - unfold download. unfold get_self, mbind, M_bind. cbn beta iota.
    by rewrite decide_True.
  - unfold checkout. unfold get_self, mbind, M_bind. cbn beta iota.
    by rewrite decide_True.
  - unfold verify. unfold get_self, mbind, M_bind. cbn beta iota.
    by rewrite decide_True.
  - unfold file. unfold get_self, mbind, M_bind. cbn beta iota.
    by rewrite decide_True.
Qed.
End Drafts.

Lemma readers_refuse_a_draft_witness :
  download env0 None false start0 = (Raise (ArtifactNotLoggedError "download"), start0).
Proof.
  destruct (readers_refuse_a_draft (V := string) env0 start0 eq_refl)
    as (_ & _ & H & _).
  exact (H None false).
Defined.
